(** * ai-chat-app-angular: the conversation store and the streaming assembler

    A shallow embedding of [ChatStorageService] (chat-storage.service.ts)
    and of [AiService] (the completion client with its stream assembler),
    followed by the properties of the specification that concern them.

    In-memory values inhabit their TypeScript interfaces (records below).
    Values that come out of [JSON.parse] are untyped ([JValue]); the
    defensive checks of the source run on them as written, and the
    unchecked casts of the source ([as ChatHistory], reads from [any])
    are the decoders [asChatHistory] and [viewEvent]. *)

From Stdlib Require Import ZArith String Ascii List Bool Lia Sorted.
From stdpp Require Import base option list strings gmap pretty.

Set Warnings "-register-all".
Local Open Scope string_scope.
Local Open Scope Z_scope.
Local Open Scope list_scope.

(** ** JSON values and the JavaScript operations the services apply to them *)

Module Js.

(** What [JSON.parse] can return.  Numbers are restricted to integers:
    the services only store timestamps, counters and token counts. *)
Inductive JValue : Type :=
| JNull
| JBool (b : bool)
| JNum (n : Z)
| JStr (s : string)
| JArr (elements : list JValue)
| JObj (fields : list (string * JValue)).

(** Errors that reach a [catch] block of the services. *)
Inductive JsError : Type :=
| Error (message : string)    (* [throw new Error(message)] in the source *)
| SyntaxError                 (* raised by [JSON.parse] *)
| TypeError                   (* property access on [null] or [undefined] *)
| QuotaExceededError.         (* raised by [localStorage.setItem] *)

Inductive Result (A : Type) : Type :=
| Ok (a : A)
| Raise (e : JsError).
Arguments Ok {A} a.
Arguments Raise {A} e.

(** Own property of an object, first binding of the key. *)
Fixpoint assoc (k : string) (fields : list (string * JValue)) : option JValue :=
  match fields with
  | [] => None
  | (k', v) :: rest => if String.eqb k k' then Some v else assoc k rest
  end.

(** [v.k] for a [v] that is not [null]; [None] is [undefined].  The
    services only read names that primitives and arrays do not have. *)
Definition prop (v : JValue) (k : string) : option JValue :=
  match v with
  | JObj fields => assoc k fields
  | _ => None
  end.

(** [o?.k] on a possibly undefined or null receiver. *)
Definition optProp (o : option JValue) (k : string) : option JValue :=
  match o with
  | None | Some JNull => None
  | Some v => prop v k
  end.

(** [v[0]]: first element of an array, first character of a string,
    property ["0"] of an object. *)
Definition index0 (v : JValue) : option JValue :=
  match v with
  | JArr (x :: _) => Some x
  | JStr (String c _) => Some (JStr (String c EmptyString))
  | JObj fields => assoc "0" fields
  | _ => None
  end.

(** ToBoolean. *)
Definition truthyValue (v : JValue) : bool :=
  match v with
  | JNull => false
  | JBool b => b
  | JNum n => negb (n =? 0)
  | JStr s => negb (String.eqb s "")
  | JArr _ | JObj _ => true
  end.

Definition truthy (o : option JValue) : bool :=
  match o with
  | Some v => truthyValue v
  | None => false
  end.

(** [typeof o === "number"]. *)
Definition isNumber (o : option JValue) : bool :=
  match o with
  | Some (JNum _) => true
  | _ => false
  end.

(** [Array.isArray(o)]. *)
Definition isArray (o : option JValue) : bool :=
  match o with
  | Some (JArr _) => true
  | _ => false
  end.

(** [s || d] on strings. *)
Definition orString (s : option string) (d : string) : string :=
  match s with
  | Some (String c r) => String c r
  | _ => d
  end.

(** [!b] on an optional boolean property. *)
Definition notFlag (b : option bool) : bool :=
  match b with
  | Some true => false
  | _ => true
  end.

End Js.
Import Js.

(** ** Data model (models/chat.interface.ts) *)

Inductive MessageSender : Type := USER | AI | SYSTEM.

Definition senderString (s : MessageSender) : string :=
  match s with
  | USER => "user"
  | AI => "ai"
  | SYSTEM => "system"
  end.

#[global] Instance MessageSender_eq_dec : EqDecision MessageSender.
Proof. solve_decision. Defined.

Record MessageMetadata : Type := mkMessageMetadata {
  mm_tokens : option Z;
  mm_processingTime : option Z;
  mm_model : option string;
  mm_promptTokens : option Z;
  mm_completionTokens : option Z;
  mm_totalTokens : option Z;
  mm_finishReason : option string
}.

Record ChatMessage : Type := mkChatMessage {
  m_id : string;
  m_sender : MessageSender;
  m_content : string;
  m_timestamp : Z;
  m_isError : option bool;
  m_isPending : option bool;
  m_metadata : option MessageMetadata
}.

Record ConversationMetadata : Type := mkConversationMetadata {
  c_id : string;
  c_title : option string;
  c_createdAt : Z;
  c_updatedAt : Z;
  c_totalMessages : Z;
  c_userMessageCount : Z;
  c_aiMessageCount : Z;
  c_totalTokensUsed : option Z;
  c_tags : option (list string);
  c_isFavorite : option bool;
  c_isArchived : option bool
}.

Record ChatHistory : Type := mkChatHistory {
  h_messages : list ChatMessage;
  h_metadata : ConversationMetadata
}.

Inductive ApiRole : Type := RoleSystem | RoleUser | RoleAssistant.

Record OpenAIChatMessage : Type := mkOpenAIChatMessage {
  api_role : ApiRole;
  api_content : string
}.

Record OpenAIChatRequest : Type := mkOpenAIChatRequest {
  req_model : string;
  req_messages : list OpenAIChatMessage;
  req_stream : bool
}.

Record LoadingState : Type := mkLoadingState {
  isLoading : bool;
  loadingMessage : option string
}.

Record ErrorState : Type := mkErrorState {
  hasError : bool;
  errorMessage : option string
}.

(** ** The completion client: request construction (AiService) *)

Definition SYSTEM_INSTRUCTION : string :=
  "You are a helpful AI assistant. Provide concise, accurate, and helpful responses.".

(** The [for] loop of [formatConversationForApi]: [acc] is
    [formattedMessages], each kept entry is pushed at its end. *)
Fixpoint formatLoop (history : list ChatMessage) (acc : list OpenAIChatMessage)
  : list OpenAIChatMessage :=
  match history with
  | [] => acc
  | message :: rest =>
      if bool_decide (m_sender message = SYSTEM) || negb (notFlag (m_isError message))
      then formatLoop rest acc
      else
        let role :=
          if bool_decide (m_sender message = USER) then RoleUser else RoleAssistant in
        formatLoop rest (acc ++ [mkOpenAIChatMessage role (m_content message)])
  end.

Definition formatConversationForApi (history : list ChatMessage) (newUserMessage : string)
  : list OpenAIChatMessage :=
  let formattedMessages := [mkOpenAIChatMessage RoleSystem SYSTEM_INSTRUCTION] in
  let formattedMessages := formatLoop history formattedMessages in
  formattedMessages ++ [mkOpenAIChatMessage RoleUser newUserMessage].

(** The request [sendMessage] hands to either transport. *)
Definition requestPayload (defaultModel : string) (userMessage : string)
    (conversationHistory : list ChatMessage) (streamResponse : bool) : OpenAIChatRequest :=
  mkOpenAIChatRequest defaultModel
    (formatConversationForApi conversationHistory userMessage) streamResponse.

(** The request as section 4.2 of the specification words it: history
    entries that are neither system-sent nor error-flagged, in order. *)
Definition keptForApi (message : ChatMessage) : bool :=
  negb (bool_decide (m_sender message = SYSTEM)) && notFlag (m_isError message).

Definition toApiMessage (message : ChatMessage) : OpenAIChatMessage :=
  mkOpenAIChatMessage
    (match m_sender message with USER => RoleUser | _ => RoleAssistant end)
    (m_content message).

Definition specRequestMessages (history : list ChatMessage) (newUserMessage : string)
  : list OpenAIChatMessage :=
  mkOpenAIChatMessage RoleSystem SYSTEM_INSTRUCTION
    :: map toApiMessage (filter (fun m => keptForApi m = true) history)
    ++ [mkOpenAIChatMessage RoleUser newUserMessage].

(** ** Platform and configuration

    What the services take from their surroundings: the two configuration
    values of [environment] they read, and the platform functions whose
    results the source does not determine.  [Date_now n] and [uuidv4 n]
    are the results of the [n]-th call of [Date.now()] and [uuidv4()];
    [localStorage_accepts] tells whether [setItem] stores or throws. *)

Inductive StoredText : Type :=
| RawText (s : string)      (* a string that [JSON.parse] rejects *)
| JsonText (v : JValue).    (* the JSON text of [v] *)

Class Environment : Type := {
  CHAT_HISTORY_KEY : string;
  MAX_HISTORY_ITEMS : nat;
  Date_now : nat -> Z;
  uuidv4 : nat -> string;
  JSON_parse : string -> option JValue;
  engine_message : JsError -> string;
  localStorage_accepts : gmap string StoredText -> string -> StoredText -> bool
}.

(** [error.message]. *)
Definition error_message `{Environment} (e : JsError) : string :=
  match e with
  | Error message => message
  | _ => engine_message e
  end.

(** ** The JSON form of the data model

    [JSON.stringify] of a typed value, and the typed reading of a parsed
    value that the source obtains by an unchecked cast. *)

Definition optField {A : Type} (k : string) (f : A -> JValue) (o : option A)
  : list (string * JValue) :=
  match o with
  | Some a => [(k, f a)]
  | None => []
  end.

Definition encodeMessageMetadata (m : MessageMetadata) : JValue :=
  JObj (optField "tokens" JNum (mm_tokens m)
        ++ optField "processingTime" JNum (mm_processingTime m)
        ++ optField "model" JStr (mm_model m)
        ++ optField "promptTokens" JNum (mm_promptTokens m)
        ++ optField "completionTokens" JNum (mm_completionTokens m)
        ++ optField "totalTokens" JNum (mm_totalTokens m)
        ++ optField "finishReason" JStr (mm_finishReason m)).

Definition encodeMessage (m : ChatMessage) : JValue :=
  JObj ([("id", JStr (m_id m));
         ("sender", JStr (senderString (m_sender m)));
         ("content", JStr (m_content m));
         ("timestamp", JNum (m_timestamp m))]
        ++ optField "isError" JBool (m_isError m)
        ++ optField "isPending" JBool (m_isPending m)
        ++ optField "metadata" encodeMessageMetadata (m_metadata m)).

Definition encodeMetadata (c : ConversationMetadata) : JValue :=
  JObj ([("id", JStr (c_id c))]
        ++ optField "title" JStr (c_title c)
        ++ [("createdAt", JNum (c_createdAt c));
            ("updatedAt", JNum (c_updatedAt c));
            ("totalMessages", JNum (c_totalMessages c));
            ("userMessageCount", JNum (c_userMessageCount c));
            ("aiMessageCount", JNum (c_aiMessageCount c))]
        ++ optField "totalTokensUsed" JNum (c_totalTokensUsed c)
        ++ optField "tags" (fun tags => JArr (map JStr tags)) (c_tags c)
        ++ optField "isFavorite" JBool (c_isFavorite c)
        ++ optField "isArchived" JBool (c_isArchived c)).

Definition encodeChatHistory (h : ChatHistory) : JValue :=
  JObj [("messages", JArr (map encodeMessage (h_messages h)));
        ("metadata", encodeMetadata (h_metadata h))].

Definition asString (v : JValue) : option string :=
  match v with JStr s => Some s | _ => None end.

Definition asNumber (v : JValue) : option Z :=
  match v with JNum n => Some n | _ => None end.

Definition asBoolean (v : JValue) : option bool :=
  match v with JBool b => Some b | _ => None end.

Definition asSender (v : JValue) : option MessageSender :=
  match v with
  | JStr s =>
      if String.eqb s "user" then Some USER
      else if String.eqb s "ai" then Some AI
      else if String.eqb s "system" then Some SYSTEM
      else None
  | _ => None
  end.

Definition asTags (v : JValue) : option (list string) :=
  match v with JArr elements => mapM asString elements | _ => None end.

(** A required property. *)
Definition required {A : Type} (as_ : JValue -> option A) (o : option JValue) : option A :=
  match o with
  | Some v => as_ v
  | None => None
  end.

(** An optional property: absent, or of the declared type. *)
Definition optional {A : Type} (as_ : JValue -> option A) (o : option JValue)
  : option (option A) :=
  match o with
  | Some v => option_map Some (as_ v)
  | None => Some None
  end.

Definition asMessageMetadata (v : JValue) : option MessageMetadata :=
  match v with
  | JObj _ =>
      tokens ← optional asNumber (prop v "tokens");
      processingTime ← optional asNumber (prop v "processingTime");
      model ← optional asString (prop v "model");
      promptTokens ← optional asNumber (prop v "promptTokens");
      completionTokens ← optional asNumber (prop v "completionTokens");
      totalTokens ← optional asNumber (prop v "totalTokens");
      finishReason ← optional asString (prop v "finishReason");
      Some (mkMessageMetadata tokens processingTime model promptTokens
              completionTokens totalTokens finishReason)
  | _ => None
  end.

Definition asChatMessage (v : JValue) : option ChatMessage :=
  match v with
  | JObj _ =>
      id ← required asString (prop v "id");
      sender ← required asSender (prop v "sender");
      content ← required asString (prop v "content");
      timestamp ← required asNumber (prop v "timestamp");
      isError ← optional asBoolean (prop v "isError");
      isPending ← optional asBoolean (prop v "isPending");
      metadata ← optional asMessageMetadata (prop v "metadata");
      Some (mkChatMessage id sender content timestamp isError isPending metadata)
  | _ => None
  end.

Definition asConversationMetadata (v : JValue) : option ConversationMetadata :=
  match v with
  | JObj _ =>
      id ← required asString (prop v "id");
      title ← optional asString (prop v "title");
      createdAt ← required asNumber (prop v "createdAt");
      updatedAt ← required asNumber (prop v "updatedAt");
      totalMessages ← required asNumber (prop v "totalMessages");
      userMessageCount ← required asNumber (prop v "userMessageCount");
      aiMessageCount ← required asNumber (prop v "aiMessageCount");
      totalTokensUsed ← optional asNumber (prop v "totalTokensUsed");
      tags ← optional asTags (prop v "tags");
      isFavorite ← optional asBoolean (prop v "isFavorite");
      isArchived ← optional asBoolean (prop v "isArchived");
      Some (mkConversationMetadata id title createdAt updatedAt totalMessages
              userMessageCount aiMessageCount totalTokensUsed tags isFavorite isArchived)
  | _ => None
  end.

(** [JSON.parse(text) as ChatHistory]: the typed value a parsed value
    stands for, if it inhabits the interface. *)
Definition asChatHistory (v : JValue) : option ChatHistory :=
  match prop v "messages", prop v "metadata" with
  | Some (JArr elements), Some metadata =>
      messages ← mapM asChatMessage elements;
      metadata ← asConversationMetadata metadata;
      Some (mkChatHistory messages metadata)
  | _, _ => None
  end.

(** ** validateConversation, on the parsed value *)

Definition validateMessage (message : JValue) : Result unit :=
  match message with
  | JNull => Raise TypeError    (* [message.id] on [null] *)
  | _ =>
      if negb (truthy (prop message "id"))
         || negb (truthy (prop message "sender"))
         || negb (truthy (prop message "content"))
         || negb (truthy (prop message "timestamp"))
      then Raise (Error "Invalid message format: missing required properties")
      else Ok tt
  end.

Fixpoint validateMessages (messages : list JValue) : Result unit :=
  match messages with
  | [] => Ok tt
  | message :: rest =>
      match validateMessage message with
      | Ok _ => validateMessages rest
      | Raise e => Raise e
      end
  end.

Definition validateConversation (conversation : JValue) : Result unit :=
  let metadata := prop conversation "metadata" in
  let messages := prop conversation "messages" in
  if negb (truthyValue conversation) || negb (truthy metadata) || negb (truthy messages)
  then Raise (Error "Invalid conversation format: missing required properties")
  else if negb (truthy (optProp metadata "id"))
          || negb (isNumber (optProp metadata "createdAt"))
          || negb (isNumber (optProp metadata "updatedAt"))
  then Raise (Error "Invalid conversation metadata")
  else match messages with
       | Some (JArr elements) => validateMessages elements
       | _ => Raise (Error "Invalid messages format: not an array")
       end.

(** ** The conversation store (ChatStorageService)

    The fields of the service and the browser's [localStorage].  A stored
    string is kept as what [JSON.parse] makes of it ([StoredText]).
    Objects are kept by value.  Where the source writes into an object
    that a subject already holds, the write is replayed on the subject
    ([clearCurrentConversation]).  The entries of the in-memory index are
    the metadata as [saveConversation] last put them there; in the source
    an entry is the very object of the conversation, so that later writes
    to its counters show through until the next save.  Nothing below
    depends on more of an index entry than its id. *)

Record ServiceState : Type := mkServiceState {
  localStorage : gmap string StoredText;
  activeConversationId : option string;
  conversationsSubject : list ConversationMetadata;
  currentConversationSubject : option ChatHistory;
  storageErrorSubject : option string;
  saveSubject : list ChatHistory;   (* values handed to the debounced save, oldest first *)
  clock : nat;                      (* calls of [Date.now()] so far *)
  entropy : nat                     (* calls of [uuidv4()] so far *)
}.

(** Why a run leaves the typed model. *)
Inductive AbortReason : Type :=
| UnsoundCast      (* a parsed value does not inhabit the interface it is cast to *)
| OutOfFuel.       (* the recursion budget of [addMessage] is used up *)

Inductive Outcome (A : Type) : Type :=
| Returned (a : A) (st : ServiceState)
| Thrown (e : JsError) (st : ServiceState)
| Aborted (why : AbortReason).
Arguments Returned {A} a st.
Arguments Thrown {A} e st.
Arguments Aborted {A} why.

Definition Action (A : Type) : Type := ServiceState -> Outcome A.

Definition ret {A : Type} (a : A) : Action A := fun st => Returned a st.

Definition bind {A B : Type} (m : Action A) (k : A -> Action B) : Action B :=
  fun st =>
    match m st with
    | Returned a st' => k a st'
    | Thrown e st' => Thrown e st'
    | Aborted why => Aborted why
    end.

Definition throw {A : Type} (e : JsError) : Action A := fun st => Thrown e st.

(** [try { body } catch (error) { handler(error) }]. *)
Definition tryCatch {A : Type} (body : Action A) (handler : JsError -> Action A)
  : Action A :=
  fun st =>
    match body st with
    | Thrown e st' => handler e st'
    | other => other
    end.

Notation "x <- a ;; b" := (bind a (fun x => b))
  (at level 100, a at next level, right associativity).
Notation "a ;; b" := (bind a (fun _ => b))
  (at level 100, right associativity).

Definition liftResult {A : Type} (r : Result A) : Action A :=
  match r with
  | Ok a => ret a
  | Raise e => throw e
  end.

Definition cast {A : Type} (o : option A) : Action A :=
  match o with
  | Some a => ret a
  | None => fun _ => Aborted UnsoundCast
  end.

Definition withLocalStorage (items : gmap string StoredText) (st : ServiceState)
  : ServiceState :=
  mkServiceState items (activeConversationId st) (conversationsSubject st)
    (currentConversationSubject st) (storageErrorSubject st) (saveSubject st)
    (clock st) (entropy st).

Definition withActiveConversationId (id : option string) (st : ServiceState)
  : ServiceState :=
  mkServiceState (localStorage st) id (conversationsSubject st)
    (currentConversationSubject st) (storageErrorSubject st) (saveSubject st)
    (clock st) (entropy st).

Definition withConversations (conversations : list ConversationMetadata)
    (st : ServiceState) : ServiceState :=
  mkServiceState (localStorage st) (activeConversationId st) conversations
    (currentConversationSubject st) (storageErrorSubject st) (saveSubject st)
    (clock st) (entropy st).

Definition withCurrentConversation (conversation : option ChatHistory)
    (st : ServiceState) : ServiceState :=
  mkServiceState (localStorage st) (activeConversationId st) (conversationsSubject st)
    conversation (storageErrorSubject st) (saveSubject st) (clock st) (entropy st).

Definition withStorageError (message : option string) (st : ServiceState)
  : ServiceState :=
  mkServiceState (localStorage st) (activeConversationId st) (conversationsSubject st)
    (currentConversationSubject st) message (saveSubject st) (clock st) (entropy st).

Definition withSaveSubject (pushed : list ChatHistory) (st : ServiceState)
  : ServiceState :=
  mkServiceState (localStorage st) (activeConversationId st) (conversationsSubject st)
    (currentConversationSubject st) (storageErrorSubject st) pushed
    (clock st) (entropy st).

Definition modify (f : ServiceState -> ServiceState) : Action unit :=
  fun st => Returned tt (f st).

Definition read {A : Type} (f : ServiceState -> A) : Action A :=
  fun st => Returned (f st) st.

(** [Date.now()]. *)
Definition dateNow `{Environment} : Action Z :=
  fun st =>
    Returned (Date_now (clock st))
      (mkServiceState (localStorage st) (activeConversationId st)
         (conversationsSubject st) (currentConversationSubject st)
         (storageErrorSubject st) (saveSubject st) (S (clock st)) (entropy st)).

(** [uuidv4()]. *)
Definition freshId `{Environment} : Action string :=
  fun st =>
    Returned (uuidv4 (entropy st))
      (mkServiceState (localStorage st) (activeConversationId st)
         (conversationsSubject st) (currentConversationSubject st)
         (storageErrorSubject st) (saveSubject st) (clock st) (S (entropy st))).

(** [localStorage.getItem(key)], with the source's test [!text] folded in:
    a missing item and the empty string both read as absent. *)
Definition getItem (key : string) : Action (option StoredText) :=
  read (fun st =>
          match localStorage st !! key with
          | Some (RawText EmptyString) => None
          | found => found
          end).

(** [localStorage.setItem(key, text)]. *)
Definition setItem `{Environment} (key : string) (text : StoredText) : Action unit :=
  fun st =>
    if localStorage_accepts (localStorage st) key text
    then Returned tt (withLocalStorage (<[key := text]> (localStorage st)) st)
    else Thrown QuotaExceededError st.

(** [JSON.parse(text)]. *)
Definition parse (text : StoredText) : Action JValue :=
  match text with
  | JsonText v => ret v
  | RawText _ => throw SyntaxError
  end.

(** [`${this.CHAT_HISTORY_KEY}_${id}`]. *)
Definition storageKey `{Environment} (id : string) : string :=
  CHAT_HISTORY_KEY +:+ "_" +:+ id.

Definition handleStorageError `{Environment} (message : string) (error : JsError)
  : Action unit :=
  modify (withStorageError (Some (message +:+ ": " +:+ error_message error))).

Definition saveConversationsIndex `{Environment}
    (conversations : list ConversationMetadata) : Action unit :=
  tryCatch
    (setItem (storageKey "index") (JsonText (JArr (map encodeMetadata conversations))))
    (fun error => handleStorageError "Failed to save conversations index" error).

Definition withUpdatedAt (t : Z) (c : ConversationMetadata) : ConversationMetadata :=
  mkConversationMetadata (c_id c) (c_title c) (c_createdAt c) t (c_totalMessages c)
    (c_userMessageCount c) (c_aiMessageCount c) (c_totalTokensUsed c) (c_tags c)
    (c_isFavorite c) (c_isArchived c).

(** [conversations.findIndex((c) => c.id === id)]. *)
Definition findIndex (id : string) (conversations : list ConversationMetadata)
  : option nat :=
  fst <$> list_find (fun c => c_id c = id) conversations.

Definition updateConversationTimestamp `{Environment} (conversationId : string)
  : Action unit :=
  conversations <- read conversationsSubject ;;
  match findIndex conversationId conversations with
  | Some index =>
      t <- dateNow ;;
      let conversations := alter (withUpdatedAt t) index conversations in
      modify (withConversations conversations) ;;
      saveConversationsIndex conversations
  | None => ret tt
  end.

Definition updateConversationInIndex `{Environment} (metadata : ConversationMetadata)
  : Action unit :=
  conversations <- read conversationsSubject ;;
  let conversations :=
    match findIndex (c_id metadata) conversations with
    | Some index => <[index := metadata]> conversations
    | None => conversations ++ [metadata]
    end in
  modify (withConversations conversations) ;;
  saveConversationsIndex conversations.

(** [saveConversation] writes [updatedAt] into the object it is given;
    the result is that object after the call.  The operations modelled
    here pass objects that no index entry shares: newly built, spread
    or parsed ones.  For an object whose metadata is an entry of the
    in-memory index, as the two timers or a caller may pass one, the
    source's stamp shows in that entry too, whether the write is
    accepted or not; entries are values here, and no property reads the
    [updatedAt] of an entry after such a save. *)
Definition saveConversation `{Environment} (conversation : ChatHistory)
  : Action ChatHistory :=
  t <- dateNow ;;
  let conversation :=
    mkChatHistory (h_messages conversation) (withUpdatedAt t (h_metadata conversation)) in
  tryCatch
    (setItem (storageKey (c_id (h_metadata conversation)))
       (JsonText (encodeChatHistory conversation)) ;;
     updateConversationInIndex (h_metadata conversation) ;;
     modify (withStorageError None))
    (fun error => handleStorageError "Failed to save conversation" error) ;;
  ret conversation.

Definition createNewConversation `{Environment} (title : option string) : Action string :=
  tryCatch
    (conversationId <- freshId ;;
     t <- dateNow ;;
     let metadata :=
       mkConversationMetadata conversationId
         (Some (orString title ("Conversation " +:+ pretty t)))
         t t 0 0 0 (Some 0) (Some []) (Some false) (Some false) in
     newConversation <- saveConversation (mkChatHistory [] metadata) ;;
     conversations <- read conversationsSubject ;;
     let conversations := conversations ++ [h_metadata newConversation] in
     modify (withConversations conversations) ;;
     saveConversationsIndex conversations ;;
     modify (withActiveConversationId (Some conversationId)) ;;
     modify (withCurrentConversation (Some newConversation)) ;;
     ret conversationId)
    (fun error =>
       handleStorageError "Failed to create new conversation" error ;;
       ret "").

Definition loadConversation `{Environment} (conversationId : string) : Action bool :=
  tryCatch
    (conversationJson <- getItem (storageKey conversationId) ;;
     match conversationJson with
     | None => throw (Error ("Conversation " +:+ conversationId +:+ " not found"))
     | Some text =>
         parsed <- parse text ;;
         liftResult (validateConversation parsed) ;;
         conversation <- cast (asChatHistory parsed) ;;
         modify (withActiveConversationId (Some conversationId)) ;;
         modify (withCurrentConversation (Some conversation)) ;;
         updateConversationTimestamp conversationId ;;
         ret true
     end)
    (fun error =>
       handleStorageError ("Failed to load conversation " +:+ conversationId) error ;;
       ret false).

(** The counters after one more message. *)
Definition countMessage (message : ChatMessage) (c : ConversationMetadata)
  : ConversationMetadata :=
  let tokens :=
    match message with
    | {| m_sender := AI; m_metadata := Some {| mm_totalTokens := Some n |} |} =>
        if n =? 0 then c_totalTokensUsed c
        else Some (default 0 (c_totalTokensUsed c) + n)
    | _ => c_totalTokensUsed c
    end in
  mkConversationMetadata (c_id c) (c_title c) (c_createdAt c) (c_updatedAt c)
    (c_totalMessages c + 1)
    (if bool_decide (m_sender message = USER)
     then c_userMessageCount c + 1 else c_userMessageCount c)
    (if bool_decide (m_sender message = USER) then c_aiMessageCount c
     else if bool_decide (m_sender message = AI)
          then c_aiMessageCount c + 1 else c_aiMessageCount c)
    tokens (c_tags c) (c_isFavorite c) (c_isArchived c).

(** The message list after the push and the trim to the cap. *)
Definition retainMessages `{Environment} (messages : list ChatMessage)
  : list ChatMessage :=
  if Nat.ltb MAX_HISTORY_ITEMS (length messages)
  then drop (length messages - MAX_HISTORY_ITEMS)%nat messages
  else messages.

(** The body of [addMessage] on the active conversation. *)
Definition appendMessage `{Environment} (message : ChatMessage)
    (currentConversation : ChatHistory) : ChatHistory :=
  mkChatHistory
    (retainMessages (h_messages currentConversation ++ [message]))
    (countMessage message (h_metadata currentConversation)).

(** [addMessage]: the published copy [{ ...currentConversation }] and the
    object handed to the debounced save share their messages and
    metadata; both are recorded with the value they have at that point.
    [fuel] bounds the nested calls. *)
Fixpoint addMessageRec `{Environment} (fuel : nat) (message : ChatMessage)
  : Action unit :=
  currentConversation <- read currentConversationSubject ;;
  match currentConversation with
  | None =>
      match fuel with
      | O => fun _ => Aborted OutOfFuel
      | S fuel =>
          conversationId <- createNewConversation None ;;
          loadConversation conversationId ;;
          addMessageRec fuel message
      end
  | Some currentConversation =>
      let currentConversation := appendMessage message currentConversation in
      modify (withCurrentConversation (Some currentConversation)) ;;
      pushed <- read saveSubject ;;
      modify (withSaveSubject (pushed ++ [currentConversation]))
  end.

(** One nested call is all [addMessage] ever makes: [createNewConversation]
    always leaves an active conversation. *)
Definition addMessage `{Environment} (message : ChatMessage) : Action unit :=
  addMessageRec 1 message.

Definition clearedMetadata (t : Z) (c : ConversationMetadata) : ConversationMetadata :=
  mkConversationMetadata (c_id c) (c_title c) (c_createdAt c) t 0 0 0 (Some 0)
    (c_tags c) (c_isFavorite c) (c_isArchived c).

Definition clearCurrentConversation `{Environment} : Action bool :=
  currentConversation <- read currentConversationSubject ;;
  match currentConversation with
  | None => ret false
  | Some currentConversation =>
      tryCatch
        (t <- dateNow ;;
         let clearedConversation :=
           mkChatHistory [] (clearedMetadata t (h_metadata currentConversation)) in
         modify (withCurrentConversation (Some clearedConversation)) ;;
         saved <- saveConversation clearedConversation ;;
         (* the subject holds the object [saveConversation] wrote into *)
         modify (withCurrentConversation (Some saved)) ;;
         ret true)
        (fun error =>
           handleStorageError "Failed to clear conversation" error ;;
           ret false)
  end.

(** [a || b] on identifiers. *)
Definition orId (a b : option string) : option string :=
  match a with
  | Some (String _ _) => a
  | _ => match b with
         | Some (String _ _) => b
         | _ => None
         end
  end.

Definition exportConversation `{Environment} (conversationId : option string)
  : Action StoredText :=
  tryCatch
    (active <- read activeConversationId ;;
     match orId conversationId active with
     | None =>
         throw (Error "No conversation ID provided and no active conversation")
     | Some id =>
         conversationJson <- getItem (storageKey id) ;;
         match conversationJson with
         | None => throw (Error ("Conversation " +:+ id +:+ " not found"))
         | Some text => ret text
         end
     end)
    (fun error =>
       handleStorageError "Failed to export conversation" error ;;
       ret (RawText "")).

Definition renamed (newId : string) (c : ConversationMetadata) : ConversationMetadata :=
  mkConversationMetadata newId
    (Some (orString (c_title c) "Imported Conversation" +:+ " (Imported)"))
    (c_createdAt c) (c_updatedAt c) (c_totalMessages c) (c_userMessageCount c)
    (c_aiMessageCount c) (c_totalTokensUsed c) (c_tags c) (c_isFavorite c)
    (c_isArchived c).

Definition importConversation `{Environment} (json : StoredText) (replace : bool)
  : Action (option string) :=
  tryCatch
    (parsed <- parse json ;;
     liftResult (validateConversation parsed) ;;
     conversation <- cast (asChatHistory parsed) ;;
     conversations <- read conversationsSubject ;;
     let exists_ :=
       existsb (fun c => String.eqb (c_id c) (c_id (h_metadata conversation)))
         conversations in
     conversation <-
       (if exists_ && negb replace
        then newId <- freshId ;;
             ret (mkChatHistory (h_messages conversation)
                    (renamed newId (h_metadata conversation)))
        else ret conversation) ;;
     conversation <- saveConversation conversation ;;
     modify (withActiveConversationId (Some (c_id (h_metadata conversation)))) ;;
     modify (withCurrentConversation (Some conversation)) ;;
     ret (Some (c_id (h_metadata conversation))))
    (fun error =>
       handleStorageError "Failed to import conversation" error ;;
       ret None).

Definition withFavorite (flag : bool) (c : ConversationMetadata) : ConversationMetadata :=
  mkConversationMetadata (c_id c) (c_title c) (c_createdAt c) (c_updatedAt c)
    (c_totalMessages c) (c_userMessageCount c) (c_aiMessageCount c)
    (c_totalTokensUsed c) (c_tags c) (Some flag) (c_isArchived c).

(** [conversation.metadata] can be read and written: [conversation] is not
    [null] and its [metadata] is an object. *)
Definition hasMetadataObject (conversation : JValue) : bool :=
  match conversation with
  | JNull => false
  | _ => match prop conversation "metadata" with
         | Some (JObj _) | Some (JArr _) => true
         | _ => false
         end
  end.

Definition toggleFavorite `{Environment} (conversationId : string) : Action bool :=
  tryCatch
    (conversationJson <- getItem (storageKey conversationId) ;;
     match conversationJson with
     | None => throw (Error ("Conversation " +:+ conversationId +:+ " not found"))
     | Some text =>
         parsed <- parse text ;;
         (if hasMetadataObject parsed then ret tt else throw TypeError) ;;
         conversation <- cast (asChatHistory parsed) ;;
         let flag := notFlag (c_isFavorite (h_metadata conversation)) in
         conversation <-
           saveConversation
             (mkChatHistory (h_messages conversation)
                (withFavorite flag (h_metadata conversation))) ;;
         active <- read activeConversationId ;;
         (if bool_decide (active = Some conversationId)
          then modify (withCurrentConversation (Some conversation))
          else ret tt) ;;
         ret flag
     end)
    (fun error =>
       handleStorageError ("Failed to toggle favorite for " +:+ conversationId) error ;;
       ret false).

(** Calls the presentation layer makes on the store. *)
Inductive StoreCall : Type :=
| CreateNewConversation (title : option string)
| AddMessage (message : ChatMessage)
| ClearCurrentConversation.

Definition call `{Environment} (c : StoreCall) : Action unit :=
  match c with
  | CreateNewConversation title => createNewConversation title ;; ret tt
  | AddMessage message => addMessage message
  | ClearCurrentConversation => clearCurrentConversation ;; ret tt
  end.

Fixpoint calls `{Environment} (cs : list StoreCall) : Action unit :=
  match cs with
  | [] => ret tt
  | c :: rest => call c ;; calls rest
  end.

(** What a call returned and the state it left, when it returned. *)
Definition returned {A : Type} (o : Outcome A) : option A :=
  match o with
  | Returned a _ => Some a
  | _ => None
  end.

Definition finalState {A : Type} (o : Outcome A) : option ServiceState :=
  match o with
  | Returned _ st => Some st
  | _ => None
  end.

(** The store before anything was created, over a given [localStorage]. *)
Definition initialState (items : gmap string StoredText) : ServiceState :=
  mkServiceState items None [] None None [] 0 0.

(** Why [loadConversation(id)] fails: the causes the specification lists. *)
Inductive LoadFailure `{Environment} (st : ServiceState) (id : string) : Prop :=
| MissingRecord :
    localStorage st !! storageKey id = None
    \/ localStorage st !! storageKey id = Some (RawText "") ->
    LoadFailure st id
| UnparsableJson (text : string) :
    localStorage st !! storageKey id = Some (RawText text) ->
    LoadFailure st id
| EmptyId (v : JValue) :
    localStorage st !! storageKey id = Some (JsonText v) ->
    truthy (optProp (prop v "metadata") "id") = false ->
    LoadFailure st id
| NonNumericTimestamp (v : JValue) :
    localStorage st !! storageKey id = Some (JsonText v) ->
    isNumber (optProp (prop v "metadata") "createdAt") = false
    \/ isNumber (optProp (prop v "metadata") "updatedAt") = false ->
    LoadFailure st id
| NonArrayMessages (v : JValue) :
    localStorage st !! storageKey id = Some (JsonText v) ->
    isArray (prop v "messages") = false ->
    LoadFailure st id
| IncompleteMessage (v : JValue) (elements : list JValue) (message : JValue) :
    localStorage st !! storageKey id = Some (JsonText v) ->
    prop v "messages" = Some (JArr elements) ->
    In message elements ->
    truthy (optProp (Some message) "id") = false
    \/ truthy (optProp (Some message) "sender") = false
    \/ truthy (optProp (Some message) "content") = false
    \/ truthy (optProp (Some message) "timestamp") = false ->
    LoadFailure st id
| Rejected (v : JValue) (e : JsError) :
    localStorage st !! storageKey id = Some (JsonText v) ->
    validateConversation v = Raise e ->
    LoadFailure st id.

(** Why the [try] block of [toggleFavorite(id)] throws. *)
Inductive ToggleFailure `{Environment} (st : ServiceState) (id : string) : Prop :=
| ToggleMissing :
    localStorage st !! storageKey id = None
    \/ localStorage st !! storageKey id = Some (RawText "") ->
    ToggleFailure st id
| ToggleUnparsable (text : string) :
    localStorage st !! storageKey id = Some (RawText text) ->
    ToggleFailure st id
| ToggleNoMetadata (v : JValue) :
    localStorage st !! storageKey id = Some (JsonText v) ->
    hasMetadataObject v = false ->
    ToggleFailure st id.

(** ** String operations of the stream reader *)

Definition LF : ascii := ascii_of_nat 10.

(** [s.split("\n")]. *)
Fixpoint splitLines (s : string) : list string :=
  match s with
  | EmptyString => [EmptyString]
  | String c rest =>
      if Ascii.eqb c LF then EmptyString :: splitLines rest
      else match splitLines rest with
           | [] => [String c EmptyString]
           | line :: more => String c line :: more
           end
  end.

(** White space of [String.prototype.trim], ASCII part. *)
Definition isWhiteSpace (c : ascii) : bool :=
  let n := nat_of_ascii c in
  Nat.eqb n 32 || (Nat.leb 9 n && Nat.leb n 13).

Fixpoint trimStart (s : string) : string :=
  match s with
  | EmptyString => EmptyString
  | String c rest => if isWhiteSpace c then trimStart rest else s
  end.

Fixpoint trimEnd (s : string) : string :=
  match s with
  | EmptyString => EmptyString
  | String c rest =>
      match trimEnd rest with
      | EmptyString => if isWhiteSpace c then EmptyString else String c EmptyString
      | kept => String c kept
      end
  end.

Definition trim (s : string) : string := trimEnd (trimStart s).

Fixpoint stripPrefix (p s : string) : option string :=
  match p, s with
  | EmptyString, _ => Some s
  | String a p', String b s' => if Ascii.eqb a b then stripPrefix p' s' else None
  | String _ _, EmptyString => None
  end.

(** [line.replace(/^data: /, "")]. *)
Definition removeDataPrefix (line : string) : string :=
  match stripPrefix "data: " line with
  | Some rest => rest
  | None => line
  end.

(** [s.includes(p)]. *)
Fixpoint includes (p s : string) : bool :=
  match stripPrefix p s with
  | Some _ => true
  | None => match s with
            | EmptyString => false
            | String _ rest => includes p rest
            end
  end.

(** ** The stream assembler (AiService.streamChatCompletion) *)

Record AiService : Type := mkAiService {
  loadingState : LoadingState;
  errorState : ErrorState;
  tokenUsage : Z;
  defaultModel : string;
  ai_clock : nat;        (* calls of [Date.now()] so far *)
  ai_entropy : nat       (* calls of [uuidv4()] so far *)
}.

(** A [Subject<ChatMessage>]: what it has emitted, oldest first. *)
Record Subject : Type := mkSubject {
  emitted : list ChatMessage;
  completed : bool
}.

Record StreamRun : Type := mkStreamRun {
  service : AiService;
  accumulatedMessage : ChatMessage;
  responseSubject : Subject
}.

(** What the transport delivers. *)
Inductive StreamEnd : Type :=
| EndOfInput                      (* [reader.read()] resolves with [done] *)
| ReadFailure (error : JsError).  (* [reader.read()] rejects *)

Record ResponseBody : Type := mkResponseBody {
  chunks : list string;           (* the decoded chunks, in order *)
  ending : StreamEnd
}.

Inductive FetchOutcome : Type :=
| FetchRejected (error : JsError)
| FetchResponse (ok : bool) (status : Z) (body : option ResponseBody).

Definition setLoading (flag : bool) (message : option string) (s : AiService) : AiService :=
  mkAiService (mkLoadingState flag message) (errorState s) (tokenUsage s)
    (defaultModel s) (ai_clock s) (ai_entropy s).

Definition setError (flag : bool) (message : option string) (s : AiService) : AiService :=
  mkAiService (loadingState s) (mkErrorState flag message) (tokenUsage s)
    (defaultModel s) (ai_clock s) (ai_entropy s).

Definition clearError (s : AiService) : AiService := setError false None s.

Definition updateTokenUsage (tokens : Z) (s : AiService) : AiService :=
  mkAiService (loadingState s) (errorState s) (tokenUsage s + tokens)
    (defaultModel s) (ai_clock s) (ai_entropy s).

Definition tickClock (s : AiService) : AiService :=
  mkAiService (loadingState s) (errorState s) (tokenUsage s)
    (defaultModel s) (S (ai_clock s)) (ai_entropy s).

Definition drawUuid (s : AiService) : AiService :=
  mkAiService (loadingState s) (errorState s) (tokenUsage s)
    (defaultModel s) (ai_clock s) (S (ai_entropy s)).

(** What a failed request hands to an error handler. *)
Inductive Fault : Type :=
| HttpErrorResponse (status : Z) (message : string)
| ErrorObject (error : JsError)        (* an [Error] instance *)
| OtherValue.                          (* anything else *)

Definition getErrorMessage `{Environment} (error : Fault) : string :=
  match error with
  | HttpErrorResponse status message =>
      if status =? 0 then "Network error. Please check your internet connection."
      else if status =? 401 then "Authentication error. Please check your API key."
      else if status =? 429 then "Rate limit exceeded. Please try again later."
      else if status =? 500 then "Server error. Please try again later."
      else "HTTP error " +:+ pretty status +:+ ": " +:+ message
  | ErrorObject error =>
      if includes "timeout" (error_message error)
      then "Request timed out. Please try again."
      else error_message error
  | OtherValue => "An unknown error occurred."
  end.

Definition next (message : ChatMessage) (subject : Subject) : Subject :=
  mkSubject (emitted subject ++ [message]) (completed subject).

Definition complete (subject : Subject) : Subject :=
  mkSubject (emitted subject) true.

Definition handleStreamingError `{Environment} (error : Fault) (r : StreamRun) : StreamRun :=
  let s := service r in
  let errorMessage :=
    mkChatMessage (uuidv4 (ai_entropy s)) SYSTEM
      ("Error: " +:+ getErrorMessage error) (Date_now (ai_clock s))
      (Some true) None None in
  let s := setError true (Some (getErrorMessage error)) (tickClock (drawUuid s)) in
  mkStreamRun s (accumulatedMessage r) (complete (next errorMessage (responseSubject r))).

(** The counters of [json.usage]. *)
Record Usage : Type := mkUsage {
  total_tokens : Z;
  prompt_tokens : option Z;
  completion_tokens : option Z
}.

(** The provider event as the three tests of the loop body read it: the
    content delta when [json.choices[0]?.delta?.content] is truthy, the
    usage counters when [json.usage] is truthy, the finish reason when
    [json.choices[0]?.finish_reason] is truthy. *)
Record EventView : Type := mkEventView {
  ev_content : option string;
  ev_usage : option Usage;
  ev_finish : option string
}.

(** How one line of a chunk ends up. *)
Inductive LineResult : Type :=
| Skipped                 (* empty payload, or an exception caught and logged *)
| Unsound                 (* a value of [json] outside its assumed type *)
| Event (e : EventView).

(** A value read from [any] into [string | undefined] under a truthiness test. *)
Definition viewString (o : option JValue) : option (option string) :=
  if truthy o
  then match o with
       | Some (JStr s) => Some (Some s)
       | _ => None
       end
  else Some None.

(** A value read from [any] into [number | undefined]. *)
Definition viewOptNumber (o : option JValue) : option (option Z) :=
  match o with
  | None => Some None
  | Some (JNum n) => Some (Some n)
  | Some _ => None
  end.

Definition viewUsage (o : option JValue) : option (option Usage) :=
  if truthy o
  then match optProp o "total_tokens",
             viewOptNumber (optProp o "prompt_tokens"),
             viewOptNumber (optProp o "completion_tokens") with
       | Some (JNum total), Some prompt, Some completion =>
           Some (Some (mkUsage total prompt completion))
       | _, _, _ => None
       end
  else Some None.

Definition viewEvent (json : JValue) : LineResult :=
  match json with
  | JNull => Skipped     (* [json.choices] throws, the [catch] logs it *)
  | _ =>
      let choices := prop json "choices" in
      let first := if truthy choices then from_option index0 None choices else None in
      match viewString (optProp (optProp first "delta") "content"),
            viewUsage (prop json "usage"),
            viewString (optProp first "finish_reason") with
      | Some content, Some usage, Some finish => Event (mkEventView content usage finish)
      | _, _, _ => Unsound
      end
  end.

Definition readLine `{Environment} (line : string) : LineResult :=
  let jsonStr := trim (removeDataPrefix line) in
  match jsonStr with
  | EmptyString => Skipped
  | _ => match JSON_parse jsonStr with
         | None => Skipped     (* [JSON.parse] throws, the [catch] logs it *)
         | Some json => viewEvent json
         end
  end.

Definition emptyMetadata : MessageMetadata :=
  mkMessageMetadata None None None None None None None.

(** [{ ...metadata }] of a possibly undefined [metadata]. *)
Definition spread (metadata : option MessageMetadata) : MessageMetadata :=
  match metadata with
  | Some m => m
  | None => emptyMetadata
  end.

Definition withContent (content : string) (m : ChatMessage) : ChatMessage :=
  mkChatMessage (m_id m) (m_sender m) content (m_timestamp m)
    (m_isError m) (m_isPending m) (m_metadata m).

Definition withMetadata (metadata : MessageMetadata) (m : ChatMessage) : ChatMessage :=
  mkChatMessage (m_id m) (m_sender m) (m_content m) (m_timestamp m)
    (m_isError m) (m_isPending m) (Some metadata).

Definition withPending (flag : bool) (m : ChatMessage) : ChatMessage :=
  mkChatMessage (m_id m) (m_sender m) (m_content m) (m_timestamp m)
    (m_isError m) (Some flag) (m_metadata m).

(** The three [if]s of the loop body, in the order of the source. *)
Definition applyContent (e : EventView) (r : StreamRun) : StreamRun :=
  match ev_content e with
  | Some delta =>
      let message := withContent (m_content (accumulatedMessage r) +:+ delta)
                       (accumulatedMessage r) in
      mkStreamRun (service r) message (next message (responseSubject r))
  | None => r
  end.

Definition applyUsage (e : EventView) (r : StreamRun) : StreamRun :=
  match ev_usage e with
  | Some usage =>
      let old := spread (m_metadata (accumulatedMessage r)) in
      let metadata :=
        mkMessageMetadata (mm_tokens old) (mm_processingTime old) (mm_model old)
          (prompt_tokens usage) (completion_tokens usage) (Some (total_tokens usage))
          (mm_finishReason old) in
      mkStreamRun (updateTokenUsage (total_tokens usage) (service r))
        (withMetadata metadata (accumulatedMessage r)) (responseSubject r)
  | None => r
  end.

Definition applyFinish (e : EventView) (r : StreamRun) : StreamRun :=
  match ev_finish e with
  | Some reason =>
      let old := spread (m_metadata (accumulatedMessage r)) in
      let metadata :=
        mkMessageMetadata (mm_tokens old) (mm_processingTime old) (mm_model old)
          (mm_promptTokens old) (mm_completionTokens old) (mm_totalTokens old)
          (Some reason) in
      mkStreamRun (service r) (withMetadata metadata (accumulatedMessage r))
        (responseSubject r)
  | None => r
  end.

Definition applyEvent (e : EventView) (r : StreamRun) : StreamRun :=
  applyFinish e (applyUsage e (applyContent e r)).

(** One iteration of [for (const line of lines)]; [None] when the line
    carries a value outside the type the source assumes for it. *)
Definition processLine `{Environment} (line : string) (r : StreamRun) : option StreamRun :=
  match readLine line with
  | Skipped => Some r
  | Unsound => None
  | Event e => Some (applyEvent e r)
  end.

Fixpoint processLines `{Environment} (lines : list string) (r : StreamRun)
  : option StreamRun :=
  match lines with
  | [] => Some r
  | line :: rest =>
      match processLine line r with
      | Some r' => processLines rest r'
      | None => None
      end
  end.

(** The lines of a chunk that survive the [filter]. *)
Definition chunkLines (chunk : string) : list string :=
  List.filter
    (fun line => negb (String.eqb (trim line) "")
                 && negb (String.eqb (trim line) "data: [DONE]"))
    (splitLines chunk).

(** The [done] branch of [readStream]. *)
Definition finishStream `{Environment} (startTime : Z) (r : StreamRun) : StreamRun :=
  let s := service r in
  let old := spread (m_metadata (accumulatedMessage r)) in
  let metadata :=
    mkMessageMetadata (mm_tokens old) (Some (Date_now (ai_clock s) - startTime))
      (Some (defaultModel s)) (mm_promptTokens old) (mm_completionTokens old)
      (mm_totalTokens old) (mm_finishReason old) in
  let message := withMetadata metadata (withPending false (accumulatedMessage r)) in
  mkStreamRun (setLoading false None (tickClock s)) message
    (complete (next message (responseSubject r))).

(** [readStream]: one [reader.read()] per chunk, then the end of the body. *)
Fixpoint readStream `{Environment} (startTime : Z) (pending : list string)
    (ending : StreamEnd) (r : StreamRun) : option StreamRun :=
  match pending with
  | [] =>
      match ending with
      | EndOfInput => Some (finishStream startTime r)
      | ReadFailure error =>
          let r := handleStreamingError (ErrorObject error) r in
          Some (mkStreamRun (setLoading false None (service r))
                  (accumulatedMessage r) (responseSubject r))
      end
  | chunk :: rest =>
      match processLines (chunkLines chunk) r with
      | Some r' => readStream startTime rest ending r'
      | None => None
      end
  end.

Definition failStream `{Environment} (error : JsError) (r : StreamRun) : StreamRun :=
  let r := handleStreamingError (ErrorObject error) r in
  mkStreamRun (setLoading false None (service r)) (accumulatedMessage r)
    (responseSubject r).

Definition setupStreamingRequest `{Environment} (response : FetchOutcome)
    (startTime : Z) (r : StreamRun) : option StreamRun :=
  match response with
  | FetchRejected error => Some (failStream error r)
  | FetchResponse false status _ =>
      Some (failStream (Error ("HTTP error! status: " +:+ pretty status)) r)
  | FetchResponse true _ None =>
      Some (failStream (Error "Response body is null") r)
  | FetchResponse true _ (Some body) =>
      readStream startTime (chunks body) (ending body) r
  end.

Definition streamChatCompletion `{Environment} (response : FetchOutcome) (s : AiService)
  : option StreamRun :=
  let startTime := Date_now (ai_clock s) in
  let accumulated :=
    mkChatMessage (uuidv4 (ai_entropy s)) AI "" (Date_now (S (ai_clock s)))
      None (Some true) None in
  let s := drawUuid (tickClock (tickClock s)) in
  setupStreamingRequest response startTime (mkStreamRun s accumulated (mkSubject [] false)).

(** *** The single-response path (AiService.getChatCompletion) *)

Record OpenAIUsage : Type := mkOpenAIUsage {
  usage_prompt_tokens : Z;
  usage_completion_tokens : Z;
  usage_total_tokens : Z
}.

Record OpenAIChatChoice : Type := mkOpenAIChatChoice {
  choice_message : OpenAIChatMessage;
  choice_finish_reason : string
}.

Record OpenAIChatResponse : Type := mkOpenAIChatResponse {
  resp_model : string;
  resp_choices : list OpenAIChatChoice;
  resp_usage : option OpenAIUsage
}.

(** What [http.post] yields once [timeout] and [retry] have had their say. *)
Inductive HttpOutcome : Type :=
| HttpSuccess (response : OpenAIChatResponse)
| HttpFailure (error : Fault).

(** What the returned observable does. *)
Inductive Notification : Type :=
| NextThenComplete (message : ChatMessage)
| ErrorNotification (message : string).

Definition formatApiResponseToMessage `{Environment} (response : OpenAIChatResponse)
    (processingTime : Z) (s : AiService) : ChatMessage * AiService :=
  let first := head (resp_choices response) in
  let content :=
    orString (api_content <$> (choice_message <$> first)) "No response content" in
  (mkChatMessage (uuidv4 (ai_entropy s)) AI content (Date_now (ai_clock s)) None None
     (Some (mkMessageMetadata None (Some processingTime) (Some (resp_model response))
              (usage_prompt_tokens <$> resp_usage response)
              (usage_completion_tokens <$> resp_usage response)
              (usage_total_tokens <$> resp_usage response)
              (choice_finish_reason <$> first))),
   tickClock (drawUuid s)).

Definition getChatCompletion `{Environment} (outcome : HttpOutcome) (s : AiService)
  : Notification * AiService :=
  let startTime := Date_now (ai_clock s) in
  let s := tickClock s in
  match outcome with
  | HttpSuccess response =>
      let s :=
        match resp_usage response with
        | Some usage => updateTokenUsage (usage_total_tokens usage) s
        | None => s
        end in
      let processingTime := Date_now (ai_clock s) - startTime in
      let '(message, s) := formatApiResponseToMessage response processingTime (tickClock s) in
      (NextThenComplete message, setLoading false None s)
  | HttpFailure error =>
      let errorMessage := getErrorMessage error in
      (ErrorNotification errorMessage,
       setLoading false None (setError true (Some errorMessage) s))
  end.

(** What the network answers to either kind of request. *)
Record Network : Type := mkNetwork {
  fetchAnswer : FetchOutcome;
  postAnswer : HttpOutcome
}.

Inductive SendResult : Type :=
| Streamed (run : option StreamRun)
| Single (notification : Notification) (s : AiService).

(** [sendMessage(userMessage, conversationHistory, streamResponse)]: the
    request it builds and what comes of it. *)
Definition sendMessage `{Environment} (userMessage : string)
    (conversationHistory : list ChatMessage) (streamResponse : bool)
    (network : Network) (s : AiService) : OpenAIChatRequest * SendResult :=
  let s := clearError (setLoading true (Some "Generating AI response...") s) in
  let payload :=
    requestPayload (defaultModel s) userMessage conversationHistory streamResponse in
  if streamResponse
  then (payload, Streamed (streamChatCompletion (fetchAnswer network) s))
  else let '(notification, s) := getChatCompletion (postAnswer network) s in
       (payload, Single notification s).

(** The specification's words for the contents a stream emits. *)
Definition joinAll (deltas : list string) : string :=
  fold_right String.append "" deltas.

Definition prefixConcatenations (deltas : list string) : list string :=
  map (fun k => joinAll (take k deltas)) (seq 1 (length deltas)).

(** The contents emitted while [deltas] are appended to [content]. *)
Fixpoint runningConcats (content : string) (deltas : list string) : list string :=
  match deltas with
  | [] => []
  | delta :: rest => (content +:+ delta) :: runningConcats (content +:+ delta) rest
  end.

(** The line is a provider event that carries the content delta [delta]. *)
Definition carriesDelta `{Environment} (line delta : string) : Prop :=
  exists e, readLine line = Event e /\ ev_content e = Some delta.

(** What a save leaves alone: the active conversation, its published
    snapshot, the queue of the debounced save and the identifier source. *)
Definition sameSession (st st' : ServiceState) : Prop :=
  activeConversationId st' = activeConversationId st
  /\ currentConversationSubject st' = currentConversationSubject st
  /\ saveSubject st' = saveSubject st
  /\ entropy st' = entropy st.

(** The conversation [createNewConversation] makes active. *)
Definition newConversation `{Environment} (title : option string) (st : ServiceState)
  : ChatHistory :=
  let t := Date_now (clock st) in
  mkChatHistory []
    (mkConversationMetadata (uuidv4 (entropy st))
       (Some (orString title ("Conversation " +:+ pretty t)))
       t (Date_now (S (clock st))) 0 0 0 (Some 0) (Some []) (Some false) (Some false)).

(** The conversation [clearCurrentConversation] leaves in place of [c]. *)
Definition clearedConversation `{Environment} (c : ChatHistory) (st : ServiceState)
  : ChatHistory :=
  mkChatHistory [] (clearedMetadata (Date_now (S (clock st))) (h_metadata c)).

(** The active conversation after [addMessage] was called with each of
    [messages] in turn. *)
Definition appendAll `{Environment} (messages : list ChatMessage) (c : ChatHistory)
  : ChatHistory :=
  fold_left (fun c message => appendMessage message c) messages c.

(** The last [n] entries of a list. *)
Definition lastN {A : Type} (n : nat) (l : list A) : list A :=
  drop (length l - n)%nat l.

(** The invariant of section 3 on the per-sender counters. *)
Definition countersBounded (c : ChatHistory) : Prop :=
  c_userMessageCount (h_metadata c) + c_aiMessageCount (h_metadata c)
  <= c_totalMessages (h_metadata c).

(** ** Further operations of the store

    The remaining public operations of [ChatStorageService] and the
    start-up path of its constructor.  The two timers (auto-save and the
    debounced save) are not part of the model.  The properties of these
    operations read the id, the title, the two time stamps and the two
    flags of index entries, as given in the state they start from. *)

(** [localStorage.removeItem(key)]. *)
Definition removeItem (key : string) : Action unit :=
  modify (fun st => withLocalStorage (delete key (localStorage st)) st).

(** [Array.prototype.sort(compare)]: the stable sort, by insertion.  For a
    consistent comparator every stable sort gives this result. *)
Fixpoint insertBy {A : Type} (compare : A -> A -> Z) (x : A) (sorted : list A) : list A :=
  match sorted with
  | [] => [x]
  | y :: rest =>
      if compare x y <=? 0 then x :: y :: rest else y :: insertBy compare x rest
  end.

Definition sort {A : Type} (compare : A -> A -> Z) (l : list A) : list A :=
  foldr (insertBy compare) [] l.

(** [conversations.sort((a, b) => b.updatedAt - a.updatedAt)]. *)
Definition mostRecentFirst (conversations : list ConversationMetadata)
  : list ConversationMetadata :=
  sort (fun a b => c_updatedAt b - c_updatedAt a) conversations.

(** The branch of [deleteConversation] and [initialize] that activates the
    most recently updated of [conversations]; the sort is in place, on
    the array the subject holds. *)
Definition loadMostRecent `{Environment} (conversations : list ConversationMetadata)
  : Action unit :=
  let sorted := mostRecentFirst conversations in
  modify (withConversations sorted) ;;
  match sorted with
  | mostRecent :: _ => loadConversation (c_id mostRecent) ;; ret tt
  | [] => throw TypeError
  end.

Definition deleteConversation `{Environment} (conversationId : string) : Action bool :=
  tryCatch
    (removeItem (storageKey conversationId) ;;
     conversations <- read conversationsSubject ;;
     let updatedConversations :=
       List.filter (fun c => negb (String.eqb (c_id c) conversationId)) conversations in
     modify (withConversations updatedConversations) ;;
     saveConversationsIndex updatedConversations ;;
     active <- read activeConversationId ;;
     (if bool_decide (active = Some conversationId)
      then if Nat.ltb 0 (length updatedConversations)
           then loadMostRecent updatedConversations
           else createNewConversation None ;; ret tt
      else ret tt) ;;
     ret true)
    (fun error =>
       handleStorageError ("Failed to delete conversation " +:+ conversationId) error ;;
       ret false).

(** The [for] loop of [clearAllConversations]. *)
Fixpoint removeConversations `{Environment} (conversations : list ConversationMetadata)
  : Action unit :=
  match conversations with
  | [] => ret tt
  | conversation :: rest =>
      removeItem (storageKey (c_id conversation)) ;; removeConversations rest
  end.

Definition clearAllConversations `{Environment} : Action bool :=
  tryCatch
    (conversations <- read conversationsSubject ;;
     removeConversations conversations ;;
     removeItem (storageKey "index") ;;
     modify (withConversations []) ;;
     createNewConversation None ;;
     ret true)
    (fun error =>
       handleStorageError "Failed to clear all conversations" error ;;
       ret false).

(** [l.slice(start, end)] for integral bounds. *)
Definition slice {A : Type} (start end_ : Z) (l : list A) : list A :=
  let len := Z.of_nat (length l) in
  let k := if start <? 0 then Z.max (len + start) 0 else Z.min start len in
  let final := if end_ <? 0 then Z.max (len + end_) 0 else Z.min end_ len in
  take (Z.to_nat (final - k)) (drop (Z.to_nat k) l).

Definition getPaginatedMessages (page pageSize : Z) (st : ServiceState)
  : list ChatMessage :=
  match currentConversationSubject st with
  | None => []
  | Some currentConversation =>
      let start := page * pageSize in
      let end_ := start + pageSize in
      slice start end_ (h_messages currentConversation)
  end.

(** [object[key] = value] on own properties: the key keeps its place if
    it is there. *)
Fixpoint setProperty (key : string) (value : JValue) (fields : list (string * JValue))
  : list (string * JValue) :=
  match fields with
  | [] => [(key, value)]
  | (k, v) :: rest =>
      if String.eqb key k then (key, value) :: rest
      else (k, v) :: setProperty key value rest
  end.

(** [exportData[id] = value] on the object literal [{}]: the assignment
    to ["__proto__"] goes to the prototype and adds no property.  Keys
    that look like integers, which an object lists first, are not told
    apart: the properties below read the object by key. *)
Definition assign (key : string) (value : JValue) (fields : list (string * JValue))
  : list (string * JValue) :=
  if String.eqb key "__proto__" then fields else setProperty key value fields.

(** The [for] loop of [exportAllConversations]. *)
Fixpoint collectExport `{Environment} (conversations : list ConversationMetadata)
    (exportData : list (string * JValue)) : Action (list (string * JValue)) :=
  match conversations with
  | [] => ret exportData
  | metadata :: rest =>
      conversationJson <- getItem (storageKey (c_id metadata)) ;;
      match conversationJson with
      | Some text =>
          parsed <- parse text ;;
          collectExport rest (assign (c_id metadata) parsed exportData)
      | None => collectExport rest exportData
      end
  end.

(** [exportAllConversations]; [version] is [environment.app.version]. *)
Definition exportAllConversations `{Environment} (version : string) : Action StoredText :=
  tryCatch
    (conversations <- read conversationsSubject ;;
     exportData <- collectExport conversations [] ;;
     t <- dateNow ;;
     ret (JsonText (JObj [("version", JStr version);
                          ("timestamp", JNum t);
                          ("conversations", JObj exportData)])))
    (fun error =>
       handleStorageError "Failed to export all conversations" error ;;
       ret (RawText "")).

(** The values [for (const id in object)] visits with [object[id]]; the
    fields of an object are kept in that order, each key once. *)
Definition forInValues (object : JValue) : list JValue :=
  match object with
  | JObj fields => map snd fields
  | JArr elements => elements
  | _ => []
  end.

(** [typeof v === "object"] for a truthy [v]. *)
Definition isObject (o : option JValue) : bool :=
  match o with
  | Some (JObj _) | Some (JArr _) => true
  | _ => false
  end.

(** The [for] loop of [importMultipleConversations]. *)
Fixpoint importEach `{Environment} (replace : bool) (entries : list JValue)
    (importedIds : list string) : Action (list string) :=
  match entries with
  | [] => ret importedIds
  | conversation :: rest =>
      liftResult (validateConversation conversation) ;;
      importedId <- importConversation (JsonText conversation) replace ;;
      importEach replace rest
        (match importedId with
         | Some (String a id) => importedIds ++ [String a id]
         | _ => importedIds
         end)
  end.

Definition importMultipleConversations `{Environment} (json : StoredText) (replace : bool)
  : Action (list string) :=
  tryCatch
    (importData <- parse json ;;
     conversations <-
       (match importData with
        | JNull => throw TypeError
        | _ => ret (prop importData "conversations")
        end) ;;
     (if negb (truthy conversations) || negb (isObject conversations)
      then throw (Error "Invalid import format")
      else ret tt) ;;
     importedIds <- importEach replace (from_option forInValues [] conversations) [] ;;
     (match importedIds with
      | first :: _ => loadConversation first ;; ret tt
      | [] => ret tt
      end) ;;
     ret importedIds)
    (fun error =>
       handleStorageError "Failed to import multiple conversations" error ;;
       ret []).

Definition withTitle (title : string) (c : ConversationMetadata) : ConversationMetadata :=
  mkConversationMetadata (c_id c) (Some title) (c_createdAt c) (c_updatedAt c)
    (c_totalMessages c) (c_userMessageCount c) (c_aiMessageCount c)
    (c_totalTokensUsed c) (c_tags c) (c_isFavorite c) (c_isArchived c).

Definition withArchived (flag : bool) (c : ConversationMetadata) : ConversationMetadata :=
  mkConversationMetadata (c_id c) (c_title c) (c_createdAt c) (c_updatedAt c)
    (c_totalMessages c) (c_userMessageCount c) (c_aiMessageCount c)
    (c_totalTokensUsed c) (c_tags c) (c_isFavorite c) (Some flag).

Definition updateConversationTitle `{Environment} (conversationId title : string)
  : Action bool :=
  tryCatch
    (conversationJson <- getItem (storageKey conversationId) ;;
     match conversationJson with
     | None => throw (Error ("Conversation " +:+ conversationId +:+ " not found"))
     | Some text =>
         parsed <- parse text ;;
         (if hasMetadataObject parsed then ret tt else throw TypeError) ;;
         conversation <- cast (asChatHistory parsed) ;;
         conversation <-
           saveConversation
             (mkChatHistory (h_messages conversation)
                (withTitle title (h_metadata conversation))) ;;
         active <- read activeConversationId ;;
         (if bool_decide (active = Some conversationId)
          then modify (withCurrentConversation (Some conversation))
          else ret tt) ;;
         ret true
     end)
    (fun error =>
       handleStorageError
         ("Failed to update conversation title for " +:+ conversationId) error ;;
       ret false).

Definition setArchiveStatus `{Environment} (conversationId : string) (archive : bool)
  : Action bool :=
  tryCatch
    (conversationJson <- getItem (storageKey conversationId) ;;
     match conversationJson with
     | None => throw (Error ("Conversation " +:+ conversationId +:+ " not found"))
     | Some text =>
         parsed <- parse text ;;
         (if hasMetadataObject parsed then ret tt else throw TypeError) ;;
         conversation <- cast (asChatHistory parsed) ;;
         conversation <-
           saveConversation
             (mkChatHistory (h_messages conversation)
                (withArchived archive (h_metadata conversation))) ;;
         active <- read activeConversationId ;;
         (if bool_decide (active = Some conversationId)
          then modify (withCurrentConversation (Some conversation))
          else ret tt) ;;
         ret true
     end)
    (fun error =>
       handleStorageError ("Failed to set archive status for " +:+ conversationId) error ;;
       ret false).

(** The two string operations of the platform that
    [getFilteredConversations] uses: [s.toLowerCase()] and
    [a.localeCompare(b)]. *)
Record Locale : Type := mkLocale {
  toLowerCase : string -> string;
  localeCompare : string -> string -> Z
}.

Inductive SortKey : Type := SortUpdated | SortCreated | SortTitle.
Inductive SortDirection : Type := Ascending | Descending.

(** The argument of [getFilteredConversations]. *)
Record ConversationFilter : Type := mkConversationFilter {
  searchTerm : option string;
  onlyFavorites : option bool;
  includeArchived : option bool;
  sortBy : option SortKey;
  sortDirection : option SortDirection
}.

(** The first test of the callback of [filter]: a search term is given,
    the conversation has a title, and the title does not contain the
    term, case ignored. *)
Definition searchExcludes (locale : Locale) (f : ConversationFilter)
    (conversation : ConversationMetadata) : bool :=
  match searchTerm f, c_title conversation with
  | Some (String a term), Some (String b title) =>
      negb (includes (toLowerCase locale (String a term))
              (toLowerCase locale (String b title)))
  | _, _ => false
  end.

(** The callback of [filter] in [getFilteredConversations]. *)
Definition matchesFilter (locale : Locale) (f : ConversationFilter)
    (conversation : ConversationMetadata) : bool :=
  if searchExcludes locale f conversation then false
  else if negb (notFlag (onlyFavorites f)) && notFlag (c_isFavorite conversation)
  then false
  else if notFlag (includeArchived f) && negb (notFlag (c_isArchived conversation))
  then false
  else true.

(** The callback of [sort]. *)
Definition compareConversations (locale : Locale) (f : ConversationFilter)
    (a b : ConversationMetadata) : Z :=
  let direction :=
    match sortDirection f with Some Ascending => 1 | _ => -1 end in
  match sortBy f with
  | None | Some SortUpdated => (c_updatedAt a - c_updatedAt b) * direction
  | Some SortCreated => (c_createdAt a - c_createdAt b) * direction
  | Some SortTitle =>
      localeCompare locale (orString (c_title a) "") (orString (c_title b) "")
      * direction
  end.

Definition getFilteredConversations (locale : Locale) (f : ConversationFilter)
    (st : ServiceState) : list ConversationMetadata :=
  sort (compareConversations locale f)
    (List.filter (matchesFilter locale f) (conversationsSubject st)).

Definition loadAllConversationsMetadata `{Environment}
  : Action (list ConversationMetadata) :=
  tryCatch
    (conversationsJson <- getItem (storageKey "index") ;;
     match conversationsJson with
     | None => ret []
     | Some text =>
         parsed <- parse text ;;
         match parsed with
         | JArr elements => cast (mapM asConversationMetadata elements)
         | _ => throw (Error "Invalid conversations index format")
         end
     end)
    (fun error =>
       handleStorageError "Failed to load conversations index" error ;;
       ret []).

(** [initialize], the first step of the constructor. *)
Definition initialize `{Environment} : Action unit :=
  tryCatch
    (conversations <- loadAllConversationsMetadata ;;
     modify (withConversations conversations) ;;
     match conversations with
     | [] => createNewConversation None ;; ret tt
     | _ :: _ => loadMostRecent conversations
     end)
    (fun error => handleStorageError "Failed to initialize chat storage" error).

(** ** Further notions for the stream *)

(** The content delta a line contributes, if any. *)
Definition lineDelta `{Environment} (line : string) : option string :=
  match readLine line with
  | Event e => ev_content e
  | _ => None
  end.

(** The tokens a line adds to the cumulative usage. *)
Definition lineTokens `{Environment} (line : string) : Z :=
  match readLine line with
  | Event {| ev_usage := Some usage |} => total_tokens usage
  | _ => 0
  end.

(** No value on the line is outside the type the source assumes. *)
Definition soundLine `{Environment} (line : string) : Prop :=
  readLine line <> Unsound.

(** The content deltas of the lines that carry one, in order. *)
Definition deltasOf `{Environment} (lines : list string) : list string :=
  omap lineDelta lines.

Definition tokensOf `{Environment} (lines : list string) : Z :=
  foldr (fun line total => lineTokens line + total) 0 lines.

(** A snapshot of the answer under construction. *)
Definition pendingAnswer (m : ChatMessage) : Prop :=
  m_sender m = AI /\ m_isPending m = Some true /\ m_isError m = None.

(** ** Notions for the properties of the further operations *)

(** What [validateConversation] asks of a typed conversation: an
    identifier, and for every message an identifier, a content and a
    time stamp that are not falsy. *)
Definition completeMessage (m : ChatMessage) : Prop :=
  m_id m <> "" /\ m_content m <> "" /\ m_timestamp m <> 0.

Definition loadable (c : ChatHistory) : Prop :=
  c_id (h_metadata c) <> "" /\ Forall completeMessage (h_messages c).

(** The index lists the identifier [id] at most once. *)
Definition listedOnce (id : string) (conversations : list ConversationMetadata) : Prop :=
  forall i j a b,
    conversations !! i = Some a -> conversations !! j = Some b ->
    c_id a = id -> c_id b = id -> i = j.

(** The filter of a call [getFilteredConversations({})]. *)
Definition defaultFilter : ConversationFilter :=
  mkConversationFilter None None None None None.

(** What the three tests of [getFilteredConversations] come to for one
    index entry: a search term excludes only titled conversations. *)
Definition passesSearch (locale : Locale) (f : ConversationFilter)
    (q : ConversationMetadata) : Prop :=
  forall term title,
    searchTerm f = Some term -> term <> "" ->
    c_title q = Some title -> title <> "" ->
    includes (toLowerCase locale term) (toLowerCase locale title) = true.

Definition passesFlags (f : ConversationFilter) (q : ConversationMetadata) : Prop :=
  (onlyFavorites f = Some true -> c_isFavorite q = Some true)
  /\ (c_isArchived q = Some true -> includeArchived f = Some true).

(** The order [getFilteredConversations] promises for a numeric key. *)
Definition inListingOrder (f : ConversationFilter) (a b : ConversationMetadata) : Prop :=
  let key :=
    match sortBy f with Some SortCreated => c_createdAt | _ => c_updatedAt end in
  match sortDirection f with
  | Some Ascending => key a <= key b
  | _ => key b <= key a
  end.

(** The index entries [deleteConversation(id)] keeps. *)
Definition remains (id : string) (st : ServiceState) (q : ConversationMetadata) : Prop :=
  q ∈ conversationsSubject st /\ c_id q <> id.

(** ** Sample surroundings and data, for concrete runs *)

Definition sampleDelta (content : string) : JValue :=
  JObj [("choices", JArr [JObj [("delta", JObj [("content", JStr content)])]])].

Definition quoted (s : string) : string :=
  String (ascii_of_nat 34) s +:+ String (ascii_of_nat 34) "".

(** The JSON text of [sampleDelta content]. *)
Definition sampleDeltaText (content : string) : string :=
  "{" +:+ quoted "choices" +:+ ":[{" +:+ quoted "delta" +:+ ":{"
  +:+ quoted "content" +:+ ":" +:+ quoted content +:+ "}}]}".

(** A parser that knows the payloads of the sample stream. *)
Definition sampleParse (text : string) : option JValue :=
  if String.eqb text (sampleDeltaText "He") then Some (sampleDelta "He")
  else if String.eqb text (sampleDeltaText "llo") then Some (sampleDelta "llo")
  else None.

Definition sampleEnvironment : Environment := {|
  CHAT_HISTORY_KEY := "ai_chat_history_dev";
  MAX_HISTORY_ITEMS := 100;
  Date_now := fun n => 1700000000000 + Z.of_nat n;
  uuidv4 := fun n => "uuid-" +:+ pretty n;
  JSON_parse := sampleParse;
  engine_message := fun _ => "engine error";
  localStorage_accepts := fun _ _ _ => true
|}.

Definition sampleUserMessage (n : nat) : ChatMessage :=
  mkChatMessage ("m" +:+ pretty n) USER "Hello" 1700000000000 None None None.

Definition sampleAiMessage : ChatMessage :=
  mkChatMessage "a1" AI "Hi" 1700000000001 None None
    (Some (mkMessageMetadata None None None None None (Some 10) None)).

Definition sampleConversation : ChatHistory :=
  mkChatHistory [sampleUserMessage 1; sampleAiMessage]
    (mkConversationMetadata "c1" (Some "Trip") 1600000000000 1600000000500
       2 1 1 (Some 10) (Some []) (Some true) (Some false)).

(** A store that holds [sampleConversation], listed in its index and active. *)
Definition sampleStore : ServiceState :=
  mkServiceState
    {[ "ai_chat_history_dev_c1" := JsonText (encodeChatHistory sampleConversation) ]}
    (Some "c1") [h_metadata sampleConversation] (Some sampleConversation) None [] 0 0.

Definition sampleAiService : AiService :=
  mkAiService (mkLoadingState false None) (mkErrorState false None) 0 "gpt-3.5-turbo" 0 0.

Definition eventLine (payload : string) : string :=
  "data: " +:+ payload +:+ String LF (String LF "").

(** Two chunks: the deltas "He" and "llo", then the terminator line. *)
Definition sampleChunks : list string :=
  [eventLine (sampleDeltaText "He");
   eventLine (sampleDeltaText "llo") +:+ eventLine "[DONE]"].

(** One chunk with a truncated payload between the two deltas. *)
Definition sampleChunksWithMalformedLine : list string :=
  [eventLine (sampleDeltaText "He") +:+ eventLine "{oops"
   +:+ eventLine (sampleDeltaText "llo")].

(** A fresh store, one conversation created, then 101 user messages
    added: one more than the cap of the development configuration. *)
Definition sampleOverflow : option ChatHistory :=
  created ← finalState (@createNewConversation sampleEnvironment None (initialState ∅));
  filled ← finalState
             (@calls sampleEnvironment
                (map AddMessage (map sampleUserMessage (seq 1 101))) created);
  currentConversationSubject filled.

(** [importConversation(exportConversation("c1"), replace)] on the sample
    store: the conversation that ends up active. *)
Definition sampleRoundTrip (replace : bool) : option ChatHistory :=
  let exported := @exportConversation sampleEnvironment (Some "c1") sampleStore in
  text ← returned exported;
  st ← finalState exported;
  st' ← finalState (@importConversation sampleEnvironment text replace st);
  currentConversationSubject st'.

(** Surroundings whose storage refuses every write. *)
Definition fullStorageEnvironment : Environment := {|
  CHAT_HISTORY_KEY := "ai_chat_history_dev";
  MAX_HISTORY_ITEMS := 100;
  Date_now := fun n => 1700000000000 + Z.of_nat n;
  uuidv4 := fun n => "uuid-" +:+ pretty n;
  JSON_parse := sampleParse;
  engine_message := fun _ => "engine error";
  localStorage_accepts := fun _ _ _ => false
|}.

Definition sampleOlderConversation : ChatHistory :=
  mkChatHistory [sampleUserMessage 2]
    (mkConversationMetadata "c2" (Some "Recipes") 1500000000000 1500000000500
       1 1 0 (Some 0) (Some []) (Some false) (Some true)).

(** A store that holds [sampleConversation], active, and
    [sampleOlderConversation], both listed in its index. *)
Definition sampleStoreOfTwo : ServiceState :=
  mkServiceState
    {[ "ai_chat_history_dev_c1" := JsonText (encodeChatHistory sampleConversation);
       "ai_chat_history_dev_c2" := JsonText (encodeChatHistory sampleOlderConversation) ]}
    (Some "c1") [h_metadata sampleConversation; h_metadata sampleOlderConversation]
    (Some sampleConversation) None [] 0 0.

(** The same index, with the record of the older conversation lost. *)
Definition sampleStoreWithLostRecord : ServiceState :=
  mkServiceState
    {[ "ai_chat_history_dev_c1" := JsonText (encodeChatHistory sampleConversation) ]}
    (Some "c1") [h_metadata sampleConversation; h_metadata sampleOlderConversation]
    (Some sampleConversation) None [] 0 0.

(** ASCII lower case and code-unit order, for concrete runs. *)
Definition lowerAscii (c : ascii) : ascii :=
  let n := nat_of_ascii c in
  if Nat.leb 65 n && Nat.leb n 90 then ascii_of_nat (n + 32) else c.

Fixpoint lowerString (s : string) : string :=
  match s with
  | EmptyString => EmptyString
  | String c rest => String (lowerAscii c) (lowerString rest)
  end.

Definition sampleLocale : Locale :=
  mkLocale lowerString
    (fun a b => match String.compare a b with Lt => -1 | Eq => 0 | Gt => 1 end).

(** A record with no identifier in its metadata. *)
Definition sampleCorruptRecord : JValue :=
  JObj [("messages", JArr []); ("metadata", JObj [("title", JStr "Lost")])].

(** An export of two conversations, the second one corrupt. *)
Definition sampleBatch : StoredText :=
  JsonText
    (JObj [("version", JStr "1.0.0-dev");
           ("timestamp", JNum 1700000000000);
           ("conversations",
            JObj [("c2", encodeChatHistory sampleOlderConversation);
                  ("c9", sampleCorruptRecord)])]).

(** [sampleStore] with the record of its conversation cut short. *)
Definition sampleStoreWithTruncatedRecord : ServiceState :=
  withLocalStorage {[ "ai_chat_history_dev_c1" := RawText "{oops" ]} sampleStore.

(** A filter that asks for favorites matching "tri", oldest first. *)
Definition sampleFilter : ConversationFilter :=
  mkConversationFilter (Some "tri") (Some true) None (Some SortCreated) (Some Ascending).

(** Storage as a browser has it at start-up: the index lists the two
    sample conversations, the record of the more recent one is lost. *)
Definition sampleStorageAtStartup : ServiceState :=
  initialState
    {[ "ai_chat_history_dev_index" :=
         JsonText (JArr (map encodeMetadata
                           [h_metadata sampleOlderConversation;
                            h_metadata sampleConversation]));
       "ai_chat_history_dev_c2" := JsonText (encodeChatHistory sampleOlderConversation) ]}.

(** A body whose transport fails after the first chunk. *)
Definition sampleBrokenBody : ResponseBody :=
  mkResponseBody [eventLine (sampleDeltaText "He")] (ReadFailure (Error "network lost")).

(** The last event of a provider stream: finish reason and usage. *)
Definition sampleUsage : JValue :=
  JObj [("choices", JArr [JObj [("delta", JObj []); ("finish_reason", JStr "stop")]]);
        ("usage", JObj [("prompt_tokens", JNum 5);
                        ("completion_tokens", JNum 7);
                        ("total_tokens", JNum 12)])].

(** The JSON text of [sampleUsage]. *)
Definition sampleUsageText : string :=
  "{" +:+ quoted "choices" +:+ ":[{" +:+ quoted "delta" +:+ ":{},"
  +:+ quoted "finish_reason" +:+ ":" +:+ quoted "stop" +:+ "}],"
  +:+ quoted "usage" +:+ ":{" +:+ quoted "prompt_tokens" +:+ ":5,"
  +:+ quoted "completion_tokens" +:+ ":7," +:+ quoted "total_tokens" +:+ ":12}}".

(** The sample surroundings, with a parser that also knows the usage
    event. *)
Definition usageEnvironment : Environment := {|
  CHAT_HISTORY_KEY := "ai_chat_history_dev";
  MAX_HISTORY_ITEMS := 100;
  Date_now := fun n => 1700000000000 + Z.of_nat n;
  uuidv4 := fun n => "uuid-" +:+ pretty n;
  JSON_parse := fun text =>
    if String.eqb text sampleUsageText then Some sampleUsage else sampleParse text;
  engine_message := fun _ => "engine error";
  localStorage_accepts := fun _ _ _ => true
|}.

(** Two deltas, then the usage event and the terminator line. *)
Definition sampleChunksWithUsage : list string :=
  [eventLine (sampleDeltaText "He");
   eventLine (sampleDeltaText "llo") +:+ eventLine sampleUsageText
   +:+ eventLine "[DONE]"].

(** Reduce the projections of explicit states and conversations only. *)
Ltac project :=
  cbn [clock entropy localStorage activeConversationId currentConversationSubject
       saveSubject conversationsSubject storageErrorSubject
       withLocalStorage withActiveConversationId withConversations
       withCurrentConversation withStorageError withSaveSubject
       h_metadata h_messages c_id withUpdatedAt clearedMetadata] in *.

(** * Properties *)

Lemma formatLoop_spec (history : list ChatMessage) (acc : list OpenAIChatMessage) :
  formatLoop history acc
  = acc ++ map toApiMessage (filter (fun m => keptForApi m = true) history).
Proof.
  revert acc. induction history as [|message rest IH]; intros acc; simpl.
  - by rewrite app_nil_r.
  - unfold keptForApi at 1.
    destruct (m_sender message) eqn:Hs, (m_isError message) as [[|]|] eqn:He;
      simpl; rewrite ?filter_cons; unfold keptForApi; rewrite Hs, He; simpl;
      rewrite IH; unfold toApiMessage; rewrite ?Hs; simpl;
      by rewrite <- ?app_assoc.
Qed.

(** C9: the message list of the provider request [sendMessage] builds
    starts with the fixed system instruction, continues with exactly the
    history entries that are neither system-sent nor error-flagged, in
    order, as "user" for a user entry and "assistant" otherwise with the
    content unchanged, and ends with the new user message as a "user"
    turn. *)
Theorem sendMessage_request_messages `{Environment}
    (userMessage : string) (history : list ChatMessage) (streamResponse : bool)
    (network : Network) (s : AiService) :
  req_messages (fst (sendMessage userMessage history streamResponse network s))
  = specRequestMessages history userMessage.
Proof.
  unfold sendMessage.
  destruct streamResponse; [| destruct (getChatCompletion _ _)];
    unfold requestPayload, formatConversationForApi, specRequestMessages; simpl;
    by rewrite formatLoop_spec.
Qed.

(** ** The stream assembler *)

Section AssemblerFacts.
Context `{Environment}.

Lemma append_cons (x : ascii) (a b : string) : String x a +:+ b = String x (a +:+ b).
Proof. reflexivity. Qed.

Lemma append_assoc (a b c : string) : (a +:+ b) +:+ c = a +:+ (b +:+ c).
Proof. induction a as [|x a IH]; [done | by rewrite !append_cons, IH]. Qed.

Lemma append_empty_r (a : string) : a +:+ "" = a.
Proof. induction a as [|x a IH]; [done | by rewrite append_cons, IH]. Qed.

Lemma runningConcats_prefixes (content : string) (deltas : list string) :
  runningConcats content deltas
  = map (fun k => content +:+ joinAll (take k deltas)) (seq 1 (length deltas)).
Proof.
  revert content. induction deltas as [|d rest IH]; intros content; simpl; [done |].
  f_equal.
  - by rewrite append_empty_r.
  - rewrite IH, <- (seq_shift (length rest) 1), map_map. apply map_ext. intros k. simpl.
    by rewrite append_assoc.
Qed.

Lemma runningConcats_empty (deltas : list string) :
  runningConcats "" deltas = prefixConcatenations deltas.
Proof. by rewrite runningConcats_prefixes. Qed.

Lemma processLines_app (lines1 lines2 : list string) (r : StreamRun) :
  processLines (lines1 ++ lines2) r
  = match processLines lines1 r with
    | Some r' => processLines lines2 r'
    | None => None
    end.
Proof.
  revert r. induction lines1 as [|line rest IH]; intros r; simpl; [done |].
  destruct (processLine line r); [apply IH | done].
Qed.

(** Reading chunk after chunk is processing the surviving lines of all
    chunks in order, whatever the chunk boundaries. *)
Lemma readStream_lines (startTime : Z) (cs : list string) (ending : StreamEnd)
    (r : StreamRun) :
  readStream startTime cs ending r
  = match processLines (flat_map chunkLines cs) r with
    | Some r' => readStream startTime [] ending r'
    | None => None
    end.
Proof.
  revert r. induction cs as [|chunk rest IH]; intros r; [done |].
  cbn [readStream flat_map]. rewrite processLines_app.
  destruct (processLines (chunkLines chunk) r); [apply IH | done].
Qed.

(** An event never touches the pending flag or the subject's completion;
    it emits exactly when it carries a content delta. *)
Lemma applyEvent_frame (e : EventView) (r : StreamRun) :
  m_isPending (accumulatedMessage (applyEvent e r)) = m_isPending (accumulatedMessage r)
  /\ m_sender (accumulatedMessage (applyEvent e r)) = m_sender (accumulatedMessage r)
  /\ m_isError (accumulatedMessage (applyEvent e r)) = m_isError (accumulatedMessage r)
  /\ completed (responseSubject (applyEvent e r)) = completed (responseSubject r).
Proof.
  unfold applyEvent, applyFinish, applyUsage, applyContent.
  destruct e as [[d|] [u|] [f|]]; simpl; done.
Qed.

Lemma applyEvent_delta (e : EventView) (delta : string) (r : StreamRun) :
  ev_content e = Some delta ->
  m_content (accumulatedMessage (applyEvent e r))
    = m_content (accumulatedMessage r) +:+ delta
  /\ exists snapshot,
       emitted (responseSubject (applyEvent e r))
         = emitted (responseSubject r) ++ [snapshot]
       /\ m_content snapshot = m_content (accumulatedMessage r) +:+ delta
       /\ m_isPending snapshot = m_isPending (accumulatedMessage r)
       /\ m_sender snapshot = m_sender (accumulatedMessage r)
       /\ m_isError snapshot = m_isError (accumulatedMessage r).
Proof.
  intros Hd. unfold applyEvent, applyFinish, applyUsage, applyContent. rewrite Hd.
  destruct e as [c [u|] [f|]]; simpl; (split; [done |]); eexists; (split; [done |]); done.
Qed.

Lemma applyEvent_silent (e : EventView) (r : StreamRun) :
  ev_content e = None ->
  m_content (accumulatedMessage (applyEvent e r)) = m_content (accumulatedMessage r)
  /\ emitted (responseSubject (applyEvent e r)) = emitted (responseSubject r).
Proof.
  intros Hd. unfold applyEvent, applyFinish, applyUsage, applyContent. rewrite Hd.
  destruct e as [c [u|] [f|]]; simpl; done.
Qed.

(** A line [JSON.parse] rejects changes nothing. *)
Lemma processLine_unparsable (line : string) (r : StreamRun) :
  JSON_parse (trim (removeDataPrefix line)) = None ->
  processLine line r = Some r.
Proof.
  intros Hbad. unfold processLine, readLine. rewrite Hbad.
  by destruct (trim (removeDataPrefix line)).
Qed.

Lemma processLines_deltas (lines deltas : list string) :
  Forall2 carriesDelta lines deltas ->
  forall r, exists r',
    processLines lines r = Some r'
    /\ m_content (accumulatedMessage r')
       = m_content (accumulatedMessage r) +:+ joinAll deltas
    /\ m_isPending (accumulatedMessage r') = m_isPending (accumulatedMessage r)
    /\ m_sender (accumulatedMessage r') = m_sender (accumulatedMessage r)
    /\ m_isError (accumulatedMessage r') = m_isError (accumulatedMessage r)
    /\ completed (responseSubject r') = completed (responseSubject r)
    /\ exists snapshots,
         emitted (responseSubject r') = emitted (responseSubject r) ++ snapshots
         /\ map m_content snapshots
            = runningConcats (m_content (accumulatedMessage r)) deltas
         /\ Forall (fun m => m_isPending m = m_isPending (accumulatedMessage r)
                             /\ m_sender m = m_sender (accumulatedMessage r)
                             /\ m_isError m = m_isError (accumulatedMessage r))
              snapshots.
Proof.
  induction 1 as [|line delta lines deltas [e [Hline Hdelta]] _ IH]; intros r.
  - exists r. simpl. rewrite append_empty_r. repeat split; try done.
    exists []. by rewrite app_nil_r.
  - destruct (applyEvent_delta e delta r Hdelta)
      as (Hc & snapshot & Hem & Hsc & Hsp & Hss & Hse).
    destruct (applyEvent_frame e r) as (Hp & Hs & He & Hcompl).
    destruct (IH (applyEvent e r))
      as (r' & Hrun & Hc' & Hp' & Hs' & He' & Hcompl' & snaps & Hem' & Hcs & Hall).
    exists r'. cbn [processLines]. unfold processLine. rewrite Hline.
    split; [done |]. split.
    { rewrite Hc', Hc. simpl. by rewrite append_assoc. }
    split; [congruence |]. split; [congruence |]. split; [congruence |].
    split; [congruence |].
    exists (snapshot :: snaps). split.
    { rewrite Hem', Hem. by rewrite <- app_assoc. }
    split.
    { simpl. rewrite Hsc, Hcs, Hc. done. }
    constructor; [done |].
    eapply Forall_impl; [exact Hall |]. simpl. intros m (? & ? & ?).
    repeat split; congruence.
Qed.

Lemma viewString_nonempty (o : option JValue) (s : string) :
  viewString o = Some (Some s) -> s <> "".
Proof.
  unfold viewString.
  destruct o as [[| flag | n | text | |]|]; cbn; try done.
  - by destruct flag.
  - by destruct (n =? 0).
  - destruct (String.eqb_spec text ""); cbn; [done |]. by intros [= <-].
Qed.

Lemma viewEvent_content (json : JValue) (e : EventView) (delta : string) :
  viewEvent json = Event e -> ev_content e = Some delta -> delta <> "".
Proof.
  unfold viewEvent.
  destruct json as [| flag | n | text | elements | fields]; try done;
    try (cbn; intros [= <-]; done).
  destruct (viewString (optProp (optProp _ "delta") "content"))
    as [content|] eqn:Hcontent; [| done].
  destruct (viewUsage _); [| done].
  match goal with
  | |- context [viewString ?finish] => destruct (viewString finish); [| done]
  end.
  intros [= <-] Hdelta. cbn in Hdelta. subst content.
  by apply viewString_nonempty in Hcontent.
Qed.

(** A content delta is never empty: each emission strictly extends the
    content. *)
Lemma carriesDelta_nonempty (line delta : string) :
  carriesDelta line delta -> delta <> "".
Proof.
  intros (e & Hline & Hdelta). unfold readLine in Hline.
  destruct (trim (removeDataPrefix line)); [done |].
  destruct (JSON_parse _) as [json|]; [| done].
  by apply (viewEvent_content json e).
Qed.

Lemma processLines_unparsable (before after : list string) (malformed : string)
    (r : StreamRun) :
  JSON_parse (trim (removeDataPrefix malformed)) = None ->
  processLines (before ++ [malformed] ++ after) r = processLines (before ++ after) r.
Proof.
  intros Hbad. rewrite !processLines_app.
  destruct (processLines before r) as [r'|]; [| done].
  cbn [app processLines]. by rewrite (processLine_unparsable _ _ Hbad).
Qed.

(** An event whose content delta is empty, as the first event of a
    provider stream usually is, carries no delta for the loop body. *)
Lemma viewEvent_empty_content :
  viewEvent
    (JObj [("choices", JArr [JObj [("delta", JObj [("content", JStr "")])]])])
  = Event (mkEventView None None None).
Proof. reflexivity. Qed.

(** A transport failure ends the stream with one system-sent error
    message and clears the loading flag. *)
Lemma streamChatCompletion_rejected (error : JsError) (s : AiService) :
  exists r message,
    streamChatCompletion (FetchRejected error) s = Some r
    /\ emitted (responseSubject r) = [message]
    /\ m_sender message = SYSTEM
    /\ m_isError message = Some true
    /\ completed (responseSubject r) = true
    /\ isLoading (loadingState (service r)) = false
    /\ hasError (errorState (service r)) = true.
Proof. eexists _, _. split; [reflexivity |]. cbn. by repeat split. Qed.

(** The end of the body: one more emission, no longer pending. *)
Lemma finishStream_facts (startTime : Z) (r : StreamRun) :
  exists final,
    emitted (responseSubject (finishStream startTime r))
      = emitted (responseSubject r) ++ [final]
    /\ m_content final = m_content (accumulatedMessage r)
    /\ m_isPending final = Some false
    /\ m_sender final = m_sender (accumulatedMessage r)
    /\ m_isError final = m_isError (accumulatedMessage r)
    /\ completed (responseSubject (finishStream startTime r)) = true
    /\ isLoading (loadingState (service (finishStream startTime r))) = false.
Proof. eexists. unfold finishStream. cbn. repeat split. Qed.

End AssemblerFacts.

(** C2: when the lines delivered to the assembler are provider events
    carrying the content deltas d1..dn and the body then ends, the
    assembler emits one pending message per delta, their contents being
    d1, d1+d2, ..., d1+...+dn in this order, then emits the message once
    more with the whole content and isPending = false and completes the
    stream. *)
Theorem stream_monotonicity `{Environment} (s : AiService) (ok_status : Z)
    (cs deltas : list string) :
  Forall2 carriesDelta (flat_map chunkLines cs) deltas ->
  exists (r : StreamRun) (snapshots : list ChatMessage) (final : ChatMessage),
    streamChatCompletion
      (FetchResponse true ok_status (Some (mkResponseBody cs EndOfInput))) s = Some r
    /\ emitted (responseSubject r) = snapshots ++ [final]
    /\ map m_content snapshots = prefixConcatenations deltas
    /\ Forall (fun m => m_isPending m = Some true) snapshots
    /\ m_content final = joinAll deltas
    /\ m_isPending final = Some false
    /\ completed (responseSubject r) = true.
Proof.
  intros Hlines. unfold streamChatCompletion, setupStreamingRequest.
  cbn [chunks ending]. rewrite readStream_lines.
  match goal with
  | |- context [processLines _ ?r0] =>
      destruct (processLines_deltas _ _ Hlines r0)
        as (r' & Hrun & Hc & Hp & _ & _ & _ & snaps & Hem & Hcs & Hall)
  end.
  rewrite Hrun. cbn [readStream].
  eexists _, snaps, _. split; [reflexivity |].
  cbn in Hem, Hcs, Hc, Hp, Hall |- *.
  split; [by rewrite Hem |].
  split; [by rewrite Hcs, runningConcats_empty |].
  split; [eapply Forall_impl; [exact Hall |]; by intros m (? & _) |].
  done.
Qed.

Lemma stream_monotonicity_witness :
  Forall2 (@carriesDelta sampleEnvironment) (flat_map chunkLines sampleChunks)
    ["He"; "llo"]
  /\ exists (r : StreamRun) (snapshots : list ChatMessage) (final : ChatMessage),
       @streamChatCompletion sampleEnvironment
         (FetchResponse true 200 (Some (mkResponseBody sampleChunks EndOfInput)))
         sampleAiService = Some r
       /\ emitted (responseSubject r) = snapshots ++ [final]
       /\ map m_content snapshots = prefixConcatenations ["He"; "llo"]
       /\ Forall (fun m => m_isPending m = Some true) snapshots
       /\ m_content final = joinAll ["He"; "llo"]
       /\ m_isPending final = Some false
       /\ completed (responseSubject r) = true.
Proof.
  assert (Hlines : Forall2 (@carriesDelta sampleEnvironment)
                     (flat_map chunkLines sampleChunks) ["He"; "llo"]).
  { repeat constructor; eexists; split; vm_compute; reflexivity. }
  split; [exact Hlines |].
  exact (@stream_monotonicity sampleEnvironment sampleAiService 200 sampleChunks
           ["He"; "llo"] Hlines).
Defined.

(** C6: when one of the lines delivered to the assembler is rejected by
    [JSON.parse] and the lines before and after it are provider events
    carrying content deltas (one delta on each side in the scenario of
    the specification), however the lines are cut into chunks, every
    delta is applied in order, the stream is not ended by the malformed
    line, and it completes normally: the last emission carries the whole
    content with isPending = false, no error message is emitted and the
    loading flag is cleared. *)
Theorem malformed_line_is_skipped `{Environment} (s : AiService) (ok_status : Z)
    (cs before after : list string) (malformed : string)
    (deltas1 deltas2 : list string) :
  flat_map chunkLines cs = before ++ [malformed] ++ after ->
  Forall2 carriesDelta before deltas1 ->
  JSON_parse (trim (removeDataPrefix malformed)) = None ->
  Forall2 carriesDelta after deltas2 ->
  exists (r : StreamRun) (snapshots : list ChatMessage) (final : ChatMessage),
    streamChatCompletion
      (FetchResponse true ok_status (Some (mkResponseBody cs EndOfInput))) s = Some r
    /\ emitted (responseSubject r) = snapshots ++ [final]
    /\ map m_content snapshots = prefixConcatenations (deltas1 ++ deltas2)
    /\ Forall (fun m => m_isPending m = Some true) snapshots
    /\ m_content final = joinAll (deltas1 ++ deltas2)
    /\ m_isPending final = Some false
    /\ Forall (fun m => m_sender m = AI /\ m_isError m = None) (snapshots ++ [final])
    /\ completed (responseSubject r) = true
    /\ isLoading (loadingState (service r)) = false.
Proof.
  intros Hlines Hbefore Hbad Hafter.
  unfold streamChatCompletion, setupStreamingRequest. cbn [chunks ending].
  set (r0 := mkStreamRun _ _ _).
  assert (H0 : m_content (accumulatedMessage r0) = ""
               /\ m_isPending (accumulatedMessage r0) = Some true
               /\ m_sender (accumulatedMessage r0) = AI
               /\ m_isError (accumulatedMessage r0) = None
               /\ emitted (responseSubject r0) = []) by done.
  destruct H0 as (Hc0 & Hp0 & Hs0 & He0 & Hem0). clearbody r0.
  rewrite readStream_lines, Hlines, (processLines_unparsable _ _ _ _ Hbad).
  destruct (processLines_deltas _ _ (Forall2_app Hbefore Hafter) r0)
    as (r1 & Hrun & Hc1 & Hp1 & Hs1 & He1 & _ & snapshots & Hem1 & Hcs & Hall).
  rewrite Hrun. cbn [readStream].
  destruct (finishStream_facts (Date_now (ai_clock s)) r1)
    as (final & Hem2 & Hc2 & Hp2 & Hs2 & He2 & Hdone & Hload).
  exists (finishStream (Date_now (ai_clock s)) r1), snapshots, final.
  rewrite Hc0 in *.
  split; [done |].
  split; [by rewrite Hem2, Hem1, Hem0 |].
  split; [by rewrite Hcs, runningConcats_empty |].
  split; [eapply Forall_impl; [exact Hall |]; intros m (? & _); congruence |].
  split; [by rewrite Hc2, Hc1 |].
  split; [done |].
  split; [| done].
  apply Forall_app. split.
  - eapply Forall_impl; [exact Hall |]. intros m (_ & ? & ?). split; congruence.
  - repeat constructor; congruence.
Qed.

Lemma malformed_line_is_skipped_witness :
  flat_map chunkLines sampleChunksWithMalformedLine
    = ["data: " +:+ sampleDeltaText "He"] ++ ["data: {oops"]
      ++ ["data: " +:+ sampleDeltaText "llo"]
  /\ exists (r : StreamRun) (snapshots : list ChatMessage) (final : ChatMessage),
       @streamChatCompletion sampleEnvironment
         (FetchResponse true 200
            (Some (mkResponseBody sampleChunksWithMalformedLine EndOfInput)))
         sampleAiService = Some r
       /\ emitted (responseSubject r) = snapshots ++ [final]
       /\ map m_content snapshots = prefixConcatenations (["He"] ++ ["llo"])
       /\ Forall (fun m => m_isPending m = Some true) snapshots
       /\ m_content final = joinAll (["He"] ++ ["llo"])
       /\ m_isPending final = Some false
       /\ Forall (fun m => m_sender m = AI /\ m_isError m = None) (snapshots ++ [final])
       /\ completed (responseSubject r) = true
       /\ isLoading (loadingState (service r)) = false.
Proof.
  assert (Hlines : flat_map chunkLines sampleChunksWithMalformedLine
                   = ["data: " +:+ sampleDeltaText "He"] ++ ["data: {oops"]
                     ++ ["data: " +:+ sampleDeltaText "llo"]).
  { vm_compute. reflexivity. }
  split; [exact Hlines |].
  apply (@malformed_line_is_skipped sampleEnvironment sampleAiService 200
           sampleChunksWithMalformedLine _ _ _ ["He"] ["llo"] Hlines).
  - repeat constructor. eexists. split; vm_compute; reflexivity.
  - vm_compute. reflexivity.
  - repeat constructor. eexists. split; vm_compute; reflexivity.
Defined.

(** ** The conversation store *)

Section StoreFacts.
Context `{Environment}.

Lemma storageKey_inj (a b : string) : storageKey a = storageKey b -> a = b.
Proof.
  unfold storageKey. intros Heq.
  apply (inj (String.append CHAT_HISTORY_KEY)) in Heq.
  by apply (inj (String.append "_")) in Heq.
Qed.

Lemma sameSession_refl (st : ServiceState) : sameSession st st.
Proof. by repeat split. Qed.

Lemma sameSession_trans (st1 st2 st3 : ServiceState) :
  sameSession st1 st2 -> sameSession st2 st3 -> sameSession st1 st3.
Proof.
  intros (? & ? & ? & ?) (? & ? & ? & ?). repeat split; congruence.
Qed.

(** Writing the index never throws; it touches the index record and the
    error channel only. *)
Lemma saveConversationsIndex_returns (conversations : list ConversationMetadata)
    (st : ServiceState) :
  exists st',
    saveConversationsIndex conversations st = Returned tt st'
    /\ sameSession st st'
    /\ conversationsSubject st' = conversationsSubject st
    /\ clock st' = clock st
    /\ forall key, key <> storageKey "index" ->
         localStorage st' !! key = localStorage st !! key.
Proof.
  unfold saveConversationsIndex, tryCatch, setItem, handleStorageError, modify.
  destruct (localStorage_accepts _ _ _); eexists; (split; [reflexivity |]);
    cbn; repeat split; try done.
  intros key Hkey. by rewrite lookup_insert_ne.
Qed.

Lemma updateConversationInIndex_returns (metadata : ConversationMetadata)
    (st : ServiceState) :
  exists st',
    updateConversationInIndex metadata st = Returned tt st'
    /\ sameSession st st'
    /\ clock st' = clock st
    /\ forall key, key <> storageKey "index" ->
         localStorage st' !! key = localStorage st !! key.
Proof.
  unfold updateConversationInIndex, bind, read, modify.
  match goal with
  | |- context [saveConversationsIndex ?cs ?st0] =>
      destruct (saveConversationsIndex_returns cs st0)
        as (st' & Hrun & Hsame & Hconv & Hclock & Hitems)
  end.
  exists st'. rewrite Hrun. done.
Qed.

(** [saveConversation] never throws: it stamps [updatedAt], tries the two
    writes and reports on the error channel. *)
Lemma saveConversation_returns (conversation : ChatHistory) (st : ServiceState) :
  let saved :=
    mkChatHistory (h_messages conversation)
      (withUpdatedAt (Date_now (clock st)) (h_metadata conversation)) in
  let key := storageKey (c_id (h_metadata conversation)) in
  exists st',
    saveConversation conversation st = Returned saved st'
    /\ sameSession st st'
    /\ clock st' = S (clock st)
    /\ (localStorage_accepts (localStorage st) key (JsonText (encodeChatHistory saved))
          = true ->
        c_id (h_metadata conversation) <> "index" ->
        localStorage st' !! key = Some (JsonText (encodeChatHistory saved)))
    /\ (forall other, other <> key -> other <> storageKey "index" ->
          localStorage st' !! other = localStorage st !! other).
Proof.
  intros saved key.
  unfold saveConversation, bind, dateNow, tryCatch, setItem, handleStorageError, modify, ret.
  cbn [clock localStorage h_metadata c_id withUpdatedAt].
  fold saved. fold key.
  destruct (localStorage_accepts (localStorage st) key _) eqn:Haccepts.
  - match goal with
    | |- context [updateConversationInIndex ?m ?st0] =>
        destruct (updateConversationInIndex_returns m st0)
          as (st' & Hrun & (Ha & Hc & Hs & He) & Hclock & Hitems)
    end.
    rewrite Hrun. eexists. split; [reflexivity |]. cbn in *.
    split; [by repeat split |]. split; [done |]. split.
    + intros _ Hid. rewrite Hitems.
      * by rewrite lookup_insert_eq.
      * intros Heq. by apply storageKey_inj in Heq.
    + intros other Hother Hindex. rewrite Hitems by done.
      by rewrite lookup_insert_ne.
  - eexists. split; [reflexivity |]. cbn.
    split; [by repeat split |]. split; [done |]. split; [done |]. done.
Qed.

(** [createNewConversation] always returns the new identifier and leaves
    the new, empty conversation active, whatever the storage does. *)
Lemma createNewConversation_returns (title : option string) (st : ServiceState) :
  exists st',
    createNewConversation title st = Returned (uuidv4 (entropy st)) st'
    /\ currentConversationSubject st' = Some (newConversation title st)
    /\ activeConversationId st' = Some (uuidv4 (entropy st))
    /\ saveSubject st' = saveSubject st.
Proof.
  unfold createNewConversation, tryCatch. unfold bind at 1. unfold freshId.
  unfold bind at 1. unfold dateNow at 1. cbn [clock entropy]. unfold bind at 1.
  match goal with
  | |- context [saveConversation ?c ?st0] =>
      destruct (saveConversation_returns c st0)
        as (st1 & Hrun & (Ha & Hc & Hs & He) & Hclock & _)
  end.
  project. rewrite Hrun.
  unfold bind at 1. unfold read at 1. unfold bind at 1. unfold modify at 1.
  unfold bind at 1.
  match goal with
  | |- context [saveConversationsIndex ?cs ?st0] =>
      destruct (saveConversationsIndex_returns cs st0)
        as (st2 & Hrun2 & (Ha2 & Hc2 & Hs2 & He2) & _)
  end.
  project. rewrite Hrun2.
  unfold bind, modify, ret. eexists. split; [reflexivity |]. cbn.
  repeat split. congruence.
Qed.

Lemma addMessage_active (message : ChatMessage) (c : ChatHistory) (st : ServiceState) :
  currentConversationSubject st = Some c ->
  addMessage message st
  = Returned tt
      (withSaveSubject (saveSubject st ++ [appendMessage message c])
         (withCurrentConversation (Some (appendMessage message c)) st)).
Proof.
  intros Hcur. unfold addMessage, addMessageRec, bind, read, modify.
  by rewrite Hcur.
Qed.

(** [clearCurrentConversation] on an active conversation always returns
    [true]; it goes through [saveConversation], not through the queue of
    the debounced save. *)
Lemma clearCurrentConversation_returns (c : ChatHistory) (st : ServiceState) :
  currentConversationSubject st = Some c ->
  let cleared := clearedConversation c st in
  let key := storageKey (c_id (h_metadata c)) in
  exists st',
    clearCurrentConversation st = Returned true st'
    /\ currentConversationSubject st' = Some cleared
    /\ activeConversationId st' = activeConversationId st
    /\ saveSubject st' = saveSubject st
    /\ (localStorage_accepts (localStorage st) key (JsonText (encodeChatHistory cleared))
          = true ->
        c_id (h_metadata c) <> "index" ->
        localStorage st' !! key = Some (JsonText (encodeChatHistory cleared))).
Proof.
  intros Hcur cleared key.
  unfold clearCurrentConversation. unfold bind at 1. unfold read at 1.
  rewrite Hcur. unfold tryCatch. unfold bind at 1. unfold dateNow at 1.
  cbn [clock]. unfold bind at 1. unfold modify at 1. unfold bind at 1.
  match goal with
  | |- context [saveConversation ?c0 ?st0] =>
      destruct (saveConversation_returns c0 st0)
        as (st1 & Hrun & (Ha & Hc & Hs & He) & Hclock & Hstored & _)
  end.
  project. rewrite Hrun.
  unfold bind, modify, ret. eexists. split; [reflexivity |]. cbn.
  repeat split; try done.
Qed.

(** *** The nested call of [addMessage] *)

Lemma updateConversationTimestamp_returns (id : string) (st : ServiceState) :
  exists st', updateConversationTimestamp id st = Returned tt st' /\ sameSession st st'.
Proof.
  unfold updateConversationTimestamp. unfold bind at 1. unfold read.
  destruct (findIndex id (conversationsSubject st)) as [index|].
  - unfold bind at 1. unfold dateNow. unfold bind at 1. unfold modify.
    match goal with
    | |- context [saveConversationsIndex ?cs ?st0] =>
        destruct (saveConversationsIndex_returns cs st0) as (st' & Hrun & Hsame & _)
    end.
    exists st'. rewrite Hrun. split; [done |].
    destruct Hsame as (? & ? & ? & ?). project. by repeat split.
  - exists st. split; [done | apply sameSession_refl].
Qed.

(** [loadConversation] never throws, and a conversation stays active
    whether it succeeds or fails. *)
Lemma loadConversation_keeps_active (id : string) (st : ServiceState) (c : ChatHistory) :
  currentConversationSubject st = Some c ->
  match loadConversation id st with
  | Returned _ st' => exists c', currentConversationSubject st' = Some c'
  | Thrown _ _ => False
  | Aborted why => why = UnsoundCast
  end.
Proof.
  intros Hcur.
  unfold loadConversation, tryCatch. unfold bind at 1. unfold getItem, read.
  assert (Hfail : forall message e,
            match (handleStorageError message e;; ret false) st with
            | Returned _ st' => exists c', currentConversationSubject st' = Some c'
            | Thrown _ _ => False
            | Aborted why => why = UnsoundCast
            end).
  { intros message e. unfold bind, handleStorageError, modify, ret. cbn. eauto. }
  destruct (localStorage st !! storageKey id) as [[text | v]|].
  - destruct text; unfold throw, bind, parse; apply Hfail.
  - unfold bind at 1. unfold parse, ret. unfold bind at 1.
    destruct (validateConversation v) as [[]|e]; unfold liftResult, ret, throw;
      [| apply Hfail].
    unfold bind at 1. destruct (asChatHistory v) as [conversation|]; [| done].
    unfold cast, ret. unfold bind at 1. unfold modify. unfold bind at 1.
    unfold bind at 1.
    match goal with
    | |- context [updateConversationTimestamp id ?st0] =>
        destruct (updateConversationTimestamp_returns id st0)
          as (st' & Hrun & (_ & Hc & _))
    end.
    rewrite Hrun. project. eauto.
  - unfold throw. apply Hfail.
Qed.

Lemma addMessageRec_active (fuel : nat) (message : ChatMessage) (c : ChatHistory)
    (st : ServiceState) :
  currentConversationSubject st = Some c ->
  addMessageRec fuel message st
  = Returned tt
      (withSaveSubject (saveSubject st ++ [appendMessage message c])
         (withCurrentConversation (Some (appendMessage message c)) st)).
Proof.
  intros Hcur. destruct fuel; unfold addMessageRec, bind, read, modify; by rewrite Hcur.
Qed.

(** More fuel than the one nested call changes nothing, and [addMessage]
    never uses its fuel up. *)
Lemma addMessageRec_fuel (fuel : nat) (message : ChatMessage) (st : ServiceState) :
  addMessageRec (S fuel) message st = addMessage message st
  /\ addMessage message st <> Aborted OutOfFuel.
Proof.
  unfold addMessage.
  destruct (currentConversationSubject st) as [c|] eqn:Hcur.
  { rewrite !(addMessageRec_active _ message c st Hcur). done. }
  assert (Hstep : forall n,
            addMessageRec (S n) message st
            = (conversationId <- createNewConversation None;;
               loadConversation conversationId;;
               addMessageRec n message) st).
  { intros n. cbn [addMessageRec]. unfold bind at 1. unfold read. by rewrite Hcur. }
  rewrite !Hstep. unfold bind at 1 3 5.
  destruct (createNewConversation_returns None st) as (st1 & Hrun & Hcur1 & _).
  rewrite Hrun. unfold bind.
  pose proof (loadConversation_keeps_active (uuidv4 (entropy st)) st1 _ Hcur1) as Hload.
  destruct (loadConversation (uuidv4 (entropy st)) st1) as [b st2 | e st2 | why];
    [| done | by subst why].
  destruct Hload as [c' Hcur2].
  rewrite !(addMessageRec_active _ message c' st2 Hcur2). done.
Qed.

(** *** The message list and the counters under repeated [addMessage] *)

Lemma retainMessages_lastN (messages : list ChatMessage) :
  retainMessages messages = lastN MAX_HISTORY_ITEMS messages.
Proof.
  unfold retainMessages, lastN.
  destruct (Nat.ltb_spec MAX_HISTORY_ITEMS (length messages)) as [Hlt | Hge]; [done |].
  by replace (length messages - MAX_HISTORY_ITEMS)%nat with 0%nat by lia.
Qed.

Lemma lastN_length {A : Type} (n : nat) (l : list A) :
  length (lastN n l) = Nat.min (length l) n.
Proof. unfold lastN. rewrite length_drop. lia. Qed.

Lemma lastN_all {A : Type} (n : nat) (l : list A) :
  (length l <= n)%nat -> lastN n l = l.
Proof.
  intros Hle. unfold lastN.
  by replace (length l - n)%nat with 0%nat by lia.
Qed.

Lemma lastN_snoc {A : Type} (n : nat) (l : list A) (x : A) :
  lastN n (lastN n l ++ [x]) = lastN n (l ++ [x]).
Proof.
  unfold lastN. rewrite !length_app, length_drop. cbn [length].
  rewrite <- (drop_app_le l [x] (length l - n)) by lia.
  rewrite drop_drop. f_equal. lia.
Qed.

Lemma appendAll_snoc (messages : list ChatMessage) (message : ChatMessage)
    (c : ChatHistory) :
  appendAll (messages ++ [message]) c = appendMessage message (appendAll messages c).
Proof. unfold appendAll. by rewrite fold_left_app. Qed.

(** After at least one call the conversation holds the last
    [MAX_HISTORY_ITEMS] entries of everything it was ever given. *)
Lemma appendAll_messages (messages : list ChatMessage) (c : ChatHistory) :
  messages <> [] ->
  h_messages (appendAll messages c)
  = lastN MAX_HISTORY_ITEMS (h_messages c ++ messages).
Proof.
  induction messages as [|message messages IH] using rev_ind; [done |].
  intros _. rewrite appendAll_snoc. unfold appendMessage. cbn [h_messages].
  rewrite retainMessages_lastN.
  destruct messages as [|first rest].
  - done.
  - rewrite IH by done. rewrite lastN_snoc. by rewrite <- app_assoc.
Qed.

Lemma countMessage_total (message : ChatMessage) (c : ConversationMetadata) :
  c_totalMessages (countMessage message c) = c_totalMessages c + 1.
Proof. unfold countMessage. by destruct message as [? [] ? ? ? ? [[]|]]. Qed.

Lemma appendAll_total (messages : list ChatMessage) (c : ChatHistory) :
  c_totalMessages (h_metadata (appendAll messages c))
  = c_totalMessages (h_metadata c) + Z.of_nat (length messages).
Proof.
  induction messages as [|message messages IH] using rev_ind.
  - cbn. lia.
  - rewrite appendAll_snoc. unfold appendMessage. cbn [h_metadata].
    rewrite countMessage_total, IH, length_app. cbn [length]. lia.
Qed.

(** Each message adds one to the total and at most one to the two
    per-sender counters together. *)
Lemma countMessage_counters (message : ChatMessage) (c : ConversationMetadata) :
  c_userMessageCount c + c_aiMessageCount c <= c_totalMessages c ->
  c_userMessageCount (countMessage message c) + c_aiMessageCount (countMessage message c)
  <= c_totalMessages (countMessage message c).
Proof.
  intros Hinv. unfold countMessage.
  destruct message as [? [] ? ? ? ? ?]; cbn; repeat case_bool_decide; try done; lia.
Qed.

Lemma countMessage_frame (message : ChatMessage) (c : ConversationMetadata) :
  c_id (countMessage message c) = c_id c
  /\ c_createdAt (countMessage message c) = c_createdAt c.
Proof. unfold countMessage. by destruct message as [? [] ? ? ? ? [[]|]]. Qed.

(** A run of [addMessage] calls on an active conversation always returns
    and leaves [appendAll] of the messages active. *)
Lemma calls_addMessage (messages : list ChatMessage) (c : ChatHistory)
    (st : ServiceState) :
  currentConversationSubject st = Some c ->
  exists st',
    calls (map AddMessage messages) st = Returned tt st'
    /\ currentConversationSubject st' = Some (appendAll messages c)
    /\ activeConversationId st' = activeConversationId st
    /\ localStorage st' = localStorage st.
Proof.
  revert c st. induction messages as [|message messages IH]; intros c st Hcur.
  - exists st. by repeat split.
  - cbn [map calls call]. unfold bind. rewrite (addMessage_active message c st Hcur).
    match goal with
    | |- context [calls _ ?st0] =>
        destruct (IH (appendMessage message c) st0 eq_refl)
          as (st' & Hrun & Hcur' & Hact & Hitems)
    end.
    exists st'. rewrite Hrun. by repeat split.
Qed.

(** *** The typed reading inverts [JSON.stringify] *)

Lemma asMessageMetadata_encode (m : MessageMetadata) :
  asMessageMetadata (encodeMessageMetadata m) = Some m.
Proof. by destruct m as [[] [] [] [] [] [] []]. Qed.

Lemma asChatMessage_encode (m : ChatMessage) :
  asChatMessage (encodeMessage m) = Some m.
Proof.
  destruct m as [id sender content timestamp isError isPending metadata].
  unfold asChatMessage, encodeMessage.
  cbn [m_id m_sender m_content m_timestamp m_isError m_isPending m_metadata].
  destruct sender, isError, isPending, metadata as [mm|];
    cbn -[asMessageMetadata encodeMessageMetadata];
    rewrite ?asMessageMetadata_encode; reflexivity.
Qed.

Lemma asTags_encode (tags : list string) : asTags (JArr (map JStr tags)) = Some tags.
Proof.
  unfold asTags. induction tags as [|tag tags IH]; [done |].
  cbn. cbn in IH. by rewrite IH.
Qed.

Lemma asConversationMetadata_encode (c : ConversationMetadata) :
  asConversationMetadata (encodeMetadata c) = Some c.
Proof.
  destruct c as [id title createdAt updatedAt total users ais tokens tags fav arch].
  unfold asConversationMetadata, encodeMetadata.
  cbn [c_id c_title c_createdAt c_updatedAt c_totalMessages c_userMessageCount
       c_aiMessageCount c_totalTokensUsed c_tags c_isFavorite c_isArchived].
  destruct title, tokens, tags as [tags|], fav, arch;
    cbn -[asTags]; rewrite ?asTags_encode; reflexivity.
Qed.

Lemma asChatHistory_encode (c : ChatHistory) :
  asChatHistory (encodeChatHistory c) = Some c.
Proof.
  destruct c as [messages metadata]. unfold asChatHistory, encodeChatHistory.
  cbn [prop assoc String.eqb Ascii.eqb Bool.eqb h_messages h_metadata].
  assert (Hmessages : mapM asChatMessage (map encodeMessage messages) = Some messages).
  { induction messages as [|m messages IH]; [done |].
    cbn [map mapM]. rewrite asChatMessage_encode. cbn. by rewrite IH. }
  rewrite Hmessages. cbn -[asConversationMetadata encodeMetadata].
  by rewrite asConversationMetadata_encode.
Qed.

(** *** Validation failures *)

Lemma validateConversation_empty_id (v : JValue) :
  truthy (optProp (prop v "metadata") "id") = false ->
  exists e, validateConversation v = Raise e.
Proof.
  intros Hid. unfold validateConversation. rewrite Hid.
  destruct (negb (truthyValue v) || _ || _); eauto.
Qed.

Lemma validateConversation_timestamps (v : JValue) :
  isNumber (optProp (prop v "metadata") "createdAt") = false
  \/ isNumber (optProp (prop v "metadata") "updatedAt") = false ->
  exists e, validateConversation v = Raise e.
Proof.
  intros Hnum. unfold validateConversation.
  destruct (negb (truthyValue v) || _ || _); [eauto |].
  destruct Hnum as [-> | ->]; cbn; rewrite ?orb_true_r; eauto.
Qed.

Lemma validateConversation_not_array (v : JValue) :
  isArray (prop v "messages") = false ->
  exists e, validateConversation v = Raise e.
Proof.
  intros Harr. unfold validateConversation.
  destruct (negb (truthyValue v) || _ || _); [eauto |].
  destruct (negb (truthy _) || _ || _); [eauto |].
  destruct (prop v "messages") as [[]|]; eauto; done.
Qed.

Lemma validateMessages_incomplete (elements : list JValue) (message : JValue) :
  In message elements ->
  truthy (optProp (Some message) "id") = false
  \/ truthy (optProp (Some message) "sender") = false
  \/ truthy (optProp (Some message) "content") = false
  \/ truthy (optProp (Some message) "timestamp") = false ->
  exists e, validateMessages elements = Raise e.
Proof.
  intros Hin Hbad. induction elements as [|first rest IH]; [done |].
  cbn [validateMessages].
  destruct (validateMessage first) as [[]|e] eqn:Hfirst; [| eauto].
  destruct Hin as [-> | Hin]; [| by apply IH].
  exfalso. unfold validateMessage in Hfirst.
  destruct message; try done;
    cbn [optProp] in Hbad;
    destruct Hbad as [Hb | [Hb | [Hb | Hb]]]; rewrite Hb in Hfirst;
    cbn in Hfirst; rewrite ?orb_true_r in Hfirst; done.
Qed.

Lemma validateConversation_incomplete_message (v : JValue) (elements : list JValue)
    (message : JValue) :
  prop v "messages" = Some (JArr elements) ->
  In message elements ->
  truthy (optProp (Some message) "id") = false
  \/ truthy (optProp (Some message) "sender") = false
  \/ truthy (optProp (Some message) "content") = false
  \/ truthy (optProp (Some message) "timestamp") = false ->
  exists e, validateConversation v = Raise e.
Proof.
  intros Hmessages Hin Hbad. unfold validateConversation. rewrite Hmessages.
  destruct (negb (truthyValue v) || _ || _); [eauto |].
  destruct (negb (truthy _) || _ || _); [eauto |].
  by apply (validateMessages_incomplete elements message).
Qed.

(** *** Failing loads and toggles *)

Lemma loadConversation_missing (id : string) (st : ServiceState) :
  localStorage st !! storageKey id = None
  \/ localStorage st !! storageKey id = Some (RawText "") ->
  exists message,
    loadConversation id st = Returned false (withStorageError (Some message) st).
Proof.
  intros Hmissing.
  unfold loadConversation, tryCatch, bind, getItem, read, throw, handleStorageError,
    modify, ret.
  destruct Hmissing as [-> | ->]; eauto.
Qed.

Lemma loadConversation_unparsable (id text : string) (st : ServiceState) :
  localStorage st !! storageKey id = Some (RawText text) ->
  exists message,
    loadConversation id st = Returned false (withStorageError (Some message) st).
Proof.
  intros Hraw.
  unfold loadConversation, tryCatch, bind, getItem, read, parse, throw,
    handleStorageError, modify, ret.
  rewrite Hraw. destruct text; eauto.
Qed.

Lemma loadConversation_rejected (id : string) (v : JValue) (e : JsError)
    (st : ServiceState) :
  localStorage st !! storageKey id = Some (JsonText v) ->
  validateConversation v = Raise e ->
  exists message,
    loadConversation id st = Returned false (withStorageError (Some message) st).
Proof.
  intros Hjson Hinvalid.
  unfold loadConversation, tryCatch, bind, getItem, read, parse, liftResult, throw,
    handleStorageError, modify, ret.
  rewrite Hjson, Hinvalid. eauto.
Qed.

Lemma toggleFavorite_throws (id : string) (st : ServiceState) :
  ToggleFailure st id ->
  exists message,
    toggleFavorite id st = Returned false (withStorageError (Some message) st).
Proof.
  intros Hfail.
  unfold toggleFavorite, tryCatch, bind, getItem, read, parse, throw,
    handleStorageError, modify, ret.
  destruct Hfail as [[-> | ->] | text -> | v -> Hmeta]; eauto.
  - destruct text; eauto.
  - rewrite Hmeta. eauto.
Qed.

(** A toggle whose [try] block runs through returns the new flag. *)
Lemma toggleFavorite_returns (id : string) (v : JValue) (c : ChatHistory)
    (st : ServiceState) :
  localStorage st !! storageKey id = Some (JsonText v) ->
  hasMetadataObject v = true ->
  asChatHistory v = Some c ->
  let flag := notFlag (c_isFavorite (h_metadata c)) in
  let toggled :=
    mkChatHistory (h_messages c)
      (withUpdatedAt (Date_now (clock st)) (withFavorite flag (h_metadata c))) in
  let key := storageKey (c_id (h_metadata c)) in
  exists st',
    toggleFavorite id st = Returned flag st'
    /\ (localStorage_accepts (localStorage st) key (JsonText (encodeChatHistory toggled))
          = true ->
        c_id (h_metadata c) <> "index" ->
        localStorage st' !! key = Some (JsonText (encodeChatHistory toggled)))
    /\ (activeConversationId st = Some id ->
        currentConversationSubject st' = Some toggled).
Proof.
  intros Hjson Hmeta Htyped flag toggled key.
  unfold toggleFavorite, tryCatch. unfold bind at 1. unfold getItem, read.
  rewrite Hjson. unfold bind at 1. unfold parse, ret. unfold bind at 1.
  rewrite Hmeta. unfold bind at 1. rewrite Htyped. unfold cast, ret.
  unfold bind at 1.
  match goal with
  | |- context [saveConversation ?c0 ?st0] =>
      destruct (saveConversation_returns c0 st0)
        as (st1 & Hrun & (Ha & Hc & Hs & He) & Hclock & Hstored & _)
  end.
  project. rewrite Hrun. unfold bind, read, modify, ret. rewrite Ha.
  case_bool_decide as Hactive; eexists; (split; [reflexivity |]); project;
    (split; [exact Hstored |]); intros Hact; [done | congruence].
Qed.

(** *** Import *)

Lemma exportConversation_returns (id : string) (text : StoredText) (st : ServiceState) :
  id <> "" ->
  localStorage st !! storageKey id = Some text ->
  text <> RawText "" ->
  exportConversation (Some id) st = Returned text st.
Proof.
  intros Hid Hitem Hnonempty.
  unfold exportConversation, getItem, tryCatch, bind, read, ret.
  destruct id as [|a id]; [done |]. cbn [orId]. rewrite Hitem.
  destruct text as [[|]|]; done.
Qed.

Lemma importConversation_returns (v : JValue) (c : ChatHistory) (replace : bool)
    (st : ServiceState) :
  validateConversation v = Ok tt ->
  asChatHistory v = Some c ->
  let collision :=
    existsb (fun known => String.eqb (c_id known) (c_id (h_metadata c)))
      (conversationsSubject st) && negb replace in
  let incoming :=
    if collision then renamed (uuidv4 (entropy st)) (h_metadata c) else h_metadata c in
  let imported :=
    mkChatHistory (h_messages c) (withUpdatedAt (Date_now (clock st)) incoming) in
  exists st',
    importConversation (JsonText v) replace st = Returned (Some (c_id incoming)) st'
    /\ currentConversationSubject st' = Some imported
    /\ activeConversationId st' = Some (c_id incoming)
    /\ (localStorage_accepts (localStorage st) (storageKey (c_id incoming))
          (JsonText (encodeChatHistory imported)) = true ->
        c_id incoming <> "index" ->
        localStorage st' !! storageKey (c_id incoming)
          = Some (JsonText (encodeChatHistory imported)))
    /\ (forall other, other <> storageKey (c_id incoming) ->
          other <> storageKey "index" ->
          localStorage st' !! other = localStorage st !! other).
Proof.
  intros Hvalid Htyped collision incoming imported.
  unfold importConversation, tryCatch. unfold bind at 1. unfold parse, ret.
  unfold bind at 1. rewrite Hvalid. unfold liftResult, ret. unfold bind at 1.
  rewrite Htyped. unfold cast, ret. unfold bind at 1. unfold read.
  fold collision. unfold bind at 1.
  subst incoming imported. destruct collision.
  - unfold bind at 1. unfold freshId. unfold bind at 1.
    match goal with
    | |- context [saveConversation ?c0 ?st0] =>
        destruct (saveConversation_returns c0 st0)
          as (st1 & Hrun & (Ha & Hc & Hs & He) & Hclock & Hstored & Hothers)
    end.
    project. rewrite Hrun. unfold bind, modify, ret.
    eexists. split; [reflexivity |]. project. by repeat split.
  - unfold bind at 1.
    match goal with
    | |- context [saveConversation ?c0 ?st0] =>
        destruct (saveConversation_returns c0 st0)
          as (st1 & Hrun & (Ha & Hc & Hs & He) & Hclock & Hstored & Hothers)
    end.
    project. rewrite Hrun. unfold bind, modify, ret.
    eexists. split; [reflexivity |]. project. by repeat split.
Qed.

End StoreFacts.

(** C1, as stated, fails once the cap evicts: after 101 calls of
    [addMessage] on a newly created conversation with the cap at 100,
    totalMessages is 101 and the message list has 100 entries. *)
Lemma totalMessages_exceeds_length_after_eviction :
  exists c,
    sampleOverflow = Some c
    /\ c_totalMessages (h_metadata c) = 101
    /\ length (h_messages c) = 100%nat
    /\ c_totalMessages (h_metadata c) <> Z.of_nat (length (h_messages c)).
Proof.
  destruct sampleOverflow as [c|] eqn:Hrun; [| by vm_compute in Hrun].
  exists c. split; [done |].
  assert (Htotal : c_totalMessages (h_metadata c) = 101).
  { apply (f_equal (fmap (fun c => c_totalMessages (h_metadata c)))) in Hrun.
    vm_compute in Hrun. by injection Hrun. }
  assert (Hlength : length (h_messages c) = 100%nat).
  { apply (f_equal (fmap (fun c => length (h_messages c)))) in Hrun.
    vm_compute in Hrun. by injection Hrun. }
  rewrite Htotal, Hlength. repeat split; lia.
Qed.

(** C1, amended: on an active conversation that starts with
    totalMessages = len(messages) within the cap, every run of
    [addMessage] calls returns, totalMessages is the initial count plus
    the number of calls, and the message list has min(that, cap) entries;
    so totalMessages = len(messages) as long as the cap is not exceeded. *)
Theorem totalMessages_counts_every_call `{Environment} (st : ServiceState)
    (c : ChatHistory) (messages : list ChatMessage) :
  currentConversationSubject st = Some c ->
  c_totalMessages (h_metadata c) = Z.of_nat (length (h_messages c)) ->
  (length (h_messages c) <= MAX_HISTORY_ITEMS)%nat ->
  exists st' c',
    calls (map AddMessage messages) st = Returned tt st'
    /\ currentConversationSubject st' = Some c'
    /\ c_totalMessages (h_metadata c')
       = Z.of_nat (length (h_messages c) + length messages)
    /\ length (h_messages c')
       = Nat.min (length (h_messages c) + length messages) MAX_HISTORY_ITEMS
    /\ ((length (h_messages c) + length messages <= MAX_HISTORY_ITEMS)%nat ->
        c_totalMessages (h_metadata c') = Z.of_nat (length (h_messages c'))).
Proof.
  intros Hcur Htotal Hcap.
  destruct (calls_addMessage messages c st Hcur) as (st' & Hrun & Hcur' & _).
  exists st', (appendAll messages c). split; [done |]. split; [done |].
  assert (Hlen : length (h_messages (appendAll messages c))
                 = Nat.min (length (h_messages c) + length messages) MAX_HISTORY_ITEMS).
  { destruct messages as [|first rest].
    - cbn. lia.
    - rewrite appendAll_messages by done. by rewrite lastN_length, length_app. }
  rewrite appendAll_total, Htotal, Hlen. repeat split; lia.
Qed.

Lemma totalMessages_counts_every_call_witness :
  currentConversationSubject sampleStore = Some sampleConversation
  /\ c_totalMessages (h_metadata sampleConversation)
     = Z.of_nat (length (h_messages sampleConversation))
  /\ (length (h_messages sampleConversation) <= @MAX_HISTORY_ITEMS sampleEnvironment)%nat
  /\ exists st' c',
       @calls sampleEnvironment (map AddMessage [sampleUserMessage 3; sampleAiMessage])
         sampleStore = Returned tt st'
       /\ currentConversationSubject st' = Some c'
       /\ c_totalMessages (h_metadata c')
          = Z.of_nat (length (h_messages sampleConversation) + 2)
       /\ length (h_messages c')
          = Nat.min (length (h_messages sampleConversation) + 2)
              (@MAX_HISTORY_ITEMS sampleEnvironment)
       /\ ((length (h_messages sampleConversation) + 2
            <= @MAX_HISTORY_ITEMS sampleEnvironment)%nat ->
           c_totalMessages (h_metadata c') = Z.of_nat (length (h_messages c'))).
Proof.
  assert (H1 : currentConversationSubject sampleStore = Some sampleConversation)
    by reflexivity.
  assert (H2 : c_totalMessages (h_metadata sampleConversation)
               = Z.of_nat (length (h_messages sampleConversation))) by reflexivity.
  assert (H3 : (length (h_messages sampleConversation)
                <= @MAX_HISTORY_ITEMS sampleEnvironment)%nat) by (vm_compute; lia).
  repeat (split; [assumption |]).
  exact (@totalMessages_counts_every_call sampleEnvironment sampleStore
           sampleConversation [sampleUserMessage 3; sampleAiMessage] H1 H2 H3).
Defined.

(** C3: with the cap N = MAX_HISTORY_ITEMS, after N + k calls of
    [addMessage] the active conversation holds exactly the last N of the
    messages it was given, in the order they were given. *)
Theorem eviction_keeps_last_N `{Environment} (st : ServiceState) (c : ChatHistory)
    (messages : list ChatMessage) (k : nat) :
  currentConversationSubject st = Some c ->
  length messages = (MAX_HISTORY_ITEMS + k)%nat ->
  messages <> [] \/ (length (h_messages c) <= MAX_HISTORY_ITEMS)%nat ->
  exists st' c',
    calls (map AddMessage messages) st = Returned tt st'
    /\ currentConversationSubject st' = Some c'
    /\ h_messages c' = drop k messages
    /\ length (h_messages c') = MAX_HISTORY_ITEMS.
Proof.
  intros Hcur Hlen Hstart.
  destruct (calls_addMessage messages c st Hcur) as (st' & Hrun & Hcur' & _).
  exists st', (appendAll messages c). split; [done |]. split; [done |].
  assert (Hkept : h_messages (appendAll messages c) = drop k messages).
  { destruct messages as [|first rest].
    - cbn in Hlen. destruct Hstart as [? | Hcap]; [done |].
      assert (length (h_messages c) = 0%nat) as Hnil%nil_length_inv by lia.
      cbn. by rewrite Hnil, drop_nil.
    - rewrite appendAll_messages by done. unfold lastN.
      rewrite length_app, Hlen.
      rewrite drop_app_ge by lia. f_equal. lia. }
  split; [done |]. rewrite Hkept, length_drop. lia.
Qed.

Lemma eviction_keeps_last_N_witness :
  currentConversationSubject sampleStore = Some sampleConversation
  /\ length (map sampleUserMessage (seq 1 103))
     = (@MAX_HISTORY_ITEMS sampleEnvironment + 3)%nat
  /\ (map sampleUserMessage (seq 1 103) <> []
      \/ (length (h_messages sampleConversation)
          <= @MAX_HISTORY_ITEMS sampleEnvironment)%nat)
  /\ exists st' c',
       @calls sampleEnvironment (map AddMessage (map sampleUserMessage (seq 1 103)))
         sampleStore = Returned tt st'
       /\ currentConversationSubject st' = Some c'
       /\ h_messages c' = drop 3 (map sampleUserMessage (seq 1 103))
       /\ length (h_messages c') = @MAX_HISTORY_ITEMS sampleEnvironment.
Proof.
  assert (H1 : currentConversationSubject sampleStore = Some sampleConversation)
    by reflexivity.
  assert (H2 : length (map sampleUserMessage (seq 1 103))
               = (@MAX_HISTORY_ITEMS sampleEnvironment + 3)%nat) by reflexivity.
  assert (H3 : map sampleUserMessage (seq 1 103) <> []
               \/ (length (h_messages sampleConversation)
                   <= @MAX_HISTORY_ITEMS sampleEnvironment)%nat) by (left; discriminate).
  repeat (split; [assumption |]).
  exact (@eviction_keeps_last_N sampleEnvironment sampleStore sampleConversation
           (map sampleUserMessage (seq 1 103)) 3 H1 H2 H3).
Defined.

(** C7: from an active conversation whose per-sender counters are bounded
    by totalMessages, every sequence of [createNewConversation],
    [addMessage] and [clearCurrentConversation] calls returns and leaves
    an active conversation with
    userMessageCount + aiMessageCount <= totalMessages. *)
Theorem counters_bounded_by_total `{Environment} (cs : list StoreCall)
    (st : ServiceState) (c : ChatHistory) :
  currentConversationSubject st = Some c ->
  countersBounded c ->
  exists st' c',
    calls cs st = Returned tt st'
    /\ currentConversationSubject st' = Some c'
    /\ countersBounded c'.
Proof.
  revert st c. induction cs as [|[title | message |] rest IH]; intros st c Hcur Hinv.
  - exists st, c. by repeat split.
  - destruct (createNewConversation_returns title st) as (st1 & Hrun & Hcur1 & _).
    destruct (IH st1 (newConversation title st) Hcur1) as (st' & c' & Hrest & Hfinal).
    { unfold countersBounded, newConversation. cbn. lia. }
    exists st', c'. cbn [calls call]. unfold bind. rewrite Hrun. unfold ret.
    by rewrite Hrest.
  - destruct (IH (withSaveSubject (saveSubject st ++ [appendMessage message c])
                    (withCurrentConversation (Some (appendMessage message c)) st))
                (appendMessage message c) eq_refl)
      as (st' & c' & Hrest & Hfinal).
    { unfold countersBounded, appendMessage. cbn [h_metadata].
      by apply countMessage_counters. }
    exists st', c'. cbn [calls call]. unfold bind.
    rewrite (addMessage_active message c st Hcur). by rewrite Hrest.
  - destruct (clearCurrentConversation_returns c st Hcur)
      as (st1 & Hrun & Hcur1 & _).
    destruct (IH st1 (clearedConversation c st) Hcur1) as (st' & c' & Hrest & Hfinal).
    { unfold countersBounded, clearedConversation. cbn. lia. }
    exists st', c'. cbn [calls call]. unfold bind. rewrite Hrun. unfold ret.
    by rewrite Hrest.
Qed.

Lemma counters_bounded_by_total_witness :
  currentConversationSubject sampleStore = Some sampleConversation
  /\ countersBounded sampleConversation
  /\ exists st' c',
       @calls sampleEnvironment
         [AddMessage (sampleUserMessage 3); ClearCurrentConversation;
          AddMessage sampleAiMessage; CreateNewConversation (Some "Next");
          AddMessage (sampleUserMessage 4)] sampleStore = Returned tt st'
       /\ currentConversationSubject st' = Some c'
       /\ countersBounded c'.
Proof.
  assert (H1 : currentConversationSubject sampleStore = Some sampleConversation)
    by reflexivity.
  assert (H2 : countersBounded sampleConversation)
    by (unfold countersBounded; vm_compute; discriminate).
  repeat (split; [assumption |]).
  exact (@counters_bounded_by_total sampleEnvironment _ sampleStore sampleConversation
           H1 H2).
Defined.

(** C8: [clearCurrentConversation] on an active conversation returns true
    and leaves it with no messages and with totalMessages,
    userMessageCount, aiMessageCount and totalTokensUsed at zero, under
    the same id and createdAt; it writes the cleared conversation to
    storage within the call (when the storage takes the write, the item
    under the conversation's key is the cleared conversation) and hands
    nothing to the debounced save. *)
Theorem clearCurrentConversation_resets `{Environment} (st : ServiceState)
    (c : ChatHistory) :
  currentConversationSubject st = Some c ->
  exists st' cleared,
    clearCurrentConversation st = Returned true st'
    /\ currentConversationSubject st' = Some cleared
    /\ h_messages cleared = []
    /\ c_totalMessages (h_metadata cleared) = 0
    /\ c_userMessageCount (h_metadata cleared) = 0
    /\ c_aiMessageCount (h_metadata cleared) = 0
    /\ c_totalTokensUsed (h_metadata cleared) = Some 0
    /\ c_id (h_metadata cleared) = c_id (h_metadata c)
    /\ c_createdAt (h_metadata cleared) = c_createdAt (h_metadata c)
    /\ saveSubject st' = saveSubject st
    /\ (localStorage_accepts (localStorage st) (storageKey (c_id (h_metadata c)))
          (JsonText (encodeChatHistory cleared)) = true ->
        c_id (h_metadata c) <> "index" ->
        localStorage st' !! storageKey (c_id (h_metadata c))
          = Some (JsonText (encodeChatHistory cleared))).
Proof.
  intros Hcur.
  destruct (clearCurrentConversation_returns c st Hcur)
    as (st' & Hrun & Hcur' & _ & Hqueue & Hstored).
  exists st', (clearedConversation c st). by repeat split.
Qed.

Lemma clearCurrentConversation_resets_witness :
  currentConversationSubject sampleStore = Some sampleConversation
  /\ exists st' cleared,
       @clearCurrentConversation sampleEnvironment sampleStore = Returned true st'
       /\ currentConversationSubject st' = Some cleared
       /\ h_messages cleared = []
       /\ c_totalMessages (h_metadata cleared) = 0
       /\ c_userMessageCount (h_metadata cleared) = 0
       /\ c_aiMessageCount (h_metadata cleared) = 0
       /\ c_totalTokensUsed (h_metadata cleared) = Some 0
       /\ c_id (h_metadata cleared) = c_id (h_metadata sampleConversation)
       /\ c_createdAt (h_metadata cleared) = c_createdAt (h_metadata sampleConversation)
       /\ saveSubject st' = saveSubject sampleStore
       /\ (@localStorage_accepts sampleEnvironment (localStorage sampleStore)
             (@storageKey sampleEnvironment (c_id (h_metadata sampleConversation)))
             (JsonText (encodeChatHistory cleared)) = true ->
           c_id (h_metadata sampleConversation) <> "index" ->
           localStorage st'
             !! @storageKey sampleEnvironment (c_id (h_metadata sampleConversation))
             = Some (JsonText (encodeChatHistory cleared))).
Proof.
  assert (H1 : currentConversationSubject sampleStore = Some sampleConversation)
    by reflexivity.
  split; [assumption |].
  exact (@clearCurrentConversation_resets sampleEnvironment sampleStore
           sampleConversation H1).
Defined.

(** C5: when [loadConversation(id)] fails for one of the listed causes (no
    record, unparsable JSON, or a validation failure: empty id,
    non-numeric createdAt or updatedAt, messages not an array, a message
    without id, sender, content or timestamp), it returns false and
    changes the state in the error channel only, which then holds an
    error message: the active conversation and its published snapshot are
    what they were. *)
Theorem loadConversation_failure `{Environment} (st : ServiceState) (id : string) :
  LoadFailure st id ->
  exists st' message,
    loadConversation id st = Returned false st'
    /\ st' = withStorageError (Some message) st
    /\ storageErrorSubject st' = Some message
    /\ activeConversationId st' = activeConversationId st
    /\ currentConversationSubject st' = currentConversationSubject st.
Proof.
  intros Hfail.
  assert (Hrun : exists message,
             loadConversation id st = Returned false (withStorageError (Some message) st)).
  { destruct Hfail as [Hmissing | text Hraw | v Hjson Hid | v Hjson Hnum
                      | v Hjson Harr | v elements message Hjson Hmessages Hin Hbad
                      | v e Hjson Hinvalid].
    - by apply loadConversation_missing.
    - by apply (loadConversation_unparsable id text).
    - destruct (validateConversation_empty_id v Hid) as [e He].
      by apply (loadConversation_rejected id v e).
    - destruct (validateConversation_timestamps v Hnum) as [e He].
      by apply (loadConversation_rejected id v e).
    - destruct (validateConversation_not_array v Harr) as [e He].
      by apply (loadConversation_rejected id v e).
    - destruct (validateConversation_incomplete_message v elements message
                  Hmessages Hin Hbad) as [e He].
      by apply (loadConversation_rejected id v e).
    - by apply (loadConversation_rejected id v e). }
  destruct Hrun as [message Hrun].
  exists (withStorageError (Some message) st), message. by repeat split.
Qed.

Lemma loadConversation_failure_witness :
  @LoadFailure sampleEnvironment sampleStore "missing"
  /\ exists st' message,
       @loadConversation sampleEnvironment "missing" sampleStore = Returned false st'
       /\ st' = withStorageError (Some message) sampleStore
       /\ storageErrorSubject st' = Some message
       /\ activeConversationId st' = activeConversationId sampleStore
       /\ currentConversationSubject st' = currentConversationSubject sampleStore.
Proof.
  assert (H1 : @LoadFailure sampleEnvironment sampleStore "missing").
  { apply MissingRecord. left. vm_compute. reflexivity. }
  split; [assumption |].
  exact (@loadConversation_failure sampleEnvironment sampleStore "missing" H1).
Defined.

(** C4, as stated, fails: exporting the stored sample conversation and
    importing the result gives a conversation with the same messages but
    with another title and updatedAt under a new id (the id is already in
    the index), and with another updatedAt under the same id when
    [replace] is set. *)
Lemma import_of_export_changes_metadata :
  exists renamed_copy replaced_copy,
    sampleRoundTrip false = Some renamed_copy
    /\ h_messages renamed_copy = h_messages sampleConversation
    /\ c_title (h_metadata sampleConversation) = Some "Trip"
    /\ c_title (h_metadata renamed_copy) = Some "Trip (Imported)"
    /\ c_updatedAt (h_metadata renamed_copy)
       <> c_updatedAt (h_metadata sampleConversation)
    /\ sampleRoundTrip true = Some replaced_copy
    /\ c_id (h_metadata replaced_copy) = c_id (h_metadata sampleConversation)
    /\ c_updatedAt (h_metadata replaced_copy)
       <> c_updatedAt (h_metadata sampleConversation)
    /\ h_metadata replaced_copy <> h_metadata sampleConversation.
Proof.
  destruct (sampleRoundTrip false) as [a|] eqn:Ha; [| by vm_compute in Ha].
  destruct (sampleRoundTrip true) as [b|] eqn:Hb; [| by vm_compute in Hb].
  vm_compute in Ha, Hb. injection Ha as <-. injection Hb as <-.
  eexists _, _. repeat split; try reflexivity; cbn; try discriminate.
Qed.

(** C4, amended: for a stored conversation that passes validation,
    [importConversation(exportConversation(id), replace)] returns and
    activates a conversation with the messages of the original; its
    metadata is that of the original with updatedAt set to the time of
    the import and, when the id is already in the index and [replace] is
    not set, with a fresh id and the title suffixed " (Imported)". *)
Theorem import_of_export `{Environment} (st : ServiceState) (id : string)
    (v : JValue) (original : ChatHistory) (replace : bool) :
  id <> "" ->
  localStorage st !! storageKey id = Some (JsonText v) ->
  validateConversation v = Ok tt ->
  asChatHistory v = Some original ->
  let collision :=
    existsb (fun known => String.eqb (c_id known) (c_id (h_metadata original)))
      (conversationsSubject st) && negb replace in
  exists st' imported,
    exportConversation (Some id) st = Returned (JsonText v) st
    /\ importConversation (JsonText v) replace st
       = Returned (Some (c_id (h_metadata imported))) st'
    /\ currentConversationSubject st' = Some imported
    /\ activeConversationId st' = Some (c_id (h_metadata imported))
    /\ h_messages imported = h_messages original
    /\ h_metadata imported
       = withUpdatedAt (Date_now (clock st))
           (if collision
            then renamed (uuidv4 (entropy st)) (h_metadata original)
            else h_metadata original).
Proof.
  intros Hid Hjson Hvalid Htyped collision.
  destruct (importConversation_returns v original replace st Hvalid Htyped)
    as (st' & Hrun & Hcur & Hact & _).
  eexists st', _. split.
  { by apply exportConversation_returns. }
  split; [| split; [exact Hcur | split; [| split; reflexivity]]].
  - rewrite Hrun. cbn [h_metadata]. by destruct (existsb _ _ && _).
  - rewrite Hact. cbn [h_metadata]. by destruct (existsb _ _ && _).
Qed.

Lemma import_of_export_witness :
  "c1" <> ""
  /\ localStorage sampleStore !! @storageKey sampleEnvironment "c1"
     = Some (JsonText (encodeChatHistory sampleConversation))
  /\ validateConversation (encodeChatHistory sampleConversation) = Ok tt
  /\ asChatHistory (encodeChatHistory sampleConversation) = Some sampleConversation
  /\ exists st' imported,
       @exportConversation sampleEnvironment (Some "c1") sampleStore
       = Returned (JsonText (encodeChatHistory sampleConversation)) sampleStore
       /\ @importConversation sampleEnvironment
            (JsonText (encodeChatHistory sampleConversation)) false sampleStore
          = Returned (Some (c_id (h_metadata imported))) st'
       /\ currentConversationSubject st' = Some imported
       /\ activeConversationId st' = Some (c_id (h_metadata imported))
       /\ h_messages imported = h_messages sampleConversation
       /\ h_metadata imported
          = withUpdatedAt (@Date_now sampleEnvironment (clock sampleStore))
              (if existsb
                    (fun known =>
                       String.eqb (c_id known) (c_id (h_metadata sampleConversation)))
                    (conversationsSubject sampleStore) && negb false
               then renamed (@uuidv4 sampleEnvironment (entropy sampleStore))
                      (h_metadata sampleConversation)
               else h_metadata sampleConversation).
Proof.
  assert (H1 : "c1" <> "") by discriminate.
  assert (H2 : localStorage sampleStore !! @storageKey sampleEnvironment "c1"
               = Some (JsonText (encodeChatHistory sampleConversation)))
    by (vm_compute; reflexivity).
  assert (H3 : validateConversation (encodeChatHistory sampleConversation) = Ok tt)
    by (vm_compute; reflexivity).
  assert (H4 : asChatHistory (encodeChatHistory sampleConversation)
               = Some sampleConversation) by (vm_compute; reflexivity).
  repeat (split; [assumption |]).
  exact (@import_of_export sampleEnvironment sampleStore "c1"
           (encodeChatHistory sampleConversation) sampleConversation false
           H1 H2 H3 H4).
Defined.

(** ** The scenarios of section 8, run on the sample surroundings *)

(** Empty store, one conversation created, one user message added. *)
Example scenario_first_message :
  (created ← finalState (@createNewConversation sampleEnvironment None (initialState ∅));
   added ← finalState (@addMessage sampleEnvironment (sampleUserMessage 1) created);
   c ← currentConversationSubject added;
   Some (activeConversationId created, length (h_messages c),
         c_totalMessages (h_metadata c), c_userMessageCount (h_metadata c)))
  = Some (Some "uuid-0", 1%nat, 1, 1).
Proof. vm_compute. reflexivity. Qed.

(** A single response "Hi" with ten tokens in total. *)
Example scenario_single_response :
  match @sendMessage sampleEnvironment "Hello" [] false
          (mkNetwork (FetchRejected TypeError)
             (HttpSuccess
                (mkOpenAIChatResponse "gpt-3.5-turbo"
                   [mkOpenAIChatChoice (mkOpenAIChatMessage RoleAssistant "Hi") "stop"]
                   (Some (mkOpenAIUsage 4 6 10)))))
          sampleAiService with
  | (_, Single (NextThenComplete message) s) =>
      m_content message = "Hi" /\ m_sender message = AI /\ m_isPending message = None
      /\ tokenUsage s = tokenUsage sampleAiService + 10
      /\ isLoading (loadingState s) = false
  | _ => False
  end.
Proof. vm_compute. repeat split. Qed.

(** The deltas "He" and "llo", then the end of the body. *)
Example scenario_streaming :
  (fun r => (map m_content (emitted (responseSubject r)),
             map m_isPending (emitted (responseSubject r)),
             completed (responseSubject r)))
  <$> @streamChatCompletion sampleEnvironment
        (FetchResponse true 200 (Some (mkResponseBody sampleChunks EndOfInput)))
        sampleAiService
  = Some (["He"; "Hello"; "Hello"], [Some true; Some true; Some false], true).
Proof. vm_compute. reflexivity. Qed.

(** * Further properties of the store *)

Section ValidationFacts.

Lemma truthy_string (s : string) : truthyValue (JStr s) = true <-> s <> "".
Proof. destruct s; cbn; split; done. Qed.

Lemma truthy_number (n : Z) : truthyValue (JNum n) = true <-> n <> 0.
Proof. cbn. rewrite negb_true_iff, Z.eqb_neq. done. Qed.

Lemma validateMessage_encode (m : ChatMessage) :
  validateMessage (encodeMessage m) = Ok tt <-> completeMessage m.
Proof.
  unfold completeMessage.
  rewrite <- (truthy_string (m_id m)), <- (truthy_string (m_content m)),
    <- (truthy_number (m_timestamp m)).
  unfold validateMessage, encodeMessage. cbn -[truthyValue].
  assert (Hsender : truthyValue (JStr (senderString (m_sender m))) = true)
    by by destruct (m_sender m).
  rewrite Hsender.
  destruct (truthyValue (JStr (m_id m))), (truthyValue (JStr (m_content m))),
    (truthyValue (JNum (m_timestamp m))); cbn; split; try done; by intros (? & ? & ?).
Qed.

Lemma validateMessages_encode (messages : list ChatMessage) :
  validateMessages (map encodeMessage messages) = Ok tt
  <-> Forall completeMessage messages.
Proof.
  induction messages as [|m rest IH]; [by split |].
  cbn [map validateMessages]. rewrite Forall_cons, <- IH, <- validateMessage_encode.
  destruct (validateMessage (encodeMessage m)) as [[]|e]; split; try done.
  - by intros [? ?].
  - by intros [? ?].
Qed.

Lemma validateConversation_encode_messages (c : ChatHistory) :
  c_id (h_metadata c) <> "" ->
  validateConversation (encodeChatHistory c)
  = validateMessages (map encodeMessage (h_messages c)).
Proof.
  intros Hid. unfold validateConversation, encodeChatHistory, encodeMetadata.
  destruct (c_id (h_metadata c)) as [|a id] eqn:Hc; [done |].
  destruct (c_title (h_metadata c)); by cbn.
Qed.

Lemma validateConversation_encode_no_id (c : ChatHistory) :
  c_id (h_metadata c) = "" ->
  validateConversation (encodeChatHistory c) = Raise (Error "Invalid conversation metadata").
Proof.
  intros Hid. unfold validateConversation, encodeChatHistory, encodeMetadata.
  rewrite Hid. by cbn.
Qed.

Lemma validateConversation_encode (c : ChatHistory) :
  validateConversation (encodeChatHistory c) = Ok tt <-> loadable c.
Proof.
  unfold loadable.
  destruct (decide (c_id (h_metadata c) = "")) as [Hid | Hid].
  - rewrite (validateConversation_encode_no_id c Hid). split; [done |].
    by intros [? _].
  - rewrite (validateConversation_encode_messages c Hid), validateMessages_encode.
    split; [done | by intros [_ ?]].
Qed.

Lemma validateConversation_array (elements : list JValue) :
  exists e, validateConversation (JArr elements) = Raise e.
Proof. by eexists. Qed.

End ValidationFacts.

(** X1.  The store can read back a conversation it has written exactly
    when the conversation has an identifier and every message has an
    identifier, a content and a time stamp that are not empty or zero: a
    message with empty content makes the whole record unreadable. *)
Theorem validateConversation_of_written (c : ChatHistory) :
  validateConversation (encodeChatHistory c) = Ok tt <-> loadable c.
Proof.
  unfold loadable.
  destruct (decide (c_id (h_metadata c) = "")) as [Hid | Hid].
  - rewrite (validateConversation_encode_no_id c Hid). split; [done |].
    by intros [? _].
  - rewrite (validateConversation_encode_messages c Hid), validateMessages_encode.
    split; [done | by intros [_ ?]].
Qed.

Section StoreWrites.
Context `{Environment}.

(** What a call may have done to one item of [localStorage]: left it,
    written the record of [written] under its key, or written an index. *)
Lemma saveConversationsIndex_items (conversations : list ConversationMetadata)
    (st : ServiceState) :
  exists st',
    saveConversationsIndex conversations st = Returned tt st'
    /\ sameSession st st'
    /\ conversationsSubject st' = conversationsSubject st
    /\ clock st' = clock st
    /\ (forall key, key <> storageKey "index" ->
          localStorage st' !! key = localStorage st !! key)
    /\ (localStorage st' !! storageKey "index" = localStorage st !! storageKey "index"
        \/ localStorage st' !! storageKey "index"
           = Some (JsonText (JArr (map encodeMetadata conversations)))).
Proof.
  unfold saveConversationsIndex, tryCatch, setItem, handleStorageError, modify.
  destruct (localStorage_accepts _ _ _); eexists; (split; [reflexivity |]);
    cbn; repeat split; try done.
  - intros key Hkey. by rewrite lookup_insert_ne.
  - right. by rewrite lookup_insert_eq.
  - by left.
Qed.

Lemma saveConversation_items (conversation : ChatHistory) (st : ServiceState) :
  let saved :=
    mkChatHistory (h_messages conversation)
      (withUpdatedAt (Date_now (clock st)) (h_metadata conversation)) in
  let key := storageKey (c_id (h_metadata conversation)) in
  exists st',
    saveConversation conversation st = Returned saved st'
    /\ sameSession st st'
    /\ clock st' = S (clock st)
    /\ (forall k,
          localStorage st' !! k = localStorage st !! k
          \/ (k = key /\ localStorage st' !! k = Some (JsonText (encodeChatHistory saved)))
          \/ (k = storageKey "index"
              /\ exists l, localStorage st' !! k = Some (JsonText (JArr l))))
    /\ (conversationsSubject st' = conversationsSubject st
        \/ conversationsSubject st'
           = match findIndex (c_id (h_metadata conversation)) (conversationsSubject st) with
             | Some index => <[index := h_metadata saved]> (conversationsSubject st)
             | None => conversationsSubject st ++ [h_metadata saved]
             end).
Proof.
  intros saved key.
  unfold saveConversation, bind, dateNow, tryCatch, setItem, handleStorageError, modify, ret.
  cbn [clock localStorage h_metadata c_id withUpdatedAt].
  fold saved. fold key.
  destruct (localStorage_accepts (localStorage st) key _) eqn:Haccepts.
  - unfold updateConversationInIndex, bind, read, modify.
    match goal with
    | |- context [saveConversationsIndex ?cs ?st0] =>
        destruct (saveConversationsIndex_items cs st0)
          as (st' & Hrun & (Ha & Hc & Hs & He) & Hconv & Hclock & Hitems & Hindex)
    end.
    rewrite Hrun. eexists. split; [reflexivity |]. project.
    split; [by repeat split |]. split; [done |]. split; [| by right].
    intros k. destruct (decide (k = storageKey "index")) as [-> | Hk].
    + destruct Hindex as [Hindex | Hindex]; rewrite Hindex; [| eauto 6].
      destruct (decide (storageKey "index" = key)) as [Heq | Hne].
      * right. left. split; [done |]. rewrite Heq. by rewrite lookup_insert_eq.
      * left. by rewrite lookup_insert_ne.
    + rewrite (Hitems k Hk). destruct (decide (k = key)) as [-> | Hne].
      * right. left. by rewrite lookup_insert_eq.
      * left. by rewrite lookup_insert_ne.
  - eexists. split; [reflexivity |]. cbn.
    split; [by repeat split |]. split; [done |]. split; [| by left].
    intros k. by left.
Qed.

Lemma createNewConversation_items (title : option string) (st : ServiceState) :
  let key := storageKey (uuidv4 (entropy st)) in
  exists st',
    createNewConversation title st = Returned (uuidv4 (entropy st)) st'
    /\ currentConversationSubject st' = Some (newConversation title st)
    /\ activeConversationId st' = Some (uuidv4 (entropy st))
    /\ saveSubject st' = saveSubject st
    /\ entropy st' = S (entropy st)
    /\ clock st' = S (S (clock st))
    /\ (forall k,
          localStorage st' !! k = localStorage st !! k
          \/ (k = key
              /\ localStorage st' !! k
                 = Some (JsonText (encodeChatHistory (newConversation title st))))
          \/ (k = storageKey "index"
              /\ exists l, localStorage st' !! k = Some (JsonText (JArr l))))
    /\ (conversationsSubject st'
        = conversationsSubject st ++ [h_metadata (newConversation title st)]
        \/ conversationsSubject st'
           = match findIndex (uuidv4 (entropy st)) (conversationsSubject st) with
             | Some index =>
                 <[index := h_metadata (newConversation title st)]>
                   (conversationsSubject st)
             | None => conversationsSubject st ++ [h_metadata (newConversation title st)]
             end ++ [h_metadata (newConversation title st)]).
Proof.
  intros key.
  unfold createNewConversation, tryCatch. unfold bind at 1. unfold freshId.
  unfold bind at 1. unfold dateNow at 1. cbn [clock entropy]. unfold bind at 1.
  match goal with
  | |- context [saveConversation ?c ?st0] =>
      destruct (saveConversation_items c st0)
        as (st1 & Hrun & (Ha & Hc & Hs & He) & Hclock & Hitems & Hlisted)
  end.
  project. rewrite Hrun.
  unfold bind at 1. unfold read at 1. unfold bind at 1. unfold modify at 1.
  unfold bind at 1.
  match goal with
  | |- context [saveConversationsIndex ?cs ?st0] =>
      destruct (saveConversationsIndex_items cs st0)
        as (st2 & Hrun2 & (Ha2 & Hc2 & Hs2 & He2) & Hconv2 & Hclock2 & Hitems2 & Hindex2)
  end.
  project. rewrite Hrun2.
  unfold bind, modify, ret. eexists. split; [reflexivity |]. project.
  split; [done |]. split; [done |]. split; [congruence |].
  split; [congruence |]. split; [congruence |]. split.
  - intros k. destruct (decide (k = storageKey "index")) as [-> | Hk].
    + destruct Hindex2 as [-> | ->]; [apply Hitems | eauto 6].
    + rewrite (Hitems2 k Hk). apply Hitems.
  - rewrite Hconv2. destruct Hlisted as [-> | ->]; [by left | by right].
Qed.

Lemma updateConversationTimestamp_items (id : string) (st : ServiceState) :
  exists st',
    updateConversationTimestamp id st = Returned tt st'
    /\ sameSession st st'
    /\ forall key, key <> storageKey "index" ->
         localStorage st' !! key = localStorage st !! key.
Proof.
  unfold updateConversationTimestamp. unfold bind at 1. unfold read.
  destruct (findIndex id (conversationsSubject st)) as [index|].
  - unfold bind at 1. unfold dateNow. unfold bind at 1. unfold modify.
    match goal with
    | |- context [saveConversationsIndex ?cs ?st0] =>
        destruct (saveConversationsIndex_items cs st0)
          as (st' & Hrun & Hsame & _ & _ & Hitems & _)
    end.
    exists st'. rewrite Hrun. split; [done |].
    destruct Hsame as (? & ? & ? & ?). project. by repeat split.
  - exists st. split; [done |]. split; [apply sameSession_refl | done].
Qed.

(** A record that passes the validation and inhabits the interface is
    made the active conversation. *)
Lemma loadConversation_succeeds (id : string) (v : JValue) (c : ChatHistory)
    (st : ServiceState) :
  localStorage st !! storageKey id = Some (JsonText v) ->
  validateConversation v = Ok tt ->
  asChatHistory v = Some c ->
  exists st',
    loadConversation id st = Returned true st'
    /\ currentConversationSubject st' = Some c
    /\ activeConversationId st' = Some id
    /\ saveSubject st' = saveSubject st
    /\ entropy st' = entropy st
    /\ forall key, key <> storageKey "index" ->
         localStorage st' !! key = localStorage st !! key.
Proof.
  intros Hjson Hvalid Htyped.
  unfold loadConversation, tryCatch. unfold bind at 1. unfold getItem, read.
  rewrite Hjson. unfold bind at 1. unfold parse, ret. unfold bind at 1.
  rewrite Hvalid. unfold liftResult, ret. unfold bind at 1. rewrite Htyped.
  unfold cast, ret. unfold bind at 1. unfold modify. unfold bind at 1.
  unfold bind at 1.
  match goal with
  | |- context [updateConversationTimestamp id ?st0] =>
      destruct (updateConversationTimestamp_items id st0)
        as (st' & Hrun & (Ha & Hc & Hs & He) & Hitems)
  end.
  rewrite Hrun. project. eexists. split; [reflexivity |]. by repeat split.
Qed.

(** How a load that fails leaves the store. *)
Lemma loadConversation_fails (id : string) (st : ServiceState) :
  LoadFailure st id ->
  exists message,
    loadConversation id st = Returned false (withStorageError (Some message) st).
Proof.
  intros [Hmissing | text Hraw | v Hjson Hid | v Hjson Htime | v Hjson Harray
         | v elements message Hjson Hmessages Hin Hbad | v e Hjson Hinvalid].
  - by apply loadConversation_missing.
  - by apply (loadConversation_unparsable id text).
  - destruct (validateConversation_empty_id v Hid) as [e He].
    by apply (loadConversation_rejected id v e).
  - destruct (validateConversation_timestamps v Htime) as [e He].
    by apply (loadConversation_rejected id v e).
  - destruct (validateConversation_not_array v Harray) as [e He].
    by apply (loadConversation_rejected id v e).
  - destruct (validateConversation_incomplete_message v elements message
                Hmessages Hin Hbad) as [e He].
    by apply (loadConversation_rejected id v e).
  - by apply (loadConversation_rejected id v e).
Qed.

(** A load of the conversation that is published already, from a record
    that is absent, an index or that conversation's own record, leaves
    it published: the case of the nested call of [addMessage]. *)
Lemma loadConversation_own_record (id : string) (c : ChatHistory) (st : ServiceState) :
  currentConversationSubject st = Some c ->
  activeConversationId st = Some id ->
  localStorage st !! storageKey id = None
  \/ localStorage st !! storageKey id = Some (JsonText (encodeChatHistory c))
  \/ (exists l, localStorage st !! storageKey id = Some (JsonText (JArr l))) ->
  exists b st',
    loadConversation id st = Returned b st'
    /\ currentConversationSubject st' = Some c
    /\ activeConversationId st' = Some id
    /\ saveSubject st' = saveSubject st.
Proof.
  intros Hcur Hactive [Hnone | [Hown | [l Harr]]].
  - destruct (loadConversation_missing id st (or_introl Hnone)) as [message ->].
    by eexists _, _.
  - destruct (validateConversation (encodeChatHistory c)) as [[]|e] eqn:Hvalid.
    + destruct (loadConversation_succeeds id _ c st Hown Hvalid (asChatHistory_encode c))
        as (st' & -> & ? & ? & ? & _).
      by eexists _, _.
    + destruct (loadConversation_rejected id _ e st Hown Hvalid) as [message ->].
      by eexists _, _.
  - destruct (validateConversation_array l) as [e He].
    destruct (loadConversation_rejected id _ e st Harr He) as [message ->].
    by eexists _, _.
Qed.

End StoreWrites.

(** X2.  [addMessage] with no active conversation creates one, loads it
    and appends the message to it; when no record is stored yet under
    the new identifier, the active conversation afterwards is the new
    conversation with the message appended, whatever the storage did
    with the writes. *)
Theorem addMessage_without_conversation `{Environment} (message : ChatMessage)
    (st : ServiceState) :
  currentConversationSubject st = None ->
  localStorage st !! storageKey (uuidv4 (entropy st)) = None ->
  exists st',
    addMessage message st = Returned tt st'
    /\ currentConversationSubject st'
       = Some (appendMessage message (newConversation None st))
    /\ activeConversationId st' = Some (uuidv4 (entropy st))
    /\ saveSubject st' = saveSubject st ++ [appendMessage message (newConversation None st)].
Proof.
  intros Hcur Hfresh.
  unfold addMessage. cbn [addMessageRec]. unfold bind at 1. unfold read at 1.
  rewrite Hcur. unfold bind at 1.
  destruct (createNewConversation_items None st)
    as (st1 & Hrun & Hcur1 & Hact1 & Hsave1 & _ & _ & Hitems & _).
  rewrite Hrun. unfold bind at 1.
  destruct (loadConversation_own_record (uuidv4 (entropy st)) _ st1 Hcur1 Hact1)
    as (b & st2 & Hload & Hcur2 & Hact2 & Hsave2).
  { destruct (Hitems (storageKey (uuidv4 (entropy st)))) as [Hsame | [[_ Hown] | [_ Harr]]].
    - left. by rewrite Hsame.
    - right. by left.
    - right. by right. }
  rewrite Hload. unfold bind, read, modify. rewrite Hcur2.
  eexists. split; [reflexivity |]. project. by rewrite Hsave2, Hsave1.
Qed.

Lemma addMessage_without_conversation_witness :
  currentConversationSubject (initialState ∅) = None
  /\ localStorage (initialState ∅)
       !! @storageKey sampleEnvironment (@uuidv4 sampleEnvironment (entropy (initialState ∅)))
     = None
  /\ exists st',
       @addMessage sampleEnvironment (sampleUserMessage 1) (initialState ∅)
       = Returned tt st'
       /\ currentConversationSubject st'
          = Some (@appendMessage sampleEnvironment (sampleUserMessage 1)
                    (@newConversation sampleEnvironment None (initialState ∅)))
       /\ activeConversationId st'
          = Some (@uuidv4 sampleEnvironment (entropy (initialState ∅)))
       /\ saveSubject st'
          = saveSubject (initialState ∅)
            ++ [@appendMessage sampleEnvironment (sampleUserMessage 1)
                  (@newConversation sampleEnvironment None (initialState ∅))].
Proof.
  assert (H1 : currentConversationSubject (initialState ∅) = None) by reflexivity.
  assert (H2 : localStorage (initialState ∅)
               !! @storageKey sampleEnvironment
                    (@uuidv4 sampleEnvironment (entropy (initialState ∅)))
               = None) by reflexivity.
  split; [assumption |]. split; [assumption |].
  exact (@addMessage_without_conversation sampleEnvironment (sampleUserMessage 1)
           (initialState ∅) H1 H2).
Defined.

Section SaveFacts.
Context `{Environment}.

Lemma loadable_stamped (t : Z) (c : ChatHistory) :
  loadable c ->
  loadable (mkChatHistory (h_messages c) (withUpdatedAt t (h_metadata c))).
Proof. by intros [? ?]. Qed.

(** The state a refused write of the record leaves. *)
Lemma saveConversation_refused (conversation : ChatHistory) (st : ServiceState) :
  let saved :=
    mkChatHistory (h_messages conversation)
      (withUpdatedAt (Date_now (clock st)) (h_metadata conversation)) in
  localStorage_accepts (localStorage st) (storageKey (c_id (h_metadata conversation)))
    (JsonText (encodeChatHistory saved)) = false ->
  saveConversation conversation st
  = Returned saved
      (mkServiceState (localStorage st) (activeConversationId st)
         (conversationsSubject st) (currentConversationSubject st)
         (Some ("Failed to save conversation: " +:+ error_message QuotaExceededError))
         (saveSubject st) (S (clock st)) (entropy st)).
Proof.
  intros saved Hrefused.
  unfold saveConversation, bind, dateNow, tryCatch, setItem, handleStorageError, modify, ret.
  cbn [clock localStorage h_metadata c_id withUpdatedAt].
  fold saved. by rewrite Hrefused.
Qed.

(** The state an accepted write of the record leaves. *)
Lemma saveConversation_accepted (conversation : ChatHistory) (st : ServiceState) :
  let saved :=
    mkChatHistory (h_messages conversation)
      (withUpdatedAt (Date_now (clock st)) (h_metadata conversation)) in
  let key := storageKey (c_id (h_metadata conversation)) in
  localStorage_accepts (localStorage st) key (JsonText (encodeChatHistory saved)) = true ->
  exists st',
    saveConversation conversation st = Returned saved st'
    /\ sameSession st st'
    /\ clock st' = S (clock st)
    /\ storageErrorSubject st' = None
    /\ conversationsSubject st'
       = match findIndex (c_id (h_metadata conversation)) (conversationsSubject st) with
         | Some index => <[index := h_metadata saved]> (conversationsSubject st)
         | None => conversationsSubject st ++ [h_metadata saved]
         end
    /\ (c_id (h_metadata conversation) <> "index" ->
        localStorage st' !! key = Some (JsonText (encodeChatHistory saved)))
    /\ (forall other, other <> key -> other <> storageKey "index" ->
          localStorage st' !! other = localStorage st !! other).
Proof.
  intros saved key Haccepts.
  unfold saveConversation, bind, dateNow, tryCatch, setItem, handleStorageError, modify, ret.
  cbn [clock localStorage h_metadata c_id withUpdatedAt].
  fold saved. fold key. rewrite Haccepts.
  unfold updateConversationInIndex, bind, read, modify.
  match goal with
  | |- context [saveConversationsIndex ?cs ?st0] =>
      destruct (saveConversationsIndex_items cs st0)
        as (st' & Hrun & (Ha & Hc & Hs & He) & Hconv & Hclock & Hitems & _)
  end.
  rewrite Hrun. eexists. split; [reflexivity |]. project.
  split; [by repeat split |]. split; [done |]. split; [done |]. split; [done |].
  split.
  - intros Hid. rewrite Hitems.
    + by rewrite lookup_insert_eq.
    + intros Heq. by apply storageKey_inj in Heq.
  - intros other Hother Hindex. rewrite Hitems by done.
    by rewrite lookup_insert_ne.
Qed.

End SaveFacts.

(** C10, as stated, fails: with a storage that refuses the write,
    [toggleFavorite] on a stored conversation that is not a favorite
    returns true, although the save failed: the failure is reported on
    the error channel and the stored record still says that the
    conversation is not a favorite. *)
Lemma toggleFavorite_true_although_write_refused :
  c_isFavorite (h_metadata sampleOlderConversation) = Some false
  /\ localStorage sampleStoreOfTwo !! @storageKey fullStorageEnvironment "c2"
     = Some (JsonText (encodeChatHistory sampleOlderConversation))
  /\ returned (@toggleFavorite fullStorageEnvironment "c2" sampleStoreOfTwo) = Some true
  /\ (storageErrorSubject
        <$> finalState (@toggleFavorite fullStorageEnvironment "c2" sampleStoreOfTwo))
     = Some (Some "Failed to save conversation: engine error")
  /\ (finalState (@toggleFavorite fullStorageEnvironment "c2" sampleStoreOfTwo)
        ≫= fun st' => localStorage st' !! @storageKey fullStorageEnvironment "c2")
     = Some (JsonText (encodeChatHistory sampleOlderConversation)).
Proof. repeat split; vm_compute; reflexivity. Qed.

(** C10, amended: [toggleFavorite] returns false when the record cannot
    be read (no record, text that does not parse, no metadata object),
    with an error on the error channel and nothing else changed.  When
    the record can be read it returns the negation of the stored flag,
    whether the write is accepted or not: accepted, the stored record
    carries the new flag and a new [updatedAt] and is otherwise the
    record read, and the error channel is cleared; refused, storage is
    as before and the failure is reported on the error channel, while
    the value returned is the negated flag all the same.  For a
    conversation that was a favorite that value is false, as it is when
    the record cannot be read: false alone does not tell the two apart. *)
Theorem toggleFavorite_false_is_ambiguous `{Environment}
    (st : ServiceState) (id : string)
    (st_ok : ServiceState) (id_ok : string) (v : JValue) (c : ChatHistory) :
  ToggleFailure st id ->
  localStorage st_ok !! storageKey id_ok = Some (JsonText v) ->
  hasMetadataObject v = true ->
  asChatHistory v = Some c ->
  c_id (h_metadata c) <> "index" ->
  (exists st' message,
     toggleFavorite id st = Returned false st'
     /\ st' = withStorageError (Some message) st
     /\ storageErrorSubject st' = Some message
     /\ localStorage st' = localStorage st
     /\ conversationsSubject st' = conversationsSubject st
     /\ currentConversationSubject st' = currentConversationSubject st)
  /\ (exists st_ok' written,
        toggleFavorite id_ok st_ok
        = Returned (notFlag (c_isFavorite (h_metadata c))) st_ok'
        /\ c_isFavorite (h_metadata written)
           = Some (notFlag (c_isFavorite (h_metadata c)))
        /\ c_updatedAt (h_metadata written) = Date_now (clock st_ok)
        /\ h_messages written = h_messages c
        /\ c_id (h_metadata written) = c_id (h_metadata c)
        /\ c_title (h_metadata written) = c_title (h_metadata c)
        /\ c_createdAt (h_metadata written) = c_createdAt (h_metadata c)
        /\ c_totalMessages (h_metadata written) = c_totalMessages (h_metadata c)
        /\ c_userMessageCount (h_metadata written) = c_userMessageCount (h_metadata c)
        /\ c_aiMessageCount (h_metadata written) = c_aiMessageCount (h_metadata c)
        /\ c_totalTokensUsed (h_metadata written) = c_totalTokensUsed (h_metadata c)
        /\ c_tags (h_metadata written) = c_tags (h_metadata c)
        /\ c_isArchived (h_metadata written) = c_isArchived (h_metadata c)
        /\ (activeConversationId st_ok = Some id_ok ->
            currentConversationSubject st_ok' = Some written)
        /\ if localStorage_accepts (localStorage st_ok)
                (storageKey (c_id (h_metadata c))) (JsonText (encodeChatHistory written))
           then localStorage st_ok' !! storageKey (c_id (h_metadata c))
                = Some (JsonText (encodeChatHistory written))
                /\ storageErrorSubject st_ok' = None
           else localStorage st_ok' = localStorage st_ok
                /\ storageErrorSubject st_ok'
                   = Some ("Failed to save conversation: "
                           +:+ error_message QuotaExceededError))
  /\ (c_isFavorite (h_metadata c) = Some true ->
      returned (toggleFavorite id_ok st_ok) = Some false
      /\ returned (toggleFavorite id st) = Some false).
Proof.
  intros Hfail Hjson Hmeta Htyped Hindex.
  destruct (toggleFavorite_throws id st Hfail) as [message Hthrown].
  set (flag := notFlag (c_isFavorite (h_metadata c))).
  set (toggled :=
         mkChatHistory (h_messages c)
           (withUpdatedAt (Date_now (clock st_ok)) (withFavorite flag (h_metadata c)))).
  assert (Hrun : exists st_ok',
            toggleFavorite id_ok st_ok = Returned flag st_ok'
            /\ (activeConversationId st_ok = Some id_ok ->
                currentConversationSubject st_ok' = Some toggled)
            /\ if localStorage_accepts (localStorage st_ok)
                    (storageKey (c_id (h_metadata c)))
                    (JsonText (encodeChatHistory toggled))
               then localStorage st_ok' !! storageKey (c_id (h_metadata c))
                    = Some (JsonText (encodeChatHistory toggled))
                    /\ storageErrorSubject st_ok' = None
               else localStorage st_ok' = localStorage st_ok
                    /\ storageErrorSubject st_ok'
                       = Some ("Failed to save conversation: "
                               +:+ error_message QuotaExceededError)).
  { unfold toggleFavorite, tryCatch. unfold bind at 1. unfold getItem, read.
    rewrite Hjson. unfold bind at 1. unfold parse, ret. unfold bind at 1.
    rewrite Hmeta. unfold bind at 1. rewrite Htyped. unfold cast, ret.
    unfold bind at 1. fold flag.
    destruct (localStorage_accepts (localStorage st_ok)
                (storageKey (c_id (h_metadata c)))
                (JsonText (encodeChatHistory toggled))) eqn:Haccepts.
    - match goal with
      | |- context [saveConversation ?c0 ?st0] =>
          destruct (saveConversation_accepted c0 st0 Haccepts)
            as (st1 & Hsave & (Ha & Hc & Hs & He) & Hclock & Herror & _ & Hstored & _)
      end.
      project. rewrite Hsave. unfold bind, read, modify, ret. rewrite Ha.
      specialize (Hstored Hindex).
      destruct (decide (activeConversationId st_ok = Some id_ok)) as [Hactive | Hactive].
      + rewrite (bool_decide_eq_true_2 _ Hactive). eexists. split; [reflexivity |].
        project. done.
      + rewrite (bool_decide_eq_false_2 _ Hactive). eexists. split; [reflexivity |].
        done.
    - match goal with
      | |- context [saveConversation ?c0 ?st0] =>
          rewrite (saveConversation_refused c0 st0 Haccepts)
      end.
      unfold bind, read, modify, ret. project.
      destruct (decide (activeConversationId st_ok = Some id_ok)) as [Hactive | Hactive].
      + rewrite (bool_decide_eq_true_2 _ Hactive). eexists. split; [reflexivity |].
        project. done.
      + rewrite (bool_decide_eq_false_2 _ Hactive). eexists. split; [reflexivity |].
        project. done. }
  destruct Hrun as (st_ok' & Hrun & Hpublished & Hwrite).
  split; [| split].
  - exists (withStorageError (Some message) st), message. by repeat split.
  - exists st_ok', toggled. split; [exact Hrun |]. by repeat split.
  - intros Hfavorite. rewrite Hrun, Hthrown. subst flag. by rewrite Hfavorite.
Qed.

Lemma toggleFavorite_false_is_ambiguous_witness :
  @ToggleFailure sampleEnvironment sampleStore "missing"
  /\ localStorage sampleStore !! @storageKey sampleEnvironment "c1"
     = Some (JsonText (encodeChatHistory sampleConversation))
  /\ hasMetadataObject (encodeChatHistory sampleConversation) = true
  /\ asChatHistory (encodeChatHistory sampleConversation) = Some sampleConversation
  /\ c_id (h_metadata sampleConversation) <> "index"
  /\ (exists st' message,
        @toggleFavorite sampleEnvironment "missing" sampleStore = Returned false st'
        /\ st' = withStorageError (Some message) sampleStore
        /\ storageErrorSubject st' = Some message
        /\ localStorage st' = localStorage sampleStore
        /\ conversationsSubject st' = conversationsSubject sampleStore
        /\ currentConversationSubject st' = currentConversationSubject sampleStore)
  /\ (exists st_ok' written,
        @toggleFavorite sampleEnvironment "c1" sampleStore
        = Returned (notFlag (c_isFavorite (h_metadata sampleConversation))) st_ok'
        /\ c_isFavorite (h_metadata written)
           = Some (notFlag (c_isFavorite (h_metadata sampleConversation)))
        /\ c_updatedAt (h_metadata written)
           = @Date_now sampleEnvironment (clock sampleStore)
        /\ h_messages written = h_messages sampleConversation
        /\ c_id (h_metadata written) = c_id (h_metadata sampleConversation)
        /\ c_title (h_metadata written) = c_title (h_metadata sampleConversation)
        /\ c_createdAt (h_metadata written) = c_createdAt (h_metadata sampleConversation)
        /\ c_totalMessages (h_metadata written)
           = c_totalMessages (h_metadata sampleConversation)
        /\ c_userMessageCount (h_metadata written)
           = c_userMessageCount (h_metadata sampleConversation)
        /\ c_aiMessageCount (h_metadata written)
           = c_aiMessageCount (h_metadata sampleConversation)
        /\ c_totalTokensUsed (h_metadata written)
           = c_totalTokensUsed (h_metadata sampleConversation)
        /\ c_tags (h_metadata written) = c_tags (h_metadata sampleConversation)
        /\ c_isArchived (h_metadata written) = c_isArchived (h_metadata sampleConversation)
        /\ (activeConversationId sampleStore = Some "c1" ->
            currentConversationSubject st_ok' = Some written)
        /\ if @localStorage_accepts sampleEnvironment (localStorage sampleStore)
                (@storageKey sampleEnvironment (c_id (h_metadata sampleConversation)))
                (JsonText (encodeChatHistory written))
           then localStorage st_ok'
                  !! @storageKey sampleEnvironment (c_id (h_metadata sampleConversation))
                = Some (JsonText (encodeChatHistory written))
                /\ storageErrorSubject st_ok' = None
           else localStorage st_ok' = localStorage sampleStore
                /\ storageErrorSubject st_ok'
                   = Some ("Failed to save conversation: "
                           +:+ @error_message sampleEnvironment QuotaExceededError))
  /\ (c_isFavorite (h_metadata sampleConversation) = Some true ->
      returned (@toggleFavorite sampleEnvironment "c1" sampleStore) = Some false
      /\ returned (@toggleFavorite sampleEnvironment "missing" sampleStore) = Some false).
Proof.
  assert (H1 : @ToggleFailure sampleEnvironment sampleStore "missing").
  { apply ToggleMissing. left. vm_compute. reflexivity. }
  assert (H2 : localStorage sampleStore !! @storageKey sampleEnvironment "c1"
               = Some (JsonText (encodeChatHistory sampleConversation)))
    by (vm_compute; reflexivity).
  assert (H3 : hasMetadataObject (encodeChatHistory sampleConversation) = true)
    by (vm_compute; reflexivity).
  assert (H4 : asChatHistory (encodeChatHistory sampleConversation)
               = Some sampleConversation) by (vm_compute; reflexivity).
  assert (H5 : c_id (h_metadata sampleConversation) <> "index") by done.
  repeat (split; [assumption |]).
  exact (@toggleFavorite_false_is_ambiguous sampleEnvironment
           sampleStore "missing" sampleStore "c1"
           (encodeChatHistory sampleConversation) sampleConversation
           H1 H2 H3 H4 H5).
Defined.

(** X3.  A conversation that passes the validation and is saved with an
    accepted write is read back by [loadConversation] exactly as it was
    saved, [updatedAt] stamped, and becomes the active conversation. *)
Theorem save_then_load `{Environment} (conversation : ChatHistory) (st : ServiceState) :
  let saved :=
    mkChatHistory (h_messages conversation)
      (withUpdatedAt (Date_now (clock st)) (h_metadata conversation)) in
  let id := c_id (h_metadata conversation) in
  loadable conversation ->
  id <> "index" ->
  localStorage_accepts (localStorage st) (storageKey id)
    (JsonText (encodeChatHistory saved)) = true ->
  exists st1 st2,
    saveConversation conversation st = Returned saved st1
    /\ loadConversation id st1 = Returned true st2
    /\ currentConversationSubject st2 = Some saved
    /\ activeConversationId st2 = Some id.
Proof.
  intros saved id Hloadable Hid Haccepts.
  destruct (saveConversation_accepted conversation st Haccepts)
    as (st1 & Hrun & _ & _ & _ & _ & Hstored & _).
  specialize (Hstored Hid).
  assert (Hvalid : validateConversation (encodeChatHistory saved) = Ok tt).
  { apply validateConversation_encode. by apply loadable_stamped. }
  destruct (loadConversation_succeeds id _ saved st1 Hstored Hvalid
              (asChatHistory_encode saved))
    as (st2 & Hload & Hcur & Hact & _).
  by exists st1, st2.
Qed.

Lemma save_then_load_witness :
  loadable sampleConversation
  /\ c_id (h_metadata sampleConversation) <> "index"
  /\ @localStorage_accepts sampleEnvironment (localStorage (initialState ∅))
       (@storageKey sampleEnvironment (c_id (h_metadata sampleConversation)))
       (JsonText
          (encodeChatHistory
             (mkChatHistory (h_messages sampleConversation)
                (withUpdatedAt (@Date_now sampleEnvironment (clock (initialState ∅)))
                   (h_metadata sampleConversation))))) = true
  /\ exists st1 st2,
       @saveConversation sampleEnvironment sampleConversation (initialState ∅)
       = Returned
           (mkChatHistory (h_messages sampleConversation)
              (withUpdatedAt (@Date_now sampleEnvironment (clock (initialState ∅)))
                 (h_metadata sampleConversation))) st1
       /\ @loadConversation sampleEnvironment (c_id (h_metadata sampleConversation)) st1
          = Returned true st2
       /\ currentConversationSubject st2
          = Some (mkChatHistory (h_messages sampleConversation)
                    (withUpdatedAt (@Date_now sampleEnvironment (clock (initialState ∅)))
                       (h_metadata sampleConversation)))
       /\ activeConversationId st2 = Some (c_id (h_metadata sampleConversation)).
Proof.
  assert (H1 : loadable sampleConversation).
  { split; [done |]. repeat constructor; done. }
  assert (H2 : c_id (h_metadata sampleConversation) <> "index") by done.
  assert (H3 : @localStorage_accepts sampleEnvironment (localStorage (initialState ∅))
                 (@storageKey sampleEnvironment (c_id (h_metadata sampleConversation)))
                 (JsonText
                    (encodeChatHistory
                       (mkChatHistory (h_messages sampleConversation)
                          (withUpdatedAt
                             (@Date_now sampleEnvironment (clock (initialState ∅)))
                             (h_metadata sampleConversation))))) = true) by reflexivity.
  split; [assumption |]. split; [assumption |]. split; [assumption |].
  exact (@save_then_load sampleEnvironment sampleConversation (initialState ∅) H1 H2 H3).
Defined.

(** X4.  [saveConversation] never throws and always stamps [updatedAt]
    on the object it is given.  When the record is written it clears
    the error channel, even if the write of the index was refused just
    before; when the record is refused it reports the failure and leaves
    storage as it was, and the in-memory index lists the same entries,
    their [updatedAt] set aside: in the source the stamp has been written
    before the write is tried, and it shows in an entry that is the very
    metadata object of the conversation saved. *)
Theorem saveConversation_error_channel `{Environment} (conversation : ChatHistory)
    (st : ServiceState) :
  let saved :=
    mkChatHistory (h_messages conversation)
      (withUpdatedAt (Date_now (clock st)) (h_metadata conversation)) in
  exists st',
    saveConversation conversation st = Returned saved st'
    /\ c_updatedAt (h_metadata saved) = Date_now (clock st)
    /\ if localStorage_accepts (localStorage st)
            (storageKey (c_id (h_metadata conversation)))
            (JsonText (encodeChatHistory saved))
       then storageErrorSubject st' = None
       else storageErrorSubject st'
            = Some ("Failed to save conversation: " +:+ error_message QuotaExceededError)
            /\ localStorage st' = localStorage st
            /\ map (withUpdatedAt 0) (conversationsSubject st')
               = map (withUpdatedAt 0) (conversationsSubject st).
Proof.
  intros saved.
  destruct (localStorage_accepts _ _ _) eqn:Haccepts.
  - destruct (saveConversation_accepted conversation st Haccepts)
      as (st' & Hrun & _ & _ & Herror & _).
    by exists st'.
  - rewrite (saveConversation_refused conversation st Haccepts).
    by eexists.
Qed.

(** X5.  [createNewConversation] lists a conversation twice: when the
    new identifier is not in the index and the record is written, the
    save adds the metadata to the index and [createNewConversation] then
    pushes the same metadata once more. *)
Theorem createNewConversation_lists_twice `{Environment} (title : option string)
    (st : ServiceState) :
  let created := newConversation title st in
  findIndex (uuidv4 (entropy st)) (conversationsSubject st) = None ->
  localStorage_accepts (localStorage st) (storageKey (uuidv4 (entropy st)))
    (JsonText (encodeChatHistory created)) = true ->
  exists st',
    createNewConversation title st = Returned (uuidv4 (entropy st)) st'
    /\ conversationsSubject st'
       = conversationsSubject st ++ [h_metadata created; h_metadata created].
Proof.
  intros created Hnew Haccepts.
  unfold createNewConversation, tryCatch. unfold bind at 1. unfold freshId.
  unfold bind at 1. unfold dateNow at 1. cbn [clock entropy]. unfold bind at 1.
  match goal with
  | |- context [saveConversation ?c ?st0] =>
      destruct (saveConversation_accepted c st0 Haccepts)
        as (st1 & Hrun & (Ha & Hc & Hs & He) & Hclock & _ & Hconv & _)
  end.
  project. rewrite Hrun. rewrite Hnew in Hconv.
  unfold bind at 1. unfold read at 1. unfold bind at 1. unfold modify at 1.
  unfold bind at 1.
  match goal with
  | |- context [saveConversationsIndex ?cs ?st0] =>
      destruct (saveConversationsIndex_items cs st0)
        as (st2 & Hrun2 & _ & Hconv2 & _)
  end.
  project. rewrite Hrun2.
  unfold bind, modify, ret. eexists. split; [reflexivity |]. project.
  rewrite Hconv2, Hconv. by rewrite <- app_assoc.
Qed.

Lemma createNewConversation_lists_twice_witness :
  findIndex (@uuidv4 sampleEnvironment (entropy sampleStore)) (conversationsSubject sampleStore)
  = None
  /\ @localStorage_accepts sampleEnvironment (localStorage sampleStore)
       (@storageKey sampleEnvironment (@uuidv4 sampleEnvironment (entropy sampleStore)))
       (JsonText (encodeChatHistory (@newConversation sampleEnvironment None sampleStore)))
     = true
  /\ exists st',
       @createNewConversation sampleEnvironment None sampleStore
       = Returned (@uuidv4 sampleEnvironment (entropy sampleStore)) st'
       /\ conversationsSubject st'
          = conversationsSubject sampleStore
            ++ [h_metadata (@newConversation sampleEnvironment None sampleStore);
                h_metadata (@newConversation sampleEnvironment None sampleStore)].
Proof.
  assert (H1 : findIndex (@uuidv4 sampleEnvironment (entropy sampleStore))
                 (conversationsSubject sampleStore) = None)
    by (vm_compute; reflexivity).
  assert (H2 : @localStorage_accepts sampleEnvironment (localStorage sampleStore)
                 (@storageKey sampleEnvironment
                    (@uuidv4 sampleEnvironment (entropy sampleStore)))
                 (JsonText
                    (encodeChatHistory (@newConversation sampleEnvironment None sampleStore)))
               = true) by reflexivity.
  split; [assumption |]. split; [assumption |].
  exact (@createNewConversation_lists_twice sampleEnvironment None sampleStore H1 H2).
Defined.

(** X6.  [clearCurrentConversation] returns [true] although the storage
    refused the write: the published conversation is cleared, the stored
    records are as before, and the failure is only reported on the error
    channel. *)
Theorem clearCurrentConversation_refused_write `{Environment} (st : ServiceState)
    (c : ChatHistory) :
  currentConversationSubject st = Some c ->
  localStorage_accepts (localStorage st) (storageKey (c_id (h_metadata c)))
    (JsonText (encodeChatHistory (clearedConversation c st))) = false ->
  exists st',
    clearCurrentConversation st = Returned true st'
    /\ currentConversationSubject st' = Some (clearedConversation c st)
    /\ localStorage st' = localStorage st
    /\ conversationsSubject st' = conversationsSubject st
    /\ storageErrorSubject st'
       = Some ("Failed to save conversation: " +:+ error_message QuotaExceededError).
Proof.
  intros Hcur Hrefused.
  unfold clearCurrentConversation. unfold bind at 1. unfold read at 1.
  rewrite Hcur. unfold tryCatch. unfold bind at 1. unfold dateNow at 1.
  cbn [clock]. unfold bind at 1. unfold modify at 1. unfold bind at 1.
  match goal with
  | |- context [saveConversation ?c0 ?st0] =>
      rewrite (saveConversation_refused c0 st0 Hrefused)
  end.
  unfold bind, modify, ret. eexists. split; [reflexivity |]. by cbn.
Qed.

Lemma clearCurrentConversation_refused_write_witness :
  currentConversationSubject sampleStore = Some sampleConversation
  /\ @localStorage_accepts fullStorageEnvironment (localStorage sampleStore)
       (@storageKey fullStorageEnvironment (c_id (h_metadata sampleConversation)))
       (JsonText
          (encodeChatHistory
             (@clearedConversation fullStorageEnvironment sampleConversation sampleStore)))
     = false
  /\ exists st',
       @clearCurrentConversation fullStorageEnvironment sampleStore = Returned true st'
       /\ currentConversationSubject st'
          = Some (@clearedConversation fullStorageEnvironment sampleConversation sampleStore)
       /\ localStorage st' = localStorage sampleStore
       /\ conversationsSubject st' = conversationsSubject sampleStore
       /\ storageErrorSubject st'
          = Some ("Failed to save conversation: "
                  +:+ @error_message fullStorageEnvironment QuotaExceededError).
Proof.
  assert (H1 : currentConversationSubject sampleStore = Some sampleConversation)
    by reflexivity.
  assert (H2 : @localStorage_accepts fullStorageEnvironment (localStorage sampleStore)
                 (@storageKey fullStorageEnvironment (c_id (h_metadata sampleConversation)))
                 (JsonText
                    (encodeChatHistory
                       (@clearedConversation fullStorageEnvironment sampleConversation
                          sampleStore))) = false) by reflexivity.
  split; [assumption |]. split; [assumption |].
  exact (@clearCurrentConversation_refused_write fullStorageEnvironment sampleStore
           sampleConversation H1 H2).
Defined.

Section SortFacts.
Context {A : Type} (compare : A -> A -> Z).

Lemma insertBy_perm (x : A) (l : list A) : insertBy compare x l ≡ₚ x :: l.
Proof.
  induction l as [|y rest IH]; [done |]. cbn.
  destruct (compare x y <=? 0); [done |]. rewrite IH. apply Permutation_swap.
Qed.

Lemma sort_perm (l : list A) : sort compare l ≡ₚ l.
Proof.
  induction l as [|x rest IH]; [done |]. cbn. fold (sort compare rest).
  by rewrite insertBy_perm, IH.
Qed.

Lemma sort_length (l : list A) : length (sort compare l) = length l.
Proof. by rewrite sort_perm. Qed.

(** A comparator that is total and transitive, as one that compares a
    numeric key is. *)
Hypothesis compare_total : forall a b, 0 < compare a b -> compare b a <= 0.
Hypothesis compare_trans :
  forall a b c, compare a b <= 0 -> compare b c <= 0 -> compare a c <= 0.

Lemma insertBy_sorted (x : A) (l : list A) :
  StronglySorted (fun a b => compare a b <= 0) l ->
  StronglySorted (fun a b => compare a b <= 0) (insertBy compare x l).
Proof.
  induction 1 as [|y rest Hsorted IH Hy]; cbn.
  - repeat constructor.
  - destruct (Z.leb_spec (compare x y) 0) as [Hxy | Hxy].
    + constructor; [by constructor |]. constructor; [done |].
      eapply Forall_impl; [exact Hy |]. intros z Hyz. by eapply compare_trans.
    + constructor; [done |]. rewrite insertBy_perm. constructor; [| done].
      by apply compare_total.
Qed.

Lemma sort_sorted (l : list A) :
  StronglySorted (fun a b => compare a b <= 0) (sort compare l).
Proof.
  induction l as [|x rest IH]; [constructor |]. cbn. by apply insertBy_sorted.
Qed.

End SortFacts.

Lemma sorted_weaken {A : Type} (R S : A -> A -> Prop) (l : list A) :
  (forall a b, R a b -> S a b) -> StronglySorted R l -> StronglySorted S l.
Proof.
  intros Himpl. induction 1 as [|x rest Hsorted IH Hx]; constructor; [done |].
  eapply Forall_impl; [exact Hx | apply Himpl].
Qed.

Section DeleteFacts.
Context `{Environment}.

Lemma mostRecentFirst_sorted (conversations : list ConversationMetadata) :
  StronglySorted (fun a b => c_updatedAt b <= c_updatedAt a)
    (mostRecentFirst conversations).
Proof.
  unfold mostRecentFirst.
  eapply sorted_weaken; [| apply sort_sorted]; cbn; intros; lia.
Qed.

(** The head of the sorted index is a most recently updated entry. *)
Lemma mostRecentFirst_head (conversations rest : list ConversationMetadata)
    (mostRecent : ConversationMetadata) :
  mostRecentFirst conversations = mostRecent :: rest ->
  mostRecent ∈ conversations
  /\ forall q, q ∈ conversations -> c_updatedAt q <= c_updatedAt mostRecent.
Proof.
  intros Hsorted. pose proof (mostRecentFirst_sorted conversations) as Hs.
  pose proof (sort_perm (fun a b => c_updatedAt b - c_updatedAt a) conversations)
    as Hperm.
  fold (mostRecentFirst conversations) in Hperm. rewrite Hsorted in Hs, Hperm.
  split.
  - rewrite <- Hperm. by left.
  - intros q Hq. rewrite <- Hperm in Hq. apply StronglySorted_inv in Hs as [_ Hall].
    apply elem_of_cons in Hq as [-> | Hq]; [lia |].
    by apply (proj1 (Forall_forall _ _) Hall).
Qed.

Lemma mostRecentFirst_nonempty (conversations : list ConversationMetadata) :
  conversations <> [] ->
  exists mostRecent rest, mostRecentFirst conversations = mostRecent :: rest.
Proof.
  intros Hne. destruct (mostRecentFirst conversations) as [|p rest] eqn:Hsorted;
    [| by eexists _, _].
  apply (f_equal length) in Hsorted. unfold mostRecentFirst in Hsorted.
  rewrite sort_length in Hsorted. by destruct conversations.
Qed.

(** The conversations [deleteConversation(id)] keeps in the index. *)
Lemma remaining_spec (id : string) (conversations : list ConversationMetadata)
    (q : ConversationMetadata) :
  q ∈ List.filter (fun c => negb (String.eqb (c_id c) id)) conversations
  <-> q ∈ conversations /\ c_id q <> id.
Proof.
  rewrite !list_elem_of_In, filter_In, negb_true_iff, String.eqb_neq. done.
Qed.

(** [deleteConversation] up to its test of the active conversation. *)
Lemma deleteConversation_prefix (id : string) (st : ServiceState) :
  let remaining :=
    List.filter (fun c => negb (String.eqb (c_id c) id)) (conversationsSubject st) in
  exists st1,
    sameSession st st1
    /\ conversationsSubject st1 = remaining
    /\ clock st1 = clock st
    /\ (forall k, k <> storageKey "index" ->
          localStorage st1 !! k = delete (storageKey id) (localStorage st) !! k)
    /\ deleteConversation id st
       = tryCatch
           ((if bool_decide (activeConversationId st = Some id)
             then if Nat.ltb 0 (length remaining)
                  then loadMostRecent remaining
                  else createNewConversation None ;; ret tt
             else ret tt) ;;
            ret true)
           (fun error =>
              handleStorageError ("Failed to delete conversation " +:+ id) error ;;
              ret false) st1.
Proof.
  intros remaining.
  unfold deleteConversation, tryCatch. unfold bind at 1. unfold removeItem, modify.
  unfold bind at 1. unfold read at 1. project. fold remaining.
  unfold bind at 1. unfold bind at 1.
  match goal with
  | |- context [saveConversationsIndex ?cs ?st0] =>
      destruct (saveConversationsIndex_items cs st0)
        as (st1 & Hrun & (Ha & Hc & Hs & He) & Hconv & Hclock & Hitems & _)
  end.
  exists st1. project. rewrite Hrun. unfold bind at 1. unfold read at 1.
  rewrite Ha. repeat split; done.
Qed.

Lemma deleteConversation_promotes (id : string) (st : ServiceState)
    (mostRecent : ConversationMetadata) (rest : list ConversationMetadata) :
  activeConversationId st = Some id ->
  mostRecentFirst
    (List.filter (fun c => negb (String.eqb (c_id c) id)) (conversationsSubject st))
  = mostRecent :: rest ->
  exists st2,
    localStorage st2 !! storageKey (c_id mostRecent)
    = (if bool_decide (c_id mostRecent = "index")
       then localStorage st2 !! storageKey (c_id mostRecent)
       else localStorage st !! storageKey (c_id mostRecent))
    /\ (id <> "index" -> localStorage st2 !! storageKey id = None)
    /\ sameSession st st2
    /\ (forall k, k <> storageKey "index" ->
          localStorage st2 !! k = delete (storageKey id) (localStorage st) !! k)
    /\ deleteConversation id st
       = tryCatch
           ((loadConversation (c_id mostRecent) ;; ret tt) ;; ret true)
           (fun error =>
              handleStorageError ("Failed to delete conversation " +:+ id) error ;;
              ret false) st2.
Proof.
  intros Hactive Hsorted.
  destruct (deleteConversation_prefix id st)
    as (st1 & Hsame & Hconv & Hclock & Hitems & Hrun).
  rewrite Hrun. rewrite (bool_decide_eq_true_2 _ Hactive).
  assert (Hin : mostRecent ∈ conversationsSubject st /\ c_id mostRecent <> id).
  { apply remaining_spec. by apply (mostRecentFirst_head _ rest). }
  destruct (List.filter _ (conversationsSubject st)) as [|q qs] eqn:Hremaining.
  { by vm_compute in Hsorted. }
  cbn [length Nat.ltb Nat.leb].
  exists (withConversations (mostRecent :: rest) st1). project.
  split; [| split; [| split; [| split]]].
  - destruct (decide (c_id mostRecent = "index")) as [Hindex | Hindex];
      [by rewrite (bool_decide_eq_true_2 _ Hindex) |].
    rewrite (bool_decide_eq_false_2 _ Hindex). rewrite Hitems.
    + rewrite lookup_delete_ne; [done |].
      intros Heq. apply storageKey_inj in Heq. by destruct Hin as [_ []].
    + intros Heq. by apply storageKey_inj in Heq.
  - intros Hid. rewrite Hitems.
    + by rewrite lookup_delete_eq.
    + intros Heq. by apply storageKey_inj in Heq.
  - destruct Hsame as (? & ? & ? & ?). by repeat split.
  - done.
  - unfold tryCatch. unfold bind at 1 3. unfold loadMostRecent. rewrite Hsorted.
    unfold bind at 1. unfold modify. done.
Qed.

End DeleteFacts.

(** X7.  Deleting a conversation other than the active one removes its
    record and its index entries, keeps the order of the others, and
    leaves the active conversation and every other record alone. *)
Theorem deleteConversation_of_inactive `{Environment} (id : string) (st : ServiceState) :
  activeConversationId st <> Some id ->
  exists st',
    deleteConversation id st = Returned true st'
    /\ conversationsSubject st'
       = List.filter (fun c => negb (String.eqb (c_id c) id)) (conversationsSubject st)
    /\ activeConversationId st' = activeConversationId st
    /\ currentConversationSubject st' = currentConversationSubject st
    /\ (id <> "index" -> localStorage st' !! storageKey id = None)
    /\ (forall other, other <> storageKey id -> other <> storageKey "index" ->
          localStorage st' !! other = localStorage st !! other).
Proof.
  intros Hinactive.
  destruct (deleteConversation_prefix id st)
    as (st1 & (Ha & Hc & Hs & He) & Hconv & Hclock & Hitems & Hrun).
  rewrite Hrun. rewrite (bool_decide_eq_false_2 _ Hinactive).
  exists st1. split; [done |]. repeat split; try done.
  - intros Hid. rewrite Hitems.
    + by rewrite lookup_delete_eq.
    + intros Heq. by apply storageKey_inj in Heq.
  - intros other Hother Hindex. rewrite Hitems by done. by rewrite lookup_delete_ne.
Qed.

Lemma deleteConversation_of_inactive_witness :
  activeConversationId sampleStoreOfTwo <> Some "c2"
  /\ exists st',
       @deleteConversation sampleEnvironment "c2" sampleStoreOfTwo = Returned true st'
       /\ conversationsSubject st'
          = List.filter (fun c => negb (String.eqb (c_id c) "c2"))
              (conversationsSubject sampleStoreOfTwo)
       /\ activeConversationId st' = activeConversationId sampleStoreOfTwo
       /\ currentConversationSubject st' = currentConversationSubject sampleStoreOfTwo
       /\ ("c2" <> "index" -> localStorage st' !! @storageKey sampleEnvironment "c2" = None)
       /\ (forall other, other <> @storageKey sampleEnvironment "c2" ->
             other <> @storageKey sampleEnvironment "index" ->
             localStorage st' !! other = localStorage sampleStoreOfTwo !! other).
Proof.
  assert (H1 : activeConversationId sampleStoreOfTwo <> Some "c2") by done.
  split; [assumption |].
  exact (@deleteConversation_of_inactive sampleEnvironment "c2" sampleStoreOfTwo H1).
Defined.

(** X8.  Deleting the active conversation while others remain, each with
    a readable record, activates a most recently updated one of them and
    publishes its stored record. *)
Theorem deleteConversation_promotes_most_recent `{Environment} (id : string)
    (st : ServiceState) :
  activeConversationId st = Some id ->
  (exists q, remains id st q) ->
  (forall q, remains id st q ->
     c_id q <> "index"
     /\ exists c, localStorage st !! storageKey (c_id q)
                  = Some (JsonText (encodeChatHistory c))
                  /\ loadable c) ->
  exists st' p c,
    deleteConversation id st = Returned true st'
    /\ remains id st p
    /\ (forall q, remains id st q -> c_updatedAt q <= c_updatedAt p)
    /\ localStorage st !! storageKey (c_id p) = Some (JsonText (encodeChatHistory c))
    /\ activeConversationId st' = Some (c_id p)
    /\ currentConversationSubject st' = Some c.
Proof.
  intros Hactive [q0 Hq0] Hrecords.
  destruct (mostRecentFirst_nonempty
              (List.filter (fun c => negb (String.eqb (c_id c) id))
                 (conversationsSubject st))) as (p & rest & Hsorted).
  { intros Hnil. apply remaining_spec in Hq0. rewrite Hnil in Hq0.
    by apply elem_of_nil in Hq0. }
  destruct (mostRecentFirst_head _ _ _ Hsorted) as [Hp Hmax].
  apply remaining_spec in Hp.
  destruct (Hrecords p Hp) as (Hindex & c & Hstored & Hloadable).
  destruct (deleteConversation_promotes id st p rest Hactive Hsorted)
    as (st2 & Hitem & _ & _ & _ & Hrun).
  rewrite (bool_decide_eq_false_2 _ Hindex) in Hitem. rewrite Hstored in Hitem.
  destruct (loadConversation_succeeds (c_id p) _ c st2 Hitem
              (proj2 (validateConversation_encode c) Hloadable)
              (asChatHistory_encode c))
    as (st' & Hload & Hcur & Hact & _).
  exists st', p, c. rewrite Hrun. unfold tryCatch, bind. rewrite Hload.
  split; [done |]. split; [done |]. split; [| done].
  intros q Hq. apply Hmax. by apply remaining_spec.
Qed.

Lemma deleteConversation_promotes_most_recent_witness :
  activeConversationId sampleStoreOfTwo = Some "c1"
  /\ (exists q, remains "c1" sampleStoreOfTwo q)
  /\ (forall q, remains "c1" sampleStoreOfTwo q ->
        c_id q <> "index"
        /\ exists c, localStorage sampleStoreOfTwo !! @storageKey sampleEnvironment (c_id q)
                     = Some (JsonText (encodeChatHistory c))
                     /\ loadable c)
  /\ exists st' p c,
       @deleteConversation sampleEnvironment "c1" sampleStoreOfTwo = Returned true st'
       /\ remains "c1" sampleStoreOfTwo p
       /\ (forall q, remains "c1" sampleStoreOfTwo q -> c_updatedAt q <= c_updatedAt p)
       /\ localStorage sampleStoreOfTwo !! @storageKey sampleEnvironment (c_id p)
          = Some (JsonText (encodeChatHistory c))
       /\ activeConversationId st' = Some (c_id p)
       /\ currentConversationSubject st' = Some c.
Proof.
  assert (H1 : activeConversationId sampleStoreOfTwo = Some "c1") by reflexivity.
  assert (H2 : exists q, remains "c1" sampleStoreOfTwo q).
  { exists (h_metadata sampleOlderConversation). split; [| done].
    right. left. }
  assert (H3 : forall q, remains "c1" sampleStoreOfTwo q ->
                 c_id q <> "index"
                 /\ exists c,
                      localStorage sampleStoreOfTwo
                        !! @storageKey sampleEnvironment (c_id q)
                      = Some (JsonText (encodeChatHistory c))
                      /\ loadable c).
  { intros q [Hin Hid]. cbn in Hin.
    apply elem_of_cons in Hin as [-> | Hin]; [done |].
    apply elem_of_cons in Hin as [-> | Hin]; [| by apply elem_of_nil in Hin].
    split; [done |]. exists sampleOlderConversation. split; [reflexivity |].
    split; [done |]. repeat constructor; done. }
  split; [assumption |]. split; [assumption |]. split; [assumption |].
  exact (@deleteConversation_promotes_most_recent sampleEnvironment "c1"
           sampleStoreOfTwo H1 H2 H3).
Defined.

(** X9.  When the record of the most recently updated remaining
    conversation is missing, deleting the active conversation still
    returns [true] and the deleted conversation stays active and
    published, although its record is gone. *)
Theorem deleteConversation_keeps_deleted_active `{Environment} (id : string)
    (st : ServiceState) (p : ConversationMetadata) :
  activeConversationId st = Some id ->
  id <> "index" ->
  remains id st p ->
  (forall q, remains id st q -> q = p \/ c_updatedAt q < c_updatedAt p) ->
  c_id p <> "index" ->
  localStorage st !! storageKey (c_id p) = None ->
  exists st',
    deleteConversation id st = Returned true st'
    /\ activeConversationId st' = Some id
    /\ currentConversationSubject st' = currentConversationSubject st
    /\ localStorage st' !! storageKey id = None.
Proof.
  intros Hactive Hid Hp Hunique Hindex Hmissing.
  destruct (mostRecentFirst_nonempty
              (List.filter (fun c => negb (String.eqb (c_id c) id))
                 (conversationsSubject st))) as (h & rest & Hsorted).
  { intros Hnil. apply remaining_spec in Hp. rewrite Hnil in Hp.
    by apply elem_of_nil in Hp. }
  destruct (mostRecentFirst_head _ _ _ Hsorted) as [Hh Hmax].
  assert (h = p) as ->.
  { apply remaining_spec in Hh. destruct (Hunique h Hh) as [-> | Hless]; [done |].
    pose proof (Hmax p (proj2 (remaining_spec _ _ _) Hp)). lia. }
  destruct (deleteConversation_promotes id st p rest Hactive Hsorted)
    as (st2 & Hitem & Hgone & (Ha & Hc & _) & _ & Hrun).
  rewrite (bool_decide_eq_false_2 _ Hindex) in Hitem. rewrite Hmissing in Hitem.
  destruct (loadConversation_missing (c_id p) st2 (or_introl Hitem)) as [message Hload].
  rewrite Hrun. unfold tryCatch, bind. rewrite Hload.
  eexists. split; [reflexivity |]. project. rewrite <- Hactive. by repeat split; auto.
Qed.

Lemma deleteConversation_keeps_deleted_active_witness :
  activeConversationId sampleStoreWithLostRecord = Some "c1"
  /\ "c1" <> "index"
  /\ remains "c1" sampleStoreWithLostRecord (h_metadata sampleOlderConversation)
  /\ (forall q, remains "c1" sampleStoreWithLostRecord q ->
        q = h_metadata sampleOlderConversation
        \/ c_updatedAt q < c_updatedAt (h_metadata sampleOlderConversation))
  /\ c_id (h_metadata sampleOlderConversation) <> "index"
  /\ localStorage sampleStoreWithLostRecord
       !! @storageKey sampleEnvironment (c_id (h_metadata sampleOlderConversation)) = None
  /\ exists st',
       @deleteConversation sampleEnvironment "c1" sampleStoreWithLostRecord
       = Returned true st'
       /\ activeConversationId st' = Some "c1"
       /\ currentConversationSubject st'
          = currentConversationSubject sampleStoreWithLostRecord
       /\ localStorage st' !! @storageKey sampleEnvironment "c1" = None.
Proof.
  assert (H1 : activeConversationId sampleStoreWithLostRecord = Some "c1") by reflexivity.
  assert (H2 : "c1" <> "index") by done.
  assert (H3 : remains "c1" sampleStoreWithLostRecord (h_metadata sampleOlderConversation)).
  { split; [| done]. right. left. }
  assert (H4 : forall q, remains "c1" sampleStoreWithLostRecord q ->
                 q = h_metadata sampleOlderConversation
                 \/ c_updatedAt q < c_updatedAt (h_metadata sampleOlderConversation)).
  { intros q [Hin Hid]. cbn in Hin.
    apply elem_of_cons in Hin as [-> | Hin]; [done |].
    apply elem_of_cons in Hin as [-> | Hin]; [by left | by apply elem_of_nil in Hin]. }
  assert (H5 : c_id (h_metadata sampleOlderConversation) <> "index") by done.
  assert (H6 : localStorage sampleStoreWithLostRecord
               !! @storageKey sampleEnvironment (c_id (h_metadata sampleOlderConversation))
               = None) by reflexivity.
  repeat (split; [assumption |]).
  exact (@deleteConversation_keeps_deleted_active sampleEnvironment "c1"
           sampleStoreWithLostRecord (h_metadata sampleOlderConversation)
           H1 H2 H3 H4 H5 H6).
Defined.

Section ClearAllFacts.
Context `{Environment}.

Lemma newConversation_same (title : option string) (st st' : ServiceState) :
  clock st' = clock st -> entropy st' = entropy st ->
  newConversation title st' = newConversation title st.
Proof. unfold newConversation. by intros -> ->. Qed.

(** The loop of [clearAllConversations] removes the records of the
    listed conversations and nothing else. *)
Lemma removeConversations_returns (conversations : list ConversationMetadata)
    (st : ServiceState) :
  let keys := map (fun q => storageKey (c_id q)) conversations in
  exists st',
    removeConversations conversations st = Returned tt st'
    /\ sameSession st st'
    /\ clock st' = clock st
    /\ conversationsSubject st' = conversationsSubject st
    /\ (forall k, k ∈ keys -> localStorage st' !! k = None)
    /\ (forall k, k ∉ keys -> localStorage st' !! k = localStorage st !! k).
Proof.
  revert st. induction conversations as [|c rest IH]; intros st keys.
  - exists st. split; [done |]. split; [apply sameSession_refl |].
    repeat split; try done. intros k Hk. by apply elem_of_nil in Hk.
  - cbn [removeConversations]. unfold bind, removeItem, modify.
    destruct (IH (withLocalStorage (delete (storageKey (c_id c)) (localStorage st)) st))
      as (st' & Hrun & (Ha & Hc & Hs & He) & Hclock & Hconv & Hgone & Hkept).
    exists st'. project. split; [done |]. split; [by repeat split |].
    split; [done |]. split; [done |]. subst keys. cbn [map]. split.
    + intros k Hk.
      destruct (decide (k ∈ map (fun q => storageKey (c_id q)) rest)) as [Hin | Hout];
        [by apply Hgone |].
      rewrite (Hkept k Hout). apply elem_of_cons in Hk as [-> | Hk]; [| done].
      by rewrite lookup_delete_eq.
    + intros k Hk. apply not_elem_of_cons in Hk as [Hne Hout].
      rewrite (Hkept k Hout). by rewrite lookup_delete_ne.
Qed.

End ClearAllFacts.

(** X10.  Deleting the active conversation when no other conversation is
    listed leaves a newly created, empty conversation active. *)
Theorem deleteConversation_of_last `{Environment} (id : string) (st : ServiceState) :
  activeConversationId st = Some id ->
  (forall q, q ∈ conversationsSubject st -> c_id q = id) ->
  exists st',
    deleteConversation id st = Returned true st'
    /\ currentConversationSubject st' = Some (newConversation None st)
    /\ activeConversationId st' = Some (uuidv4 (entropy st))
    /\ (id <> "index" -> id <> uuidv4 (entropy st) ->
        localStorage st' !! storageKey id = None)
    /\ forall q, q ∈ conversationsSubject st' -> q = h_metadata (newConversation None st).
Proof.
  intros Hactive Hall.
  destruct (deleteConversation_prefix id st)
    as (st1 & (Ha & Hc & Hs & He) & Hconv & Hclock & Hitems & Hrun).
  rewrite Hrun. rewrite (bool_decide_eq_true_2 _ Hactive).
  assert (Hnil : List.filter (fun c => negb (String.eqb (c_id c) id))
                   (conversationsSubject st) = []).
  { destruct (List.filter _ _) as [|q qs] eqn:Hremaining; [done |].
    assert (Hq : q ∈ q :: qs) by left. rewrite <- Hremaining in Hq.
    apply remaining_spec in Hq as [Hq Hne]. by specialize (Hall q Hq). }
  rewrite Hnil in *. cbn [length Nat.ltb Nat.leb].
  destruct (createNewConversation_items None st1)
    as (st' & Hcreate & Hcur & Hact & _ & _ & _ & Hstored & Hlisted).
  rewrite (newConversation_same None st st1 Hclock He) in *. rewrite He in *.
  unfold tryCatch, bind. rewrite Hcreate. exists st'. split; [done |].
  split; [done |]. split; [done |]. split.
  - intros Hid Hfresh.
    destruct (Hstored (storageKey id)) as [-> | [[Heq _] | [Heq _]]].
    + rewrite Hitems; [by rewrite lookup_delete_eq |].
      intros Heq. by apply storageKey_inj in Heq.
    + by apply storageKey_inj in Heq.
    + by apply storageKey_inj in Heq.
  - rewrite Hconv in Hlisted. cbn in Hlisted. intros q Hq.
    destruct Hlisted as [Hl | Hl]; rewrite Hl in Hq.
    + apply elem_of_cons in Hq as [-> | Hq]; [done | by apply elem_of_nil in Hq].
    + apply elem_of_cons in Hq as [-> | Hq]; [done |].
      apply elem_of_cons in Hq as [-> | Hq]; [done | by apply elem_of_nil in Hq].
Qed.

Lemma deleteConversation_of_last_witness :
  activeConversationId sampleStore = Some "c1"
  /\ (forall q, q ∈ conversationsSubject sampleStore -> c_id q = "c1")
  /\ exists st',
       @deleteConversation sampleEnvironment "c1" sampleStore = Returned true st'
       /\ currentConversationSubject st'
          = Some (@newConversation sampleEnvironment None sampleStore)
       /\ activeConversationId st' = Some (@uuidv4 sampleEnvironment (entropy sampleStore))
       /\ ("c1" <> "index" -> "c1" <> @uuidv4 sampleEnvironment (entropy sampleStore) ->
           localStorage st' !! @storageKey sampleEnvironment "c1" = None)
       /\ forall q, q ∈ conversationsSubject st' ->
            q = h_metadata (@newConversation sampleEnvironment None sampleStore).
Proof.
  assert (H1 : activeConversationId sampleStore = Some "c1") by reflexivity.
  assert (H2 : forall q, q ∈ conversationsSubject sampleStore -> c_id q = "c1").
  { intros q Hq. cbn in Hq.
    apply elem_of_cons in Hq as [-> | Hq]; [done | by apply elem_of_nil in Hq]. }
  split; [assumption |]. split; [assumption |].
  exact (@deleteConversation_of_last sampleEnvironment "c1" sampleStore H1 H2).
Defined.

(** X11.  [clearAllConversations] removes the records of the listed
    conversations only: a record that the index does not list stays in
    storage.  It always returns [true] and leaves a new, empty
    conversation active, the only one listed. *)
Theorem clearAllConversations_removes_listed `{Environment} (st : ServiceState) :
  exists st',
    clearAllConversations st = Returned true st'
    /\ currentConversationSubject st' = Some (newConversation None st)
    /\ activeConversationId st' = Some (uuidv4 (entropy st))
    /\ (forall q, q ∈ conversationsSubject st ->
          c_id q <> "index" -> c_id q <> uuidv4 (entropy st) ->
          localStorage st' !! storageKey (c_id q) = None)
    /\ (forall k, (forall q, q ∈ conversationsSubject st -> k <> storageKey (c_id q)) ->
          k <> storageKey "index" -> k <> storageKey (uuidv4 (entropy st)) ->
          localStorage st' !! k = localStorage st !! k)
    /\ forall q, q ∈ conversationsSubject st' -> q = h_metadata (newConversation None st).
Proof.
  unfold clearAllConversations, tryCatch. unfold bind at 1. unfold read at 1.
  unfold bind at 1.
  destruct (removeConversations_returns (conversationsSubject st) st)
    as (st1 & Hrun & (Ha & Hc & Hs & He) & Hclock & Hconv & Hgone & Hkept).
  rewrite Hrun. unfold bind at 1. unfold removeItem, modify. unfold bind at 1.
  unfold bind at 1.
  match goal with
  | |- context [createNewConversation None ?st0] =>
      assert (Hnew : newConversation None st0 = newConversation None st)
        by (apply newConversation_same; [exact Hclock | exact He]);
      destruct (createNewConversation_items None st0)
        as (st' & Hcreate & Hcur & Hact & _ & _ & _ & Hstored & Hlisted)
  end.
  rewrite Hcreate. unfold ret. exists st'. rewrite Hnew in *. project.
  rewrite He in *.
  split; [done |]. split; [done |]. split; [done |]. split; [| split].
  - intros q Hq Hindex Hfresh.
    destruct (Hstored (storageKey (c_id q))) as [-> | [[Heq _] | [Heq _]]].
    + rewrite lookup_delete_ne.
      * apply Hgone. apply list_elem_of_In.
        apply (in_map (fun q => storageKey (c_id q))). by apply list_elem_of_In.
      * intros Heq. by apply storageKey_inj in Heq.
    + by apply storageKey_inj in Heq.
    + by apply storageKey_inj in Heq.
  - intros k Hk Hindex Hfresh.
    destruct (Hstored k) as [-> | [[Heq _] | [Heq _]]]; [| done | done].
    rewrite lookup_delete_ne by done. apply Hkept.
    intros Hin. apply list_elem_of_In, in_map_iff in Hin as (q & Heq & Hq).
    apply list_elem_of_In in Hq. by apply (Hk q).
  - cbn in Hlisted. intros q Hq.
    destruct Hlisted as [Hl | Hl]; rewrite Hl in Hq.
    + apply elem_of_cons in Hq as [-> | Hq]; [done | by apply elem_of_nil in Hq].
    + apply elem_of_cons in Hq as [-> | Hq]; [done |].
      apply elem_of_cons in Hq as [-> | Hq]; [done | by apply elem_of_nil in Hq].
Qed.

Section EditFacts.
Context `{Environment}.

Lemma hasMetadataObject_encode (c : ChatHistory) :
  hasMetadataObject (encodeChatHistory c) = true.
Proof. reflexivity. Qed.

Lemma updateConversationTitle_returns (id title : string) (v : JValue) (c : ChatHistory)
    (st : ServiceState) :
  localStorage st !! storageKey id = Some (JsonText v) ->
  hasMetadataObject v = true ->
  asChatHistory v = Some c ->
  let retitled :=
    mkChatHistory (h_messages c)
      (withUpdatedAt (Date_now (clock st)) (withTitle title (h_metadata c))) in
  let key := storageKey (c_id (h_metadata c)) in
  exists st',
    updateConversationTitle id title st = Returned true st'
    /\ (localStorage_accepts (localStorage st) key (JsonText (encodeChatHistory retitled))
          = true ->
        c_id (h_metadata c) <> "index" ->
        localStorage st' !! key = Some (JsonText (encodeChatHistory retitled)))
    /\ (activeConversationId st = Some id ->
        currentConversationSubject st' = Some retitled)
    /\ (activeConversationId st <> Some id ->
        currentConversationSubject st' = currentConversationSubject st).
Proof.
  intros Hjson Hmeta Htyped retitled key.
  unfold updateConversationTitle, tryCatch. unfold bind at 1. unfold getItem, read.
  rewrite Hjson. unfold bind at 1. unfold parse, ret. unfold bind at 1.
  rewrite Hmeta. unfold bind at 1. rewrite Htyped. unfold cast, ret.
  unfold bind at 1.
  match goal with
  | |- context [saveConversation ?c0 ?st0] =>
      destruct (saveConversation_returns c0 st0)
        as (st1 & Hrun & (Ha & Hc & Hs & He) & Hclock & Hstored & _)
  end.
  project. rewrite Hrun. unfold bind, read, modify, ret. rewrite Ha.
  case_bool_decide as Hactive; eexists; (split; [reflexivity |]); project;
    (split; [exact Hstored |]); split; intros Hact; done || congruence.
Qed.

Lemma setArchiveStatus_accepted (id : string) (archive : bool) (v : JValue)
    (c : ChatHistory) (st : ServiceState) :
  localStorage st !! storageKey id = Some (JsonText v) ->
  hasMetadataObject v = true ->
  asChatHistory v = Some c ->
  let archived :=
    mkChatHistory (h_messages c)
      (withUpdatedAt (Date_now (clock st)) (withArchived archive (h_metadata c))) in
  let key := storageKey (c_id (h_metadata c)) in
  localStorage_accepts (localStorage st) key (JsonText (encodeChatHistory archived))
  = true ->
  exists st',
    setArchiveStatus id archive st = Returned true st'
    /\ (c_id (h_metadata c) <> "index" ->
        localStorage st' !! key = Some (JsonText (encodeChatHistory archived)))
    /\ conversationsSubject st'
       = match findIndex (c_id (h_metadata c)) (conversationsSubject st) with
         | Some index => <[index := h_metadata archived]> (conversationsSubject st)
         | None => conversationsSubject st ++ [h_metadata archived]
         end.
Proof.
  intros Hjson Hmeta Htyped archived key Haccepts.
  unfold setArchiveStatus, tryCatch. unfold bind at 1. unfold getItem, read.
  rewrite Hjson. unfold bind at 1. unfold parse, ret. unfold bind at 1.
  rewrite Hmeta. unfold bind at 1. rewrite Htyped. unfold cast, ret.
  unfold bind at 1.
  match goal with
  | |- context [saveConversation ?c0 ?st0] =>
      destruct (saveConversation_accepted c0 st0 Haccepts)
        as (st1 & Hrun & (Ha & Hc & Hs & He) & Hclock & _ & Hconv & Hstored & _)
  end.
  project. rewrite Hrun. unfold bind, read, modify, ret. rewrite Ha.
  case_bool_decide as Hactive; eexists; (split; [reflexivity |]); project; done.
Qed.

Lemma findIndex_Some (id : string) (conversations : list ConversationMetadata)
    (index : nat) :
  findIndex id conversations = Some index ->
  exists a, conversations !! index = Some a /\ c_id a = id.
Proof.
  unfold findIndex. intros Hfind. apply fmap_Some in Hfind as ([i a] & Hfind & ->).
  apply list_find_Some in Hfind as (Hlookup & Hid & _). by exists a.
Qed.

Lemma findIndex_None (id : string) (conversations : list ConversationMetadata) :
  findIndex id conversations = None ->
  forall q, q ∈ conversations -> c_id q <> id.
Proof.
  unfold findIndex. intros Hfind q Hq. apply fmap_None in Hfind.
  apply list_find_None in Hfind. by apply (proj1 (Forall_forall _ _) Hfind).
Qed.

Lemma matchesFilter_archived (locale : Locale) (q : ConversationMetadata) :
  c_isArchived q = Some true -> matchesFilter locale defaultFilter q = false.
Proof.
  intros Harchived. unfold matchesFilter, searchExcludes, defaultFilter. cbn.
  by rewrite Harchived.
Qed.

Lemma getFilteredConversations_spec (locale : Locale) (f : ConversationFilter)
    (st : ServiceState) (q : ConversationMetadata) :
  q ∈ getFilteredConversations locale f st
  <-> q ∈ conversationsSubject st /\ matchesFilter locale f q = true.
Proof.
  unfold getFilteredConversations. rewrite sort_perm.
  by rewrite !list_elem_of_In, filter_In.
Qed.

End EditFacts.

(** X12.  [updateConversationTitle] on the active conversation publishes
    the stored record under the new title: whatever the published
    conversation held before, such as messages not saved yet, is
    replaced by what storage had. *)
Theorem updateConversationTitle_publishes_stored `{Environment} (id title : string)
    (stored : ChatHistory) (st : ServiceState) :
  localStorage st !! storageKey id = Some (JsonText (encodeChatHistory stored)) ->
  activeConversationId st = Some id ->
  exists st' published,
    updateConversationTitle id title st = Returned true st'
    /\ currentConversationSubject st' = Some published
    /\ h_messages published = h_messages stored
    /\ c_title (h_metadata published) = Some title
    /\ c_updatedAt (h_metadata published) = Date_now (clock st)
    /\ withUpdatedAt 0 (withTitle "" (h_metadata published))
       = withUpdatedAt 0 (withTitle "" (h_metadata stored)).
Proof.
  intros Hstored Hactive.
  destruct (updateConversationTitle_returns id title _ stored st Hstored
              (hasMetadataObject_encode stored) (asChatHistory_encode stored))
    as (st' & Hrun & _ & Hcur & _).
  eexists st', _. split; [done |]. split; [by apply Hcur |]. done.
Qed.

Lemma updateConversationTitle_publishes_stored_witness :
  localStorage
    (withCurrentConversation
       (Some (@appendMessage sampleEnvironment (sampleUserMessage 3) sampleConversation))
       sampleStore)
    !! @storageKey sampleEnvironment "c1"
  = Some (JsonText (encodeChatHistory sampleConversation))
  /\ activeConversationId
       (withCurrentConversation
          (Some (@appendMessage sampleEnvironment (sampleUserMessage 3) sampleConversation))
          sampleStore) = Some "c1"
  /\ exists st' published,
       @updateConversationTitle sampleEnvironment "c1" "Journey"
         (withCurrentConversation
            (Some (@appendMessage sampleEnvironment (sampleUserMessage 3)
                     sampleConversation))
            sampleStore)
       = Returned true st'
       /\ currentConversationSubject st' = Some published
       /\ h_messages published = h_messages sampleConversation
       /\ c_title (h_metadata published) = Some "Journey"
       /\ c_updatedAt (h_metadata published)
          = @Date_now sampleEnvironment
              (clock
                 (withCurrentConversation
                    (Some (@appendMessage sampleEnvironment (sampleUserMessage 3)
                             sampleConversation))
                    sampleStore))
       /\ withUpdatedAt 0 (withTitle "" (h_metadata published))
          = withUpdatedAt 0 (withTitle "" (h_metadata sampleConversation)).
Proof.
  assert (H1 : localStorage
                 (withCurrentConversation
                    (Some (@appendMessage sampleEnvironment (sampleUserMessage 3)
                             sampleConversation))
                    sampleStore)
                 !! @storageKey sampleEnvironment "c1"
               = Some (JsonText (encodeChatHistory sampleConversation))) by reflexivity.
  assert (H2 : activeConversationId
                 (withCurrentConversation
                    (Some (@appendMessage sampleEnvironment (sampleUserMessage 3)
                             sampleConversation))
                    sampleStore) = Some "c1") by reflexivity.
  split; [assumption |]. split; [assumption |].
  exact (@updateConversationTitle_publishes_stored sampleEnvironment "c1" "Journey"
           sampleConversation _ H1 H2).
Defined.

(** X13.  Archiving hides a conversation from the default listing: after
    [setArchiveStatus(id, true)] with an accepted write, on an index that
    lists [id] once, [getFilteredConversations({})] has no entry with
    that identifier. *)
Theorem archived_conversation_is_not_listed `{Environment} (locale : Locale) (id : string)
    (stored : ChatHistory) (st : ServiceState) :
  let archived :=
    mkChatHistory (h_messages stored)
      (withUpdatedAt (Date_now (clock st)) (withArchived true (h_metadata stored))) in
  localStorage st !! storageKey id = Some (JsonText (encodeChatHistory stored)) ->
  c_id (h_metadata stored) = id ->
  listedOnce id (conversationsSubject st) ->
  localStorage_accepts (localStorage st) (storageKey id)
    (JsonText (encodeChatHistory archived)) = true ->
  exists st',
    setArchiveStatus id true st = Returned true st'
    /\ forall q, q ∈ getFilteredConversations locale defaultFilter st' -> c_id q <> id.
Proof.
  intros archived Hstored Hid Honce Haccepts. subst id.
  destruct (setArchiveStatus_accepted _ true _ stored st Hstored
              (hasMetadataObject_encode stored) (asChatHistory_encode stored) Haccepts)
    as (st' & Hrun & _ & Hconv).
  exists st'. split; [done |]. intros q Hq.
  apply getFilteredConversations_spec in Hq as [Hq Hmatches]. rewrite Hconv in Hq.
  intros Hid.
  destruct (findIndex _ (conversationsSubject st)) as [index|] eqn:Hfind.
  - destruct (findIndex_Some _ _ _ Hfind) as (a & Ha & Haid).
    apply list_elem_of_lookup in Hq as [j Hj].
    destruct (decide (j = index)) as [-> | Hne].
    + rewrite list_lookup_insert_eq in Hj by by eapply lookup_lt_Some.
      injection Hj as <-. by rewrite matchesFilter_archived in Hmatches.
    + rewrite list_lookup_insert_ne in Hj by done.
      by specialize (Honce j index q a Hj Ha Hid Haid).
  - apply elem_of_app in Hq as [Hq | Hq].
    + by apply (findIndex_None _ _ Hfind q Hq).
    + apply list_elem_of_singleton in Hq as ->.
      by rewrite matchesFilter_archived in Hmatches.
Qed.

Lemma archived_conversation_is_not_listed_witness :
  localStorage sampleStore !! @storageKey sampleEnvironment "c1"
  = Some (JsonText (encodeChatHistory sampleConversation))
  /\ c_id (h_metadata sampleConversation) = "c1"
  /\ listedOnce "c1" (conversationsSubject sampleStore)
  /\ @localStorage_accepts sampleEnvironment (localStorage sampleStore)
       (@storageKey sampleEnvironment "c1")
       (JsonText
          (encodeChatHistory
             (mkChatHistory (h_messages sampleConversation)
                (withUpdatedAt (@Date_now sampleEnvironment (clock sampleStore))
                   (withArchived true (h_metadata sampleConversation)))))) = true
  /\ exists st',
       @setArchiveStatus sampleEnvironment "c1" true sampleStore = Returned true st'
       /\ forall q, q ∈ getFilteredConversations sampleLocale defaultFilter st' ->
            c_id q <> "c1".
Proof.
  assert (H1 : localStorage sampleStore !! @storageKey sampleEnvironment "c1"
               = Some (JsonText (encodeChatHistory sampleConversation))) by reflexivity.
  assert (H2 : c_id (h_metadata sampleConversation) = "c1") by reflexivity.
  assert (H3 : listedOnce "c1" (conversationsSubject sampleStore)).
  { intros [|i] [|j] a b Ha Hb _ _; done. }
  assert (H4 : @localStorage_accepts sampleEnvironment (localStorage sampleStore)
                 (@storageKey sampleEnvironment "c1")
                 (JsonText
                    (encodeChatHistory
                       (mkChatHistory (h_messages sampleConversation)
                          (withUpdatedAt (@Date_now sampleEnvironment (clock sampleStore))
                             (withArchived true (h_metadata sampleConversation))))))
               = true) by reflexivity.
  repeat (split; [assumption |]).
  exact (@archived_conversation_is_not_listed sampleEnvironment sampleLocale "c1"
           sampleConversation sampleStore H1 H2 H3 H4).
Defined.

(** X14.  Two calls of [toggleFavorite] on a stored conversation, the
    first write accepted, return opposite values: the second call reads
    what the first one wrote. *)
Theorem toggleFavorite_twice `{Environment} (id : string) (stored : ChatHistory)
    (st : ServiceState) :
  let flag := notFlag (c_isFavorite (h_metadata stored)) in
  let toggled :=
    mkChatHistory (h_messages stored)
      (withUpdatedAt (Date_now (clock st)) (withFavorite flag (h_metadata stored))) in
  localStorage st !! storageKey id = Some (JsonText (encodeChatHistory stored)) ->
  c_id (h_metadata stored) = id ->
  id <> "index" ->
  localStorage_accepts (localStorage st) (storageKey id)
    (JsonText (encodeChatHistory toggled)) = true ->
  exists st1 st2,
    toggleFavorite id st = Returned flag st1
    /\ toggleFavorite id st1 = Returned (negb flag) st2.
Proof.
  intros flag toggled Hstored Hid Hindex Haccepts. subst id.
  destruct (toggleFavorite_returns _ _ stored st Hstored
              (hasMetadataObject_encode stored) (asChatHistory_encode stored))
    as (st1 & Hrun1 & Hwritten & _).
  specialize (Hwritten Haccepts Hindex).
  destruct (toggleFavorite_returns _ _ toggled st1 Hwritten
              (hasMetadataObject_encode toggled) (asChatHistory_encode toggled))
    as (st2 & Hrun2 & _).
  exists st1, st2. split; [done |]. rewrite Hrun2. reflexivity.
Qed.

Lemma toggleFavorite_twice_witness :
  localStorage sampleStore !! @storageKey sampleEnvironment "c1"
  = Some (JsonText (encodeChatHistory sampleConversation))
  /\ c_id (h_metadata sampleConversation) = "c1"
  /\ "c1" <> "index"
  /\ @localStorage_accepts sampleEnvironment (localStorage sampleStore)
       (@storageKey sampleEnvironment "c1")
       (JsonText
          (encodeChatHistory
             (mkChatHistory (h_messages sampleConversation)
                (withUpdatedAt (@Date_now sampleEnvironment (clock sampleStore))
                   (withFavorite (notFlag (c_isFavorite (h_metadata sampleConversation)))
                      (h_metadata sampleConversation)))))) = true
  /\ exists st1 st2,
       @toggleFavorite sampleEnvironment "c1" sampleStore
       = Returned (notFlag (c_isFavorite (h_metadata sampleConversation))) st1
       /\ @toggleFavorite sampleEnvironment "c1" st1
          = Returned (negb (notFlag (c_isFavorite (h_metadata sampleConversation)))) st2.
Proof.
  assert (H1 : localStorage sampleStore !! @storageKey sampleEnvironment "c1"
               = Some (JsonText (encodeChatHistory sampleConversation))) by reflexivity.
  assert (H2 : c_id (h_metadata sampleConversation) = "c1") by reflexivity.
  assert (H3 : "c1" <> "index") by done.
  assert (H4 : @localStorage_accepts sampleEnvironment (localStorage sampleStore)
                 (@storageKey sampleEnvironment "c1")
                 (JsonText
                    (encodeChatHistory
                       (mkChatHistory (h_messages sampleConversation)
                          (withUpdatedAt (@Date_now sampleEnvironment (clock sampleStore))
                             (withFavorite
                                (notFlag (c_isFavorite (h_metadata sampleConversation)))
                                (h_metadata sampleConversation)))))) = true)
    by reflexivity.
  repeat (split; [assumption |]).
  exact (@toggleFavorite_twice sampleEnvironment "c1" sampleConversation sampleStore
           H1 H2 H3 H4).
Defined.

Section ImportFacts.
Context `{Environment}.

Lemma importConversation_throws (json : StoredText) (replace : bool) (st : ServiceState) :
  (exists text, json = RawText text)
  \/ (exists v e, json = JsonText v /\ validateConversation v = Raise e) ->
  exists message,
    importConversation json replace st
    = Returned None (withStorageError (Some message) st).
Proof.
  intros [[text ->] | (v & e & -> & Hinvalid)];
    unfold importConversation, tryCatch, bind, parse, liftResult, throw,
      handleStorageError, modify, ret.
  - eauto.
  - rewrite Hinvalid. eauto.
Qed.

End ImportFacts.

(** X15.  An import of text that does not parse, or of a value that the
    validation rejects, returns [null] and only reports on the error
    channel: storage, the index and the active conversation stay as
    they were. *)
Theorem importConversation_failure `{Environment} (json : StoredText) (replace : bool)
    (st : ServiceState) :
  (exists text, json = RawText text)
  \/ (exists v e, json = JsonText v /\ validateConversation v = Raise e) ->
  exists st',
    importConversation json replace st = Returned None st'
    /\ storageErrorSubject st' <> None
    /\ localStorage st' = localStorage st
    /\ conversationsSubject st' = conversationsSubject st
    /\ activeConversationId st' = activeConversationId st
    /\ currentConversationSubject st' = currentConversationSubject st
    /\ saveSubject st' = saveSubject st.
Proof.
  intros Hfail. destruct (importConversation_throws json replace st Hfail) as [message ->].
  eexists. split; [reflexivity |]. by cbn.
Qed.

Lemma importConversation_failure_witness :
  ((exists text, JsonText sampleCorruptRecord = RawText text)
   \/ (exists v e, JsonText sampleCorruptRecord = JsonText v
                   /\ validateConversation v = Raise e))
  /\ exists st',
       @importConversation sampleEnvironment (JsonText sampleCorruptRecord) false sampleStore
       = Returned None st'
       /\ storageErrorSubject st' <> None
       /\ localStorage st' = localStorage sampleStore
       /\ conversationsSubject st' = conversationsSubject sampleStore
       /\ activeConversationId st' = activeConversationId sampleStore
       /\ currentConversationSubject st' = currentConversationSubject sampleStore
       /\ saveSubject st' = saveSubject sampleStore.
Proof.
  assert (H1 : (exists text, JsonText sampleCorruptRecord = RawText text)
               \/ (exists v e, JsonText sampleCorruptRecord = JsonText v
                               /\ validateConversation v = Raise e)).
  { right. eexists _, _. split; reflexivity. }
  split; [assumption |].
  exact (@importConversation_failure sampleEnvironment (JsonText sampleCorruptRecord)
           false sampleStore H1).
Defined.

(** X16.  An import whose identifier is listed already, without
    [replace], is stored under a new identifier and leaves the record of
    the listed conversation as it was. *)
Theorem importConversation_keeps_original `{Environment} (v : JValue) (c : ChatHistory)
    (st : ServiceState) :
  validateConversation v = Ok tt ->
  asChatHistory v = Some c ->
  (exists known, known ∈ conversationsSubject st /\ c_id known = c_id (h_metadata c)) ->
  c_id (h_metadata c) <> uuidv4 (entropy st) ->
  c_id (h_metadata c) <> "index" ->
  exists st',
    importConversation (JsonText v) false st = Returned (Some (uuidv4 (entropy st))) st'
    /\ activeConversationId st' = Some (uuidv4 (entropy st))
    /\ localStorage st' !! storageKey (c_id (h_metadata c))
       = localStorage st !! storageKey (c_id (h_metadata c)).
Proof.
  intros Hvalid Htyped (known & Hknown & Hsame) Hfresh Hindex.
  destruct (importConversation_returns v c false st Hvalid Htyped)
    as (st' & Hrun & _ & Hact & _ & Hothers).
  assert (Hexists : existsb (fun k => String.eqb (c_id k) (c_id (h_metadata c)))
                      (conversationsSubject st) = true).
  { apply existsb_exists. exists known. split; [by apply list_elem_of_In |].
    by apply String.eqb_eq. }
  rewrite Hexists in *. cbn [andb negb renamed c_id] in *.
  exists st'. split; [done |]. split; [done |]. apply Hothers.
  - intros Heq. by apply storageKey_inj in Heq.
  - intros Heq. by apply storageKey_inj in Heq.
Qed.

Lemma importConversation_keeps_original_witness :
  validateConversation (encodeChatHistory sampleConversation) = Ok tt
  /\ asChatHistory (encodeChatHistory sampleConversation) = Some sampleConversation
  /\ (exists known, known ∈ conversationsSubject sampleStore
                    /\ c_id known = c_id (h_metadata sampleConversation))
  /\ c_id (h_metadata sampleConversation) <> @uuidv4 sampleEnvironment (entropy sampleStore)
  /\ c_id (h_metadata sampleConversation) <> "index"
  /\ exists st',
       @importConversation sampleEnvironment
         (JsonText (encodeChatHistory sampleConversation)) false sampleStore
       = Returned (Some (@uuidv4 sampleEnvironment (entropy sampleStore))) st'
       /\ activeConversationId st' = Some (@uuidv4 sampleEnvironment (entropy sampleStore))
       /\ localStorage st' !! @storageKey sampleEnvironment (c_id (h_metadata sampleConversation))
          = localStorage sampleStore
              !! @storageKey sampleEnvironment (c_id (h_metadata sampleConversation)).
Proof.
  assert (H1 : validateConversation (encodeChatHistory sampleConversation) = Ok tt)
    by reflexivity.
  assert (H2 : asChatHistory (encodeChatHistory sampleConversation)
               = Some sampleConversation) by reflexivity.
  assert (H3 : exists known, known ∈ conversationsSubject sampleStore
                             /\ c_id known = c_id (h_metadata sampleConversation)).
  { exists (h_metadata sampleConversation). split; [left | done]. }
  assert (H4 : c_id (h_metadata sampleConversation)
               <> @uuidv4 sampleEnvironment (entropy sampleStore)) by done.
  assert (H5 : c_id (h_metadata sampleConversation) <> "index") by done.
  repeat (split; [assumption |]).
  exact (@importConversation_keeps_original sampleEnvironment
           (encodeChatHistory sampleConversation) sampleConversation sampleStore
           H1 H2 H3 H4 H5).
Defined.

(** X17.  [importMultipleConversations] stops at the first entry that the
    validation rejects and returns the empty list, but does not undo
    what it imported before: with a valid first entry and an invalid
    second one, the first conversation is active and, the write
    accepted, stored. *)
Theorem importMultipleConversations_partial `{Environment} (envelope : JValue)
    (entries : JValue) (first second : JValue) (others : list JValue)
    (c : ChatHistory) (e : JsError) (replace : bool) (st : ServiceState) :
  let collision :=
    existsb (fun known => String.eqb (c_id known) (c_id (h_metadata c)))
      (conversationsSubject st) && negb replace in
  let incoming :=
    if collision then renamed (uuidv4 (entropy st)) (h_metadata c) else h_metadata c in
  let imported :=
    mkChatHistory (h_messages c) (withUpdatedAt (Date_now (clock st)) incoming) in
  envelope <> JNull ->
  prop envelope "conversations" = Some entries ->
  isObject (Some entries) = true ->
  forInValues entries = first :: second :: others ->
  validateConversation first = Ok tt ->
  asChatHistory first = Some c ->
  validateConversation second = Raise e ->
  exists st',
    importMultipleConversations (JsonText envelope) replace st = Returned [] st'
    /\ storageErrorSubject st' <> None
    /\ currentConversationSubject st' = Some imported
    /\ activeConversationId st' = Some (c_id incoming)
    /\ (localStorage_accepts (localStorage st) (storageKey (c_id incoming))
          (JsonText (encodeChatHistory imported)) = true ->
        c_id incoming <> "index" ->
        localStorage st' !! storageKey (c_id incoming)
        = Some (JsonText (encodeChatHistory imported))).
Proof.
  intros collision incoming imported Hnotnull Hprop Hobject Hentries Hfirst Htyped
    Hsecond.
  destruct (importConversation_returns first c replace st Hfirst Htyped)
    as (st1 & Hrun & Hcur & Hact & Hstored & _).
  fold collision in Hrun, Hcur, Hact, Hstored.
  fold incoming in Hrun, Hcur, Hact, Hstored. fold imported in Hcur, Hstored.
  unfold importMultipleConversations, tryCatch. unfold bind at 1. unfold parse, ret.
  unfold bind at 1.
  assert (Hread : (match envelope with
                   | JNull => throw TypeError
                   | _ => fun st0 => Returned (prop envelope "conversations") st0
                   end) st = Returned (Some entries) st).
  { rewrite Hprop. by destruct envelope. }
  rewrite Hread. unfold bind at 1.
  assert (Htruthy : truthy (Some entries) = true).
  { by destruct entries. }
  rewrite Htruthy, Hobject. cbn [negb orb]. unfold bind at 1.
  cbn [from_option]. rewrite Hentries. cbn [importEach].
  unfold bind at 1. unfold bind at 1. rewrite Hfirst. unfold liftResult, ret.
  unfold bind at 1. rewrite Hrun. unfold bind at 1. rewrite Hsecond.
  unfold throw, handleStorageError, bind, modify, ret.
  eexists. split; [reflexivity |]. project. done.
Qed.

Lemma importMultipleConversations_partial_witness :
  JObj [("version", JStr "1.0.0-dev");
        ("timestamp", JNum 1700000000000);
        ("conversations",
         JObj [("c2", encodeChatHistory sampleOlderConversation);
               ("c9", sampleCorruptRecord)])] <> JNull
  /\ prop (JObj [("version", JStr "1.0.0-dev");
                 ("timestamp", JNum 1700000000000);
                 ("conversations",
                  JObj [("c2", encodeChatHistory sampleOlderConversation);
                        ("c9", sampleCorruptRecord)])]) "conversations"
     = Some (JObj [("c2", encodeChatHistory sampleOlderConversation);
                   ("c9", sampleCorruptRecord)])
  /\ isObject (Some (JObj [("c2", encodeChatHistory sampleOlderConversation);
                           ("c9", sampleCorruptRecord)])) = true
  /\ forInValues (JObj [("c2", encodeChatHistory sampleOlderConversation);
                        ("c9", sampleCorruptRecord)])
     = encodeChatHistory sampleOlderConversation :: sampleCorruptRecord :: []
  /\ validateConversation (encodeChatHistory sampleOlderConversation) = Ok tt
  /\ asChatHistory (encodeChatHistory sampleOlderConversation)
     = Some sampleOlderConversation
  /\ validateConversation sampleCorruptRecord
     = Raise (Error "Invalid conversation metadata")
  /\ exists st',
       @importMultipleConversations sampleEnvironment sampleBatch false sampleStore
       = Returned [] st'
       /\ storageErrorSubject st' <> None
       /\ currentConversationSubject st'
          = Some (mkChatHistory (h_messages sampleOlderConversation)
                    (withUpdatedAt (@Date_now sampleEnvironment (clock sampleStore))
                       (h_metadata sampleOlderConversation)))
       /\ activeConversationId st' = Some "c2"
       /\ (@localStorage_accepts sampleEnvironment (localStorage sampleStore)
             (@storageKey sampleEnvironment "c2")
             (JsonText
                (encodeChatHistory
                   (mkChatHistory (h_messages sampleOlderConversation)
                      (withUpdatedAt (@Date_now sampleEnvironment (clock sampleStore))
                         (h_metadata sampleOlderConversation))))) = true ->
           "c2" <> "index" ->
           localStorage st' !! @storageKey sampleEnvironment "c2"
           = Some (JsonText
                     (encodeChatHistory
                        (mkChatHistory (h_messages sampleOlderConversation)
                           (withUpdatedAt (@Date_now sampleEnvironment (clock sampleStore))
                              (h_metadata sampleOlderConversation)))))).
Proof.
  assert (H1 : JObj [("version", JStr "1.0.0-dev");
                     ("timestamp", JNum 1700000000000);
                     ("conversations",
                      JObj [("c2", encodeChatHistory sampleOlderConversation);
                            ("c9", sampleCorruptRecord)])] <> JNull) by done.
  assert (H2 : prop (JObj [("version", JStr "1.0.0-dev");
                           ("timestamp", JNum 1700000000000);
                           ("conversations",
                            JObj [("c2", encodeChatHistory sampleOlderConversation);
                                  ("c9", sampleCorruptRecord)])]) "conversations"
               = Some (JObj [("c2", encodeChatHistory sampleOlderConversation);
                             ("c9", sampleCorruptRecord)])) by reflexivity.
  assert (H3 : isObject (Some (JObj [("c2", encodeChatHistory sampleOlderConversation);
                                     ("c9", sampleCorruptRecord)])) = true)
    by reflexivity.
  assert (H4 : forInValues (JObj [("c2", encodeChatHistory sampleOlderConversation);
                                  ("c9", sampleCorruptRecord)])
               = encodeChatHistory sampleOlderConversation :: sampleCorruptRecord :: [])
    by reflexivity.
  assert (H5 : validateConversation (encodeChatHistory sampleOlderConversation) = Ok tt)
    by reflexivity.
  assert (H6 : asChatHistory (encodeChatHistory sampleOlderConversation)
               = Some sampleOlderConversation) by reflexivity.
  assert (H7 : validateConversation sampleCorruptRecord
               = Raise (Error "Invalid conversation metadata")) by reflexivity.
  repeat (split; [assumption |]).
  exact (@importMultipleConversations_partial sampleEnvironment _ _ _ _ []
           sampleOlderConversation _ false sampleStore H1 H2 H3 H4 H5 H6 H7).
Defined.

Section ExportFacts.
Context `{Environment}.

Lemma assoc_setProperty (k k' : string) (v : JValue) (fields : list (string * JValue)) :
  assoc k (setProperty k' v fields)
  = if String.eqb k k' then Some v else assoc k fields.
Proof.
  induction fields as [|[k0 v0] rest IH]; cbn.
  - by destruct (String.eqb k k').
  - destruct (String.eqb_spec k' k0) as [-> | Hne]; cbn.
    + by destruct (String.eqb k k0).
    + destruct (String.eqb_spec k k0) as [-> | Hne'].
      * destruct (String.eqb_spec k0 k'); [by subst | done].
      * done.
Qed.

Lemma assoc_assign (k k' : string) (v : JValue) (fields : list (string * JValue)) :
  assoc k (assign k' v fields)
  = if String.eqb k' "__proto__" then assoc k fields
    else if String.eqb k k' then Some v else assoc k fields.
Proof.
  unfold assign. destruct (String.eqb k' "__proto__"); [done |].
  apply assoc_setProperty.
Qed.

(** The loop of [exportAllConversations] when every record it reads
    parses: the object it builds, read by key. *)
Lemma collectExport_returns (conversations : list ConversationMetadata)
    (exportData : list (string * JValue)) (st : ServiceState) :
  (forall q text, q ∈ conversations ->
     localStorage st !! storageKey (c_id q) = Some (RawText text) -> text = "") ->
  exists data,
    collectExport conversations exportData st = Returned data st
    /\ (forall q v, q ∈ conversations ->
          localStorage st !! storageKey (c_id q) = Some (JsonText v) ->
          c_id q <> "__proto__" ->
          assoc (c_id q) data = Some v)
    /\ (forall k, k ∉ map c_id conversations -> assoc k data = assoc k exportData)
    /\ (forall k v, assoc k data = Some v ->
          assoc k exportData = Some v
          \/ exists q, q ∈ conversations /\ c_id q = k
                       /\ localStorage st !! storageKey k = Some (JsonText v)).
Proof.
  revert exportData. induction conversations as [|m rest IH]; intros exportData Hparse.
  - exists exportData. split; [done |]. split; [| split].
    + intros q v Hq. by apply elem_of_nil in Hq.
    + done.
    + intros k v Hk. by left.
  - cbn [collectExport]. unfold bind at 1. unfold getItem, read.
    assert (Hrest : forall q text, q ∈ rest ->
              localStorage st !! storageKey (c_id q) = Some (RawText text) -> text = "").
    { intros q text Hq. apply Hparse. by right. }
    assert (Hskip : forall data,
              collectExport rest exportData st = Returned data st
              /\ (forall q v, q ∈ rest ->
                    localStorage st !! storageKey (c_id q) = Some (JsonText v) ->
                    c_id q <> "__proto__" -> assoc (c_id q) data = Some v)
              /\ (forall k, k ∉ map c_id rest -> assoc k data = assoc k exportData)
              /\ (forall k v, assoc k data = Some v ->
                    assoc k exportData = Some v
                    \/ exists q, q ∈ rest /\ c_id q = k
                                 /\ localStorage st !! storageKey k = Some (JsonText v)) ->
              (forall v, localStorage st !! storageKey (c_id m) <> Some (JsonText v)) ->
              collectExport rest exportData st = Returned data st
              /\ (forall q v, q ∈ m :: rest ->
                    localStorage st !! storageKey (c_id q) = Some (JsonText v) ->
                    c_id q <> "__proto__" -> assoc (c_id q) data = Some v)
              /\ (forall k, k ∉ map c_id (m :: rest) -> assoc k data = assoc k exportData)
              /\ (forall k v, assoc k data = Some v ->
                    assoc k exportData = Some v
                    \/ exists q, q ∈ m :: rest /\ c_id q = k
                                 /\ localStorage st !! storageKey k = Some (JsonText v))).
    { intros data (Hrun & Hlisted & Hunlisted & Honly) Hnone.
      split; [done |]. split; [| split].
      - intros q v Hq Hv Hproto. apply elem_of_cons in Hq as [-> | Hq];
          [by apply Hnone in Hv | by apply Hlisted].
      - intros k Hk. cbn [map] in Hk. apply not_elem_of_cons in Hk as [_ Hk].
        by apply Hunlisted.
      - intros k v Hk. destruct (Honly k v Hk) as [? | (q & Hq & ? & ?)]; [by left |].
        right. exists q. split; [by right | done]. }
    destruct (localStorage st !! storageKey (c_id m)) as [[text | v]|] eqn:Hrecord.
    + rewrite (Hparse m text) in * by (done || by left).
      destruct (IH exportData Hrest) as (data & Hdata).
      exists data. by apply Hskip.
    + unfold bind at 1. unfold parse, ret.
      destruct (IH (assign (c_id m) v exportData) Hrest)
        as (data & Hrun & Hlisted & Hunlisted & Honly).
      exists data. split; [done |]. split; [| split].
      * intros q w Hq Hw Hproto. apply elem_of_cons in Hq as [-> | Hq];
          [| by apply Hlisted].
        rewrite Hrecord in Hw. injection Hw as <-.
        destruct (decide (c_id m ∈ map c_id rest)) as [Hin | Hout].
        -- apply list_elem_of_In, in_map_iff in Hin as (q & Hid & Hq).
           apply list_elem_of_In in Hq. rewrite <- Hid. apply Hlisted; [done | |].
           ++ by rewrite Hid.
           ++ by rewrite Hid.
        -- rewrite (Hunlisted _ Hout), assoc_assign.
           by rewrite (proj2 (String.eqb_neq _ _) Hproto), String.eqb_refl.
      * intros k Hk. cbn [map] in Hk. apply not_elem_of_cons in Hk as [Hne Hk].
        rewrite (Hunlisted k Hk), assoc_assign.
        destruct (String.eqb (c_id m) "__proto__"); [done |].
        by rewrite (proj2 (String.eqb_neq _ _) Hne).
      * intros k w Hk. destruct (Honly k w Hk) as [Hassigned | (q & Hq & ? & ?)].
        -- rewrite assoc_assign in Hassigned.
           destruct (String.eqb (c_id m) "__proto__"); [by left |].
           destruct (String.eqb_spec k (c_id m)) as [-> | Hne]; [| by left].
           right. exists m. split; [by left |]. injection Hassigned as <-. done.
        -- right. exists q. split; [by right | done].
    + destruct (IH exportData Hrest) as (data & Hdata).
      exists data. by apply Hskip.
Qed.

(** The loop throws as soon as it reads a record that does not parse. *)
Lemma collectExport_throws (conversations : list ConversationMetadata)
    (exportData : list (string * JValue)) (st : ServiceState) :
  (exists q a text, q ∈ conversations
     /\ localStorage st !! storageKey (c_id q) = Some (RawText (String a text))) ->
  collectExport conversations exportData st = Thrown SyntaxError st.
Proof.
  revert exportData. induction conversations as [|m rest IH];
    intros exportData (q & a & text & Hq & Hraw).
  - by apply elem_of_nil in Hq.
  - cbn [collectExport]. unfold bind at 1. unfold getItem, read.
    destruct (localStorage st !! storageKey (c_id m)) as [[[|b raw] | v]|] eqn:Hrecord.
    + apply IH. apply elem_of_cons in Hq as [-> | Hq]; [congruence |].
      by exists q, a, text.
    + done.
    + unfold bind at 1. unfold parse, ret. apply IH.
      apply elem_of_cons in Hq as [-> | Hq]; [congruence |]. by exists q, a, text.
    + apply IH. apply elem_of_cons in Hq as [-> | Hq]; [congruence |].
      by exists q, a, text.
Qed.

End ExportFacts.

(** X18.  [exportAllConversations] exports the listed conversations that
    have a record, each under its identifier with the value stored, and
    nothing else: a record the index does not list is left out.  It does
    not change the store. *)
Theorem exportAllConversations_exports_listed `{Environment} (version : string)
    (st : ServiceState) :
  (forall q text, q ∈ conversationsSubject st ->
     localStorage st !! storageKey (c_id q) = Some (RawText text) -> text = "") ->
  exists st' data,
    exportAllConversations version st
    = Returned
        (JsonText (JObj [("version", JStr version);
                         ("timestamp", JNum (Date_now (clock st)));
                         ("conversations", JObj data)])) st'
    /\ (forall q v, q ∈ conversationsSubject st ->
          localStorage st !! storageKey (c_id q) = Some (JsonText v) ->
          c_id q <> "__proto__" ->
          assoc (c_id q) data = Some v)
    /\ (forall k v, assoc k data = Some v ->
          exists q, q ∈ conversationsSubject st /\ c_id q = k
                    /\ localStorage st !! storageKey k = Some (JsonText v))
    /\ localStorage st' = localStorage st
    /\ conversationsSubject st' = conversationsSubject st
    /\ currentConversationSubject st' = currentConversationSubject st
    /\ storageErrorSubject st' = storageErrorSubject st.
Proof.
  intros Hparse.
  destruct (collectExport_returns (conversationsSubject st) [] st Hparse)
    as (data & Hrun & Hlisted & _ & Honly).
  unfold exportAllConversations, tryCatch. unfold bind at 1. unfold read at 1.
  unfold bind at 1. rewrite Hrun. unfold bind, dateNow, ret.
  eexists _, data. split; [reflexivity |]. split; [done |]. split; [| done].
  intros k v Hk. by destruct (Honly k v Hk) as [? | ?].
Qed.

Lemma exportAllConversations_exports_listed_witness :
  (forall q text, q ∈ conversationsSubject sampleStoreWithLostRecord ->
     localStorage sampleStoreWithLostRecord !! @storageKey sampleEnvironment (c_id q)
     = Some (RawText text) -> text = "")
  /\ exists st' data,
       @exportAllConversations sampleEnvironment "1.0.0-dev" sampleStoreWithLostRecord
       = Returned
           (JsonText
              (JObj [("version", JStr "1.0.0-dev");
                     ("timestamp",
                      JNum (@Date_now sampleEnvironment (clock sampleStoreWithLostRecord)));
                     ("conversations", JObj data)])) st'
       /\ (forall q v, q ∈ conversationsSubject sampleStoreWithLostRecord ->
             localStorage sampleStoreWithLostRecord !! @storageKey sampleEnvironment (c_id q)
             = Some (JsonText v) ->
             c_id q <> "__proto__" ->
             assoc (c_id q) data = Some v)
       /\ (forall k v, assoc k data = Some v ->
             exists q, q ∈ conversationsSubject sampleStoreWithLostRecord /\ c_id q = k
                       /\ localStorage sampleStoreWithLostRecord
                            !! @storageKey sampleEnvironment k = Some (JsonText v))
       /\ localStorage st' = localStorage sampleStoreWithLostRecord
       /\ conversationsSubject st' = conversationsSubject sampleStoreWithLostRecord
       /\ currentConversationSubject st'
          = currentConversationSubject sampleStoreWithLostRecord
       /\ storageErrorSubject st' = storageErrorSubject sampleStoreWithLostRecord.
Proof.
  assert (H1 : forall q text, q ∈ conversationsSubject sampleStoreWithLostRecord ->
                 localStorage sampleStoreWithLostRecord
                   !! @storageKey sampleEnvironment (c_id q)
                 = Some (RawText text) -> text = "").
  { intros q text Hq. cbn in Hq.
    apply elem_of_cons in Hq as [-> | Hq]; [done |].
    apply elem_of_cons in Hq as [-> | Hq]; [done | by apply elem_of_nil in Hq]. }
  split; [assumption |].
  exact (@exportAllConversations_exports_listed sampleEnvironment "1.0.0-dev"
           sampleStoreWithLostRecord H1).
Defined.

(** X19.  One listed record that does not parse makes the whole export
    fail: [exportAllConversations] returns the empty string and reports
    on the error channel. *)
Theorem exportAllConversations_all_or_nothing `{Environment} (version : string)
    (st : ServiceState) (q : ConversationMetadata) (text : string) :
  q ∈ conversationsSubject st ->
  localStorage st !! storageKey (c_id q) = Some (RawText text) ->
  text <> "" ->
  exportAllConversations version st
  = Returned (RawText "")
      (withStorageError
         (Some ("Failed to export all conversations: " +:+ error_message SyntaxError)) st).
Proof.
  intros Hq Hraw Hnonempty. destruct text as [|a text]; [done |].
  unfold exportAllConversations, tryCatch. unfold bind at 1. unfold read at 1.
  unfold bind at 1.
  rewrite (collectExport_throws (conversationsSubject st) [] st) by by exists q, a, text.
  done.
Qed.

Lemma exportAllConversations_all_or_nothing_witness :
  h_metadata sampleConversation ∈ conversationsSubject sampleStoreWithTruncatedRecord
  /\ localStorage sampleStoreWithTruncatedRecord
       !! @storageKey sampleEnvironment (c_id (h_metadata sampleConversation))
     = Some (RawText "{oops")
  /\ "{oops" <> ""
  /\ @exportAllConversations sampleEnvironment "1.0.0-dev" sampleStoreWithTruncatedRecord
     = Returned (RawText "")
         (withStorageError
            (Some ("Failed to export all conversations: "
                   +:+ @error_message sampleEnvironment SyntaxError))
            sampleStoreWithTruncatedRecord).
Proof.
  assert (H1 : h_metadata sampleConversation
               ∈ conversationsSubject sampleStoreWithTruncatedRecord) by left.
  assert (H2 : localStorage sampleStoreWithTruncatedRecord
                 !! @storageKey sampleEnvironment (c_id (h_metadata sampleConversation))
               = Some (RawText "{oops")) by reflexivity.
  assert (H3 : "{oops" <> "") by done.
  repeat (split; [assumption |]).
  exact (@exportAllConversations_all_or_nothing sampleEnvironment "1.0.0-dev"
           sampleStoreWithTruncatedRecord (h_metadata sampleConversation) "{oops"
           H1 H2 H3).
Defined.

Section QueryFacts.

Lemma slice_forward {A : Type} (start end_ : Z) (l : list A) :
  0 <= start -> start <= end_ ->
  slice start end_ l = take (Z.to_nat (end_ - start)) (drop (Z.to_nat start) l).
Proof.
  intros Hstart Hend. unfold slice.
  rewrite (proj2 (Z.ltb_ge start 0)) by lia. rewrite (proj2 (Z.ltb_ge end_ 0)) by lia.
  destruct (decide (Z.of_nat (length l) <= start)) as [Hpast | Hwithin].
  - rewrite (Z.min_r start) by lia. rewrite (Z.min_r end_) by lia.
    rewrite (drop_ge l (Z.to_nat start)) by lia.
    rewrite (drop_ge l (Z.to_nat (Z.of_nat (length l)))) by lia.
    by rewrite !take_nil.
  - rewrite (Z.min_l start) by lia.
    destruct (decide (end_ <= Z.of_nat (length l))) as [Hshort | Hlong].
    + by rewrite (Z.min_l end_) by lia.
    + rewrite (Z.min_r end_) by lia.
      rewrite !take_ge; [done | |]; rewrite length_drop; lia.
Qed.

Lemma getPaginatedMessages_page (page : nat) (pageSize : Z) (st : ServiceState)
    (c : ChatHistory) :
  currentConversationSubject st = Some c ->
  0 < pageSize ->
  getPaginatedMessages (Z.of_nat page) pageSize st
  = take (Z.to_nat pageSize) (drop (page * Z.to_nat pageSize) (h_messages c)).
Proof.
  intros Hcur Hsize. unfold getPaginatedMessages. rewrite Hcur.
  rewrite slice_forward by nia. f_equal; [f_equal; lia |]. f_equal. nia.
Qed.

Lemma matchesFilter_spec (locale : Locale) (f : ConversationFilter)
    (q : ConversationMetadata) :
  matchesFilter locale f q = true <-> passesSearch locale f q /\ passesFlags f q.
Proof.
  unfold matchesFilter, passesSearch, passesFlags, searchExcludes.
  destruct (searchTerm f) as [[|a term]|], (c_title q) as [[|b title]|],
    (onlyFavorites f) as [[]|], (c_isFavorite q) as [[]|],
    (includeArchived f) as [[]|], (c_isArchived q) as [[]|]; cbn;
    try (destruct (includes _ _) eqn:Hincludes; cbn);
    split;
    try (intros _; split; [intros ? ? [= <-] ? [= <-] ?; done || congruence
                          | split; done || congruence]);
    try done;
    try (intros [Hsearch [Hfav Harch]];
         first [ by specialize (Hfav eq_refl)
               | by specialize (Harch eq_refl)
               | specialize (Hsearch _ _ eq_refl ltac:(done) eq_refl ltac:(done));
                 congruence ]).
Qed.

Lemma compareConversations_sorted (locale : Locale) (f : ConversationFilter)
    (l : list ConversationMetadata) :
  sortBy f <> Some SortTitle ->
  StronglySorted (inListingOrder f) (sort (compareConversations locale f) l).
Proof.
  intros Hkey.
  eapply sorted_weaken; [| apply sort_sorted].
  - intros a b. unfold compareConversations, inListingOrder.
    destruct (sortBy f) as [[]|], (sortDirection f) as [[]|]; try done; cbn; lia.
  - intros a b. unfold compareConversations.
    destruct (sortBy f) as [[]|], (sortDirection f) as [[]|]; try done; cbn; lia.
  - intros a b c. unfold compareConversations.
    destruct (sortBy f) as [[]|], (sortDirection f) as [[]|]; try done; cbn; lia.
Qed.

End QueryFacts.

(** X20.  The pages of [getPaginatedMessages] neither overlap nor skip a
    message: the first [n] pages, put end to end, are the first
    [n * pageSize] messages of the active conversation, and a page past
    the end is empty. *)
Theorem getPaginatedMessages_pages (n : nat) (pageSize : Z) (st : ServiceState)
    (c : ChatHistory) :
  currentConversationSubject st = Some c ->
  0 < pageSize ->
  concat (map (fun page => getPaginatedMessages (Z.of_nat page) pageSize st) (seq 0 n))
  = take (n * Z.to_nat pageSize) (h_messages c).
Proof.
  intros Hcur Hsize. induction n as [|n IH]; [done |].
  rewrite seq_S, map_app, concat_app, IH. cbn [map concat Nat.add].
  rewrite app_nil_r, (getPaginatedMessages_page n pageSize st c Hcur Hsize).
  rewrite take_take_drop. f_equal. lia.
Qed.

Lemma getPaginatedMessages_pages_witness :
  currentConversationSubject sampleStore = Some sampleConversation
  /\ 0 < 1
  /\ concat (map (fun page => getPaginatedMessages (Z.of_nat page) 1 sampleStore) (seq 0 3))
     = take (3 * Z.to_nat 1) (h_messages sampleConversation).
Proof.
  assert (H1 : currentConversationSubject sampleStore = Some sampleConversation)
    by reflexivity.
  assert (H2 : 0 < 1) by lia.
  repeat (split; [assumption |]).
  exact (getPaginatedMessages_pages 3 1 sampleStore sampleConversation H1 H2).
Defined.

(** X21.  [getFilteredConversations] lists exactly the index entries
    that pass the filter.  A search term only excludes conversations
    with a title that does not contain it, case ignored: a conversation
    without a title passes every search.  Favorites only when asked for,
    archived ones only when asked for. *)
Theorem getFilteredConversations_entries (locale : Locale) (f : ConversationFilter)
    (st : ServiceState) (q : ConversationMetadata) :
  q ∈ getFilteredConversations locale f st
  <-> q ∈ conversationsSubject st /\ passesSearch locale f q /\ passesFlags f q.
Proof.
  unfold getFilteredConversations. rewrite sort_perm.
  rewrite !list_elem_of_In, filter_In, matchesFilter_spec. done.
Qed.

(** X22.  [getFilteredConversations] keeps every matching entry as often
    as the index lists it and, sorted by a time stamp, returns the
    entries in the order asked for: by [updatedAt] unless [createdAt] is
    asked for, descending unless ascending is asked for. *)
Theorem getFilteredConversations_sorted (locale : Locale) (f : ConversationFilter)
    (st : ServiceState) :
  sortBy f <> Some SortTitle ->
  StronglySorted (inListingOrder f) (getFilteredConversations locale f st)
  /\ getFilteredConversations locale f st
     ≡ₚ List.filter (matchesFilter locale f) (conversationsSubject st).
Proof.
  intros Hkey. split.
  - by apply compareConversations_sorted.
  - apply sort_perm.
Qed.

Lemma getFilteredConversations_sorted_witness :
  sortBy sampleFilter <> Some SortTitle
  /\ StronglySorted (inListingOrder sampleFilter)
       (getFilteredConversations sampleLocale sampleFilter sampleStoreOfTwo)
  /\ getFilteredConversations sampleLocale sampleFilter sampleStoreOfTwo
     ≡ₚ List.filter (matchesFilter sampleLocale sampleFilter)
          (conversationsSubject sampleStoreOfTwo).
Proof.
  assert (H1 : sortBy sampleFilter <> Some SortTitle) by done.
  split; [assumption |].
  exact (getFilteredConversations_sorted sampleLocale sampleFilter sampleStoreOfTwo H1).
Defined.

Section StartupFacts.
Context `{Environment}.

Lemma asConversationMetadata_encode_all (conversations : list ConversationMetadata) :
  mapM asConversationMetadata (map encodeMetadata conversations) = Some conversations.
Proof.
  induction conversations as [|c rest IH]; [done |].
  cbn [map mapM]. rewrite asConversationMetadata_encode. cbn. by rewrite IH.
Qed.

Lemma loadAllConversationsMetadata_stored (conversations : list ConversationMetadata)
    (st : ServiceState) :
  localStorage st !! storageKey "index"
  = Some (JsonText (JArr (map encodeMetadata conversations))) ->
  loadAllConversationsMetadata st = Returned conversations st.
Proof.
  intros Hindex.
  unfold loadAllConversationsMetadata, tryCatch, bind, getItem, read, parse, ret.
  rewrite Hindex. by rewrite asConversationMetadata_encode_all.
Qed.

(** Without a usable index the list is empty; a malformed index is
    reported on the error channel. *)
Lemma loadAllConversationsMetadata_unusable (st : ServiceState) :
  localStorage st !! storageKey "index" = None
  \/ (exists text, localStorage st !! storageKey "index" = Some (RawText text))
  \/ (exists v, localStorage st !! storageKey "index" = Some (JsonText v)
                /\ isArray (Some v) = false)
  \/ localStorage st !! storageKey "index" = Some (JsonText (JArr [])) ->
  exists st',
    loadAllConversationsMetadata st = Returned [] st'
    /\ sameSession st st'
    /\ clock st' = clock st
    /\ localStorage st' = localStorage st.
Proof.
  intros [Hnone | [[text Hraw] | [(v & Hjson & Harray) | Hempty]]];
    unfold loadAllConversationsMetadata, tryCatch, bind, getItem, read, parse, throw,
      handleStorageError, modify, ret.
  - rewrite Hnone. eexists. split; [reflexivity |]. by repeat split.
  - rewrite Hraw. destruct text; eexists; (split; [reflexivity |]); by repeat split.
  - rewrite Hjson. destruct v; try done; eexists; (split; [reflexivity |]);
      by repeat split.
  - rewrite Hempty. eexists. split; [reflexivity |]. by repeat split.
Qed.

End StartupFacts.

(** X23.  The index that [saveConversationsIndex] writes is the list
    that [loadAllConversationsMetadata] reads: entries, order and
    duplicates are kept. *)
Theorem index_round_trip `{Environment} (conversations : list ConversationMetadata)
    (st : ServiceState) :
  localStorage_accepts (localStorage st) (storageKey "index")
    (JsonText (JArr (map encodeMetadata conversations))) = true ->
  exists st1,
    saveConversationsIndex conversations st = Returned tt st1
    /\ loadAllConversationsMetadata st1 = Returned conversations st1.
Proof.
  intros Haccepts.
  unfold saveConversationsIndex, tryCatch, setItem. rewrite Haccepts.
  eexists. split; [reflexivity |].
  apply loadAllConversationsMetadata_stored. cbn. by rewrite lookup_insert_eq.
Qed.

Lemma index_round_trip_witness :
  @localStorage_accepts sampleEnvironment (localStorage sampleStoreOfTwo)
    (@storageKey sampleEnvironment "index")
    (JsonText (JArr (map encodeMetadata (conversationsSubject sampleStoreOfTwo)))) = true
  /\ exists st1,
       @saveConversationsIndex sampleEnvironment (conversationsSubject sampleStoreOfTwo)
         sampleStoreOfTwo = Returned tt st1
       /\ @loadAllConversationsMetadata sampleEnvironment st1
          = Returned (conversationsSubject sampleStoreOfTwo) st1.
Proof.
  assert (H1 : @localStorage_accepts sampleEnvironment (localStorage sampleStoreOfTwo)
                 (@storageKey sampleEnvironment "index")
                 (JsonText (JArr (map encodeMetadata
                                    (conversationsSubject sampleStoreOfTwo)))) = true)
    by reflexivity.
  split; [assumption |].
  exact (@index_round_trip sampleEnvironment (conversationsSubject sampleStoreOfTwo)
           sampleStoreOfTwo H1).
Defined.

(** X24.  Start-up without a usable index, be it missing, unparsable,
    not an array or empty, creates a conversation: afterwards a new,
    empty conversation is active and it is the only one listed. *)
Theorem initialize_without_index `{Environment} (st : ServiceState) :
  localStorage st !! storageKey "index" = None
  \/ (exists text, localStorage st !! storageKey "index" = Some (RawText text))
  \/ (exists v, localStorage st !! storageKey "index" = Some (JsonText v)
                /\ isArray (Some v) = false)
  \/ localStorage st !! storageKey "index" = Some (JsonText (JArr [])) ->
  exists st',
    initialize st = Returned tt st'
    /\ currentConversationSubject st' = Some (newConversation None st)
    /\ activeConversationId st' = Some (uuidv4 (entropy st))
    /\ forall q, q ∈ conversationsSubject st' -> q = h_metadata (newConversation None st).
Proof.
  intros Hunusable.
  destruct (loadAllConversationsMetadata_unusable st Hunusable)
    as (st1 & Hload & (Ha & Hc & Hs & He) & Hclock & _).
  unfold initialize, tryCatch. unfold bind at 1. rewrite Hload.
  unfold bind at 1. unfold modify. unfold bind at 1.
  match goal with
  | |- context [createNewConversation None ?st0] =>
      assert (Hnew : newConversation None st0 = newConversation None st)
        by (apply newConversation_same; [exact Hclock | exact He]);
      destruct (createNewConversation_items None st0)
        as (st' & Hcreate & Hcur & Hact & _ & _ & _ & _ & Hlisted)
  end.
  rewrite Hcreate. unfold ret. exists st'. rewrite Hnew in *. project.
  rewrite He in *. split; [done |]. split; [done |]. split; [done |].
  cbn in Hlisted. intros q Hq.
  destruct Hlisted as [Hl | Hl]; rewrite Hl in Hq.
  - apply elem_of_cons in Hq as [-> | Hq]; [done | by apply elem_of_nil in Hq].
  - apply elem_of_cons in Hq as [-> | Hq]; [done |].
    apply elem_of_cons in Hq as [-> | Hq]; [done | by apply elem_of_nil in Hq].
Qed.

Lemma initialize_without_index_witness :
  (localStorage (initialState ∅) !! @storageKey sampleEnvironment "index" = None
   \/ (exists text, localStorage (initialState ∅) !! @storageKey sampleEnvironment "index"
                    = Some (RawText text))
   \/ (exists v, localStorage (initialState ∅) !! @storageKey sampleEnvironment "index"
                 = Some (JsonText v)
                 /\ isArray (Some v) = false)
   \/ localStorage (initialState ∅) !! @storageKey sampleEnvironment "index"
      = Some (JsonText (JArr [])))
  /\ exists st',
       @initialize sampleEnvironment (initialState ∅) = Returned tt st'
       /\ currentConversationSubject st'
          = Some (@newConversation sampleEnvironment None (initialState ∅))
       /\ activeConversationId st'
          = Some (@uuidv4 sampleEnvironment (entropy (initialState ∅)))
       /\ forall q, q ∈ conversationsSubject st' ->
            q = h_metadata (@newConversation sampleEnvironment None (initialState ∅)).
Proof.
  assert (H1 : localStorage (initialState ∅) !! @storageKey sampleEnvironment "index" = None
               \/ (exists text,
                     localStorage (initialState ∅) !! @storageKey sampleEnvironment "index"
                     = Some (RawText text))
               \/ (exists v,
                     localStorage (initialState ∅) !! @storageKey sampleEnvironment "index"
                     = Some (JsonText v)
                     /\ isArray (Some v) = false)
               \/ localStorage (initialState ∅) !! @storageKey sampleEnvironment "index"
                  = Some (JsonText (JArr []))).
  { left. reflexivity. }
  split; [assumption |].
  exact (@initialize_without_index sampleEnvironment (initialState ∅) H1).
Defined.

(** X25.  Start-up does not fall back: when the record of the most
    recently updated listed conversation is missing, [initialize]
    reports the failed load and leaves the service as it was, without an
    active conversation if it had none, though other listed
    conversations could be read. *)
Theorem initialize_with_lost_record `{Environment}
    (conversations : list ConversationMetadata) (p : ConversationMetadata)
    (st : ServiceState) :
  localStorage st !! storageKey "index"
  = Some (JsonText (JArr (map encodeMetadata conversations))) ->
  p ∈ conversations ->
  (forall q, q ∈ conversations -> q = p \/ c_updatedAt q < c_updatedAt p) ->
  c_id p <> "index" ->
  localStorage st !! storageKey (c_id p) = None ->
  exists st',
    initialize st = Returned tt st'
    /\ currentConversationSubject st' = currentConversationSubject st
    /\ activeConversationId st' = activeConversationId st
    /\ storageErrorSubject st' <> None
    /\ conversationsSubject st' ≡ₚ conversations.
Proof.
  intros Hindex Hp Hunique Hnotindex Hmissing.
  unfold initialize, tryCatch. unfold bind at 1.
  rewrite (loadAllConversationsMetadata_stored conversations st Hindex).
  unfold bind at 1. unfold modify at 1.
  destruct (mostRecentFirst_nonempty conversations) as (h & rest & Hsorted).
  { intros ->. by apply elem_of_nil in Hp. }
  destruct (mostRecentFirst_head _ _ _ Hsorted) as [Hh Hmax].
  assert (h = p) as ->.
  { destruct (Hunique h Hh) as [-> | Hless]; [done |]. pose proof (Hmax p Hp). lia. }
  destruct conversations as [|c0 cs] eqn:Hcs; [by apply elem_of_nil in Hp |].
  rewrite <- Hcs in *.
  assert (Hrun : forall st0,
            localStorage st0 = localStorage st ->
            exists message,
              loadMostRecent conversations st0
              = Returned tt (withStorageError (Some message)
                               (withConversations (p :: rest) st0))).
  { intros st0 Hitems. unfold loadMostRecent. rewrite Hsorted.
    unfold bind at 1. unfold modify at 1.
    destruct (loadConversation_missing (c_id p) (withConversations (p :: rest) st0))
      as [message Hload].
    { left. cbn. by rewrite Hitems. }
    exists message. unfold bind, ret. by rewrite Hload. }
  destruct (Hrun (withConversations conversations st) eq_refl) as [message Hload].
  rewrite Hcs in Hload |- *. rewrite Hload. eexists. split; [reflexivity |].
  cbn. repeat split; try done.
  rewrite <- Hsorted. rewrite <- Hcs. apply sort_perm.
Qed.

Lemma initialize_with_lost_record_witness :
  localStorage sampleStorageAtStartup !! @storageKey sampleEnvironment "index"
  = Some (JsonText (JArr (map encodeMetadata
                            [h_metadata sampleOlderConversation;
                             h_metadata sampleConversation])))
  /\ h_metadata sampleConversation
     ∈ [h_metadata sampleOlderConversation; h_metadata sampleConversation]
  /\ (forall q, q ∈ [h_metadata sampleOlderConversation; h_metadata sampleConversation] ->
        q = h_metadata sampleConversation
        \/ c_updatedAt q < c_updatedAt (h_metadata sampleConversation))
  /\ c_id (h_metadata sampleConversation) <> "index"
  /\ localStorage sampleStorageAtStartup
       !! @storageKey sampleEnvironment (c_id (h_metadata sampleConversation)) = None
  /\ exists st',
       @initialize sampleEnvironment sampleStorageAtStartup = Returned tt st'
       /\ currentConversationSubject st'
          = currentConversationSubject sampleStorageAtStartup
       /\ activeConversationId st' = activeConversationId sampleStorageAtStartup
       /\ storageErrorSubject st' <> None
       /\ conversationsSubject st'
          ≡ₚ [h_metadata sampleOlderConversation; h_metadata sampleConversation].
Proof.
  assert (H1 : localStorage sampleStorageAtStartup !! @storageKey sampleEnvironment "index"
               = Some (JsonText (JArr (map encodeMetadata
                                         [h_metadata sampleOlderConversation;
                                          h_metadata sampleConversation]))))
    by reflexivity.
  assert (H2 : h_metadata sampleConversation
               ∈ [h_metadata sampleOlderConversation; h_metadata sampleConversation]).
  { right. left. }
  assert (H3 : forall q,
                 q ∈ [h_metadata sampleOlderConversation; h_metadata sampleConversation] ->
                 q = h_metadata sampleConversation
                 \/ c_updatedAt q < c_updatedAt (h_metadata sampleConversation)).
  { intros q Hq.
    apply elem_of_cons in Hq as [-> | Hq]; [by right |].
    apply elem_of_cons in Hq as [-> | Hq]; [by left | by apply elem_of_nil in Hq]. }
  assert (H4 : c_id (h_metadata sampleConversation) <> "index") by done.
  assert (H5 : localStorage sampleStorageAtStartup
                 !! @storageKey sampleEnvironment (c_id (h_metadata sampleConversation))
               = None) by reflexivity.
  repeat (split; [assumption |]).
  exact (@initialize_with_lost_record sampleEnvironment _ _ sampleStorageAtStartup
           H1 H2 H3 H4 H5).
Defined.

(** * Further properties of the completion client *)

Section StreamFacts.
Context `{Environment}.

Lemma applyEvent_service (e : EventView) (r : StreamRun) :
  service (applyEvent e r)
  = match ev_usage e with
    | Some usage => updateTokenUsage (total_tokens usage) (service r)
    | None => service r
    end.
Proof.
  unfold applyEvent, applyFinish, applyUsage, applyContent.
  destruct e as [[d|] [u|] [f|]]; simpl; done.
Qed.

Lemma applyEvent_id (e : EventView) (r : StreamRun) :
  m_id (accumulatedMessage (applyEvent e r)) = m_id (accumulatedMessage r).
Proof.
  unfold applyEvent, applyFinish, applyUsage, applyContent.
  destruct e as [[d|] [u|] [f|]]; simpl; done.
Qed.

Lemma deltasOf_cons (line : string) (lines : list string) :
  deltasOf (line :: lines)
  = match lineDelta line with
    | Some delta => delta :: deltasOf lines
    | None => deltasOf lines
    end.
Proof. reflexivity. Qed.

Lemma tokensOf_cons (line : string) (lines : list string) :
  tokensOf (line :: lines) = lineTokens line + tokensOf lines.
Proof. reflexivity. Qed.

(** What the loop does with lines of the assumed type: one emission for
    each line that carries a content delta, none for any other line. *)
Lemma processLines_sound (lines : list string) :
  Forall soundLine lines ->
  forall r, exists r',
    processLines lines r = Some r'
    /\ m_content (accumulatedMessage r')
       = m_content (accumulatedMessage r) +:+ joinAll (deltasOf lines)
    /\ m_isPending (accumulatedMessage r') = m_isPending (accumulatedMessage r)
    /\ m_sender (accumulatedMessage r') = m_sender (accumulatedMessage r)
    /\ m_isError (accumulatedMessage r') = m_isError (accumulatedMessage r)
    /\ completed (responseSubject r') = completed (responseSubject r)
    /\ service r'
       = updateTokenUsage (tokensOf lines) (service r)
    /\ exists snapshots,
         emitted (responseSubject r') = emitted (responseSubject r) ++ snapshots
         /\ map m_content snapshots
            = runningConcats (m_content (accumulatedMessage r)) (deltasOf lines)
         /\ Forall (fun m => m_isPending m = m_isPending (accumulatedMessage r)
                             /\ m_sender m = m_sender (accumulatedMessage r)
                             /\ m_isError m = m_isError (accumulatedMessage r))
              snapshots.
Proof.
  assert (Hzero : forall s, updateTokenUsage 0 s = s).
  { intros [? ? usage ? ? ?]. unfold updateTokenUsage. cbn. f_equal. lia. }
  assert (Hsum : forall a b s,
            updateTokenUsage b (updateTokenUsage a s) = updateTokenUsage (a + b) s).
  { intros a b [? ? usage ? ? ?]. unfold updateTokenUsage. cbn. f_equal. lia. }
  induction 1 as [|line lines Hsound _ IH]; intros r.
  - exists r. cbn. rewrite append_empty_r, Hzero. repeat split; try done.
    exists []. by rewrite app_nil_r.
  - cbn [processLines]. unfold processLine. rewrite deltasOf_cons, tokensOf_cons.
    unfold lineDelta, lineTokens. unfold soundLine in Hsound.
    destruct (readLine line) as [| |e]; [| done |].
    + rewrite Z.add_0_l. exact (IH r).
    + destruct (applyEvent_frame e r) as (Hp & Hs & He & Hcompl).
      pose proof (applyEvent_service e r) as Hservice.
      destruct (IH (applyEvent e r))
        as (r' & Hrun & Hc' & Hp' & Hs' & He' & Hcompl' & Hserv & snaps & Hem' & Hcs
            & Hall).
      exists r'. split; [done |].
      assert (Htokens : service r'
                = updateTokenUsage
                    (match e with
                     | {| ev_usage := Some usage |} => total_tokens usage
                     | _ => 0
                     end + tokensOf lines) (service r)).
      { rewrite Hserv, Hservice. destruct e as [c [u|] f]; cbn [ev_usage].
        - by rewrite Hsum.
        - by rewrite Z.add_0_l. }
      destruct (ev_content e) as [delta|] eqn:Hdelta.
      * destruct (applyEvent_delta e delta r Hdelta)
          as (Hc & snapshot & Hem & Hsc & Hsp & Hss & Hse).
        split.
        { rewrite Hc', Hc. cbn [joinAll fold_right]. by rewrite append_assoc. }
        split; [congruence |]. split; [congruence |]. split; [congruence |].
        split; [congruence |]. split; [done |].
        exists (snapshot :: snaps). split.
        { rewrite Hem', Hem. by rewrite <- app_assoc. }
        split.
        { cbn [map runningConcats]. by rewrite Hsc, Hcs, Hc. }
        constructor; [done |].
        eapply Forall_impl; [exact Hall |]. cbn. intros m (? & ? & ?).
        repeat split; congruence.
      * destruct (applyEvent_silent e r Hdelta) as (Hc & Hem).
        split; [by rewrite Hc', Hc |].
        split; [congruence |]. split; [congruence |]. split; [congruence |].
        split; [congruence |]. split; [done |].
        exists snaps. split; [by rewrite Hem', Hem |].
        split; [by rewrite Hcs, Hc |].
        eapply Forall_impl; [exact Hall |]. cbn. intros m (? & ? & ?).
        repeat split; congruence.
Qed.

(** However a stream that returns ends, it has completed the subject
    after an emission and has cleared the loading flag. *)
Lemma readStream_ends (startTime : Z) (cs : list string) (ending : StreamEnd)
    (r r' : StreamRun) :
  readStream startTime cs ending r = Some r' ->
  completed (responseSubject r') = true
  /\ isLoading (loadingState (service r')) = false
  /\ emitted (responseSubject r') <> [].
Proof.
  rewrite readStream_lines.
  destruct (processLines (flat_map chunkLines cs) r) as [r1|]; [| done].
  cbn [readStream]. destruct ending as [|error]; intros [= <-]; cbn;
    repeat split; try done; by destruct (emitted (responseSubject r1)).
Qed.

End StreamFacts.

(** X26.  For any lines of the assumed type, the stream emits one pending
    snapshot for each line that carries a content delta, with the deltas
    so far as its content, and nothing for any other line: usage and
    finish events, empty deltas and unparsable lines are silent.  At the
    end of the body it emits the whole content once more, no longer
    pending, and completes. *)
Theorem stream_emits_per_delta `{Environment} (s : AiService) (ok_status : Z)
    (cs : list string) :
  Forall soundLine (flat_map chunkLines cs) ->
  exists (r : StreamRun) (snapshots : list ChatMessage) (final : ChatMessage),
    streamChatCompletion
      (FetchResponse true ok_status (Some (mkResponseBody cs EndOfInput))) s = Some r
    /\ emitted (responseSubject r) = snapshots ++ [final]
    /\ map m_content snapshots = prefixConcatenations (deltasOf (flat_map chunkLines cs))
    /\ Forall pendingAnswer snapshots
    /\ m_content final = joinAll (deltasOf (flat_map chunkLines cs))
    /\ m_isPending final = Some false
    /\ m_sender final = AI
    /\ completed (responseSubject r) = true.
Proof.
  intros Hlines. unfold streamChatCompletion, setupStreamingRequest.
  cbn [chunks ending]. rewrite readStream_lines.
  match goal with
  | |- context [processLines _ ?r0] =>
      destruct (processLines_sound _ Hlines r0)
        as (r' & Hrun & Hc & Hp & Hs & He & _ & _ & snaps & Hem & Hcs & Hall)
  end.
  rewrite Hrun. cbn [readStream].
  eexists _, snaps, _. split; [reflexivity |].
  cbn in Hem, Hcs, Hc, Hp, Hs, He, Hall |- *.
  split; [by rewrite Hem |].
  split; [by rewrite Hcs, runningConcats_empty |].
  split; [eapply Forall_impl; [exact Hall |]; by intros m (? & ? & ?) |].
  done.
Qed.

Lemma stream_emits_per_delta_witness :
  Forall (@soundLine sampleEnvironment) (flat_map chunkLines sampleChunksWithMalformedLine)
  /\ exists (r : StreamRun) (snapshots : list ChatMessage) (final : ChatMessage),
       @streamChatCompletion sampleEnvironment
         (FetchResponse true 200
            (Some (mkResponseBody sampleChunksWithMalformedLine EndOfInput)))
         sampleAiService = Some r
       /\ emitted (responseSubject r) = snapshots ++ [final]
       /\ map m_content snapshots
          = prefixConcatenations
              (@deltasOf sampleEnvironment (flat_map chunkLines sampleChunksWithMalformedLine))
       /\ Forall pendingAnswer snapshots
       /\ m_content final
          = joinAll
              (@deltasOf sampleEnvironment (flat_map chunkLines sampleChunksWithMalformedLine))
       /\ m_isPending final = Some false
       /\ m_sender final = AI
       /\ completed (responseSubject r) = true.
Proof.
  assert (H1 : Forall (@soundLine sampleEnvironment)
                 (flat_map chunkLines sampleChunksWithMalformedLine)).
  { repeat constructor; by vm_compute. }
  split; [assumption |].
  exact (@stream_emits_per_delta sampleEnvironment sampleAiService 200
           sampleChunksWithMalformedLine H1).
Defined.

(** X27.  When reading the body fails, the stream ends with the
    snapshots emitted so far followed by one system-sent error message:
    the partial answer is never emitted as finished.  The subject is
    completed, the loading flag cleared and the error state set. *)
Theorem stream_read_failure `{Environment} (s : AiService) (ok_status : Z)
    (cs : list string) (error : JsError) :
  Forall soundLine (flat_map chunkLines cs) ->
  exists (r : StreamRun) (snapshots : list ChatMessage) (failure : ChatMessage),
    streamChatCompletion
      (FetchResponse true ok_status (Some (mkResponseBody cs (ReadFailure error)))) s
    = Some r
    /\ emitted (responseSubject r) = snapshots ++ [failure]
    /\ map m_content snapshots = prefixConcatenations (deltasOf (flat_map chunkLines cs))
    /\ Forall pendingAnswer snapshots
    /\ m_sender failure = SYSTEM
    /\ m_isError failure = Some true
    /\ m_content failure = "Error: " +:+ getErrorMessage (ErrorObject error)
    /\ Forall (fun m => m_isPending m <> Some false) (emitted (responseSubject r))
    /\ completed (responseSubject r) = true
    /\ isLoading (loadingState (service r)) = false
    /\ errorState (service r)
       = mkErrorState true (Some (getErrorMessage (ErrorObject error))).
Proof.
  intros Hlines. unfold streamChatCompletion, setupStreamingRequest.
  cbn [chunks ending]. rewrite readStream_lines.
  match goal with
  | |- context [processLines _ ?r0] =>
      destruct (processLines_sound _ Hlines r0)
        as (r' & Hrun & Hc & Hp & Hs & He & _ & _ & snaps & Hem & Hcs & Hall)
  end.
  rewrite Hrun. cbn [readStream].
  eexists _, snaps, _. split; [reflexivity |].
  cbn in Hem, Hcs, Hc, Hp, Hs, He, Hall |- *.
  split; [by rewrite Hem |].
  split; [by rewrite Hcs, runningConcats_empty |].
  split; [eapply Forall_impl; [exact Hall |]; by intros m (? & ? & ?) |].
  split; [done |]. split; [done |]. split; [done |]. split; [| done].
  rewrite Hem. apply Forall_app. split.
  - eapply Forall_impl; [exact Hall |]. cbn. intros m (Hpending & _). by rewrite Hpending.
  - by repeat constructor.
Qed.

Lemma stream_read_failure_witness :
  Forall (@soundLine sampleEnvironment) (flat_map chunkLines (chunks sampleBrokenBody))
  /\ exists (r : StreamRun) (snapshots : list ChatMessage) (failure : ChatMessage),
       @streamChatCompletion sampleEnvironment
         (FetchResponse true 200
            (Some (mkResponseBody (chunks sampleBrokenBody)
                     (ReadFailure (Error "network lost")))))
         sampleAiService = Some r
       /\ emitted (responseSubject r) = snapshots ++ [failure]
       /\ map m_content snapshots
          = prefixConcatenations
              (@deltasOf sampleEnvironment (flat_map chunkLines (chunks sampleBrokenBody)))
       /\ Forall pendingAnswer snapshots
       /\ m_sender failure = SYSTEM
       /\ m_isError failure = Some true
       /\ m_content failure
          = "Error: " +:+ @getErrorMessage sampleEnvironment
                            (ErrorObject (Error "network lost"))
       /\ Forall (fun m => m_isPending m <> Some false) (emitted (responseSubject r))
       /\ completed (responseSubject r) = true
       /\ isLoading (loadingState (service r)) = false
       /\ errorState (service r)
          = mkErrorState true
              (Some (@getErrorMessage sampleEnvironment (ErrorObject (Error "network lost")))).
Proof.
  assert (H1 : Forall (@soundLine sampleEnvironment)
                 (flat_map chunkLines (chunks sampleBrokenBody))).
  { repeat constructor; by vm_compute. }
  split; [assumption |].
  exact (@stream_read_failure sampleEnvironment sampleAiService 200
           (chunks sampleBrokenBody) (Error "network lost") H1).
Defined.

(** X28.  [sendMessage] never leaves the loading flag set: whichever
    way the request ends, in either mode, the flag is cleared, and a
    stream has emitted at least one message and is completed. *)
Theorem sendMessage_clears_loading `{Environment} (userMessage : string)
    (conversationHistory : list ChatMessage) (streamResponse : bool)
    (network : Network) (s : AiService) :
  match snd (sendMessage userMessage conversationHistory streamResponse network s) with
  | Streamed (Some r) =>
      isLoading (loadingState (service r)) = false
      /\ completed (responseSubject r) = true
      /\ emitted (responseSubject r) <> []
  | Streamed None => True
  | Single _ s' => isLoading (loadingState s') = false
  end.
Proof.
  unfold sendMessage. destruct streamResponse; cbn [snd].
  - destruct (streamChatCompletion _ _) as [r|] eqn:Hrun; [| done].
    unfold streamChatCompletion, setupStreamingRequest in Hrun.
    destruct (fetchAnswer network) as [error | [] status [body|]];
      try (injection Hrun as <-; cbn; repeat split; done).
    destruct (readStream_ends _ _ _ _ _ Hrun) as (? & ? & ?). done.
  - unfold getChatCompletion. destruct (postAnswer network) as [response | error].
    + by destruct (resp_usage response).
    + done.
Qed.

(** X29.  The cumulative token usage after a stream is the usage before
    it plus the [total_tokens] of every usage event delivered, whether
    the body ends or reading it fails. *)
Theorem stream_token_usage `{Environment} (s : AiService) (ok_status : Z)
    (cs : list string) (bodyEnd : StreamEnd) :
  Forall soundLine (flat_map chunkLines cs) ->
  exists r,
    streamChatCompletion
      (FetchResponse true ok_status (Some (mkResponseBody cs bodyEnd))) s = Some r
    /\ tokenUsage (service r) = tokenUsage s + tokensOf (flat_map chunkLines cs).
Proof.
  intros Hlines. unfold streamChatCompletion, setupStreamingRequest.
  cbn [chunks ending]. rewrite readStream_lines.
  match goal with
  | |- context [processLines _ ?r0] =>
      destruct (processLines_sound _ Hlines r0)
        as (r' & Hrun & _ & _ & _ & _ & _ & Hservice & _)
  end.
  rewrite Hrun. cbn [readStream].
  destruct bodyEnd as [|error]; eexists; (split; [reflexivity |]); cbn;
    by rewrite Hservice.
Qed.

Lemma stream_token_usage_witness :
  Forall (@soundLine usageEnvironment) (flat_map chunkLines sampleChunksWithUsage)
  /\ exists r,
       @streamChatCompletion usageEnvironment
         (FetchResponse true 200 (Some (mkResponseBody sampleChunksWithUsage EndOfInput)))
         sampleAiService = Some r
       /\ tokenUsage (service r)
          = tokenUsage sampleAiService
            + @tokensOf usageEnvironment (flat_map chunkLines sampleChunksWithUsage).
Proof.
  assert (H1 : Forall (@soundLine usageEnvironment)
                 (flat_map chunkLines sampleChunksWithUsage)).
  { repeat constructor; by vm_compute. }
  split; [assumption |].
  exact (@stream_token_usage usageEnvironment sampleAiService 200 sampleChunksWithUsage
           EndOfInput H1).
Defined.

(** X30.  The single-response path always clears the loading flag.  On
    success it yields one message sent by the AI whose content is never
    empty, the text "No response content" standing in for a missing
    one, and adds the reported [total_tokens] to the cumulative usage;
    on failure it yields the message [getErrorMessage] derives and sets
    the error state to it, the usage unchanged. *)
Theorem getChatCompletion_outcome `{Environment} (outcome : HttpOutcome) (s : AiService) :
  let result := getChatCompletion outcome s in
  isLoading (loadingState (snd result)) = false
  /\ match outcome, fst result with
     | HttpSuccess response, NextThenComplete message =>
         m_sender message = AI
         /\ m_content message <> ""
         /\ (resp_choices response = [] -> m_content message = "No response content")
         /\ m_isPending message = None
         /\ m_isError message = None
         /\ tokenUsage (snd result)
            = tokenUsage s + from_option usage_total_tokens 0 (resp_usage response)
         /\ errorState (snd result) = errorState s
     | HttpFailure error, ErrorNotification message =>
         message = getErrorMessage error
         /\ errorState (snd result) = mkErrorState true (Some message)
         /\ tokenUsage (snd result) = tokenUsage s
     | _, _ => False
     end.
Proof.
  unfold getChatCompletion. destruct outcome as [response | error]; cbn.
  - destruct (resp_usage response) as [usage|]; cbn; (split; [done |]);
      (split; [done |]); (split; [| split; [by intros -> |]]);
      try (repeat split; done || lia);
      by destruct (resp_choices response) as [|[[role [|a content]] finish] rest].
  - done.
Qed.
